(** * Verification of scripts/download.py (page mirroring with an asset cache)

    The script fetches one page, rewrites every reference to a remote asset
    into a reference to a local copy, downloads each asset into a flat cache
    directory and writes the rewritten markup to disk.

    Conventions of the embedding.
    - A Python [str] is modelled by the Rocq [string] holding its UTF-8
      encoding, so [path.encode()] is the identity and slicing, prefix and
      suffix tests, splitting on an ASCII character and concatenation are the
      byte-level operations.
    - White space is the white space of [str.isspace], in ASCII and outside
      it, each character by the bytes of its encoding.
    - The directories of the script are paths of the file system: they have
      no NUL, and they are short enough for the system to accept under them
      every name that it accepts. A file name is checked when the file is
      opened. The file system has no permissions and no quotas.
    - The operating system is POSIX ([os.path] is [posixpath]).
    - Effects (file system, network, standard output, exceptions) are threaded
      through the monad [M] over the record [World]. *)

From Stdlib Require Import ZArith Ascii String List Bool Lia.
From stdpp Require Import base gmap strings list fin_maps.

(* ===================================================================== *)
(** ** Python [str] methods used by the script *)
(* ===================================================================== *)

Module Str.

Definition is_empty (s : string) : bool :=
  match s with EmptyString => true | String _ _ => false end.

(** [s.startswith(p)] *)
Fixpoint startswith (s p : string) {struct p} : bool :=
  match p, s with
  | EmptyString, _ => true
  | String a p', String b s' => Ascii.eqb a b && startswith s' p'
  | String _ _, EmptyString => false
  end.

(** [s.endswith(suf)]: some suffix of [s] is [suf]. *)
Fixpoint endswith (s suf : string) : bool :=
  String.eqb s suf
  || match s with
     | EmptyString => false
     | String _ s' => endswith s' suf
     end.

Definition lower_char (c : ascii) : ascii :=
  let n := nat_of_ascii c in
  if (65 <=? n)%nat && (n <=? 90)%nat then ascii_of_nat (n + 32) else c.

(** [s.lower()] on the ASCII letters. Characters outside ASCII are bytes of
    value 128 and above here and are kept; no such character lowers to one
    of the letters the script tests for. *)
Fixpoint lower (s : string) : string :=
  match s with
  | EmptyString => EmptyString
  | String c s' => String (lower_char c) (lower s')
  end.

(** [s.split(sep)] for a one-character separator: never the empty list. *)
Fixpoint split (sep : ascii) (s : string) : list string :=
  match s with
  | EmptyString => [EmptyString]
  | String c s' =>
      if Ascii.eqb c sep then EmptyString :: split sep s'
      else match split sep s' with
           | [] => [String c EmptyString]
           | piece :: pieces => String c piece :: pieces
           end
  end.

(** White space as [str.isspace] has it. In ASCII: TAB, LF, VT, FF, CR, the
    four separators 28 to 31 and the space. *)
Definition is_space (c : ascii) : bool :=
  let n := nat_of_ascii c in
  ((9 <=? n)%nat && (n <=? 13)%nat) || ((28 <=? n)%nat && (n <=? 32)%nat).

(** In two bytes: U+0085 and U+00A0, which are C2 85 and C2 A0. *)
Definition is_space2 (c d : ascii) : bool :=
  let n := nat_of_ascii d in
  (nat_of_ascii c =? 194)%nat && ((n =? 133)%nat || (n =? 160)%nat).

(** In three bytes: U+1680 is E1 9A 80; U+2000 to U+200A, U+2028, U+2029 and
    U+202F are E2 80 and a byte from 80 to 8A, A8, A9 or AF; U+205F is
    E2 81 9F; U+3000 is E3 80 80. *)
Definition is_space3 (c d e : ascii) : bool :=
  let a := nat_of_ascii c in
  let b := nat_of_ascii d in
  let n := nat_of_ascii e in
  ((a =? 225)%nat && (b =? 154)%nat && (n =? 128)%nat)
  || ((a =? 226)%nat && (b =? 128)%nat
      && (((128 <=? n)%nat && (n <=? 138)%nat)
          || (n =? 168)%nat || (n =? 169)%nat || (n =? 175)%nat))
  || ((a =? 226)%nat && (b =? 129)%nat && (n =? 159)%nat)
  || ((a =? 227)%nat && (b =? 128)%nat && (n =? 128)%nat).

(** [s.lstrip()]: the characters of white space at the start are passed
    over, each with all its bytes. *)
Fixpoint lstrip (s : string) : string :=
  match s with
  | EmptyString => EmptyString
  | String c s1 =>
      if is_space c then lstrip s1
      else match s1 with
           | EmptyString => s
           | String d s2 =>
               if is_space2 c d then lstrip s2
               else match s2 with
                    | EmptyString => s
                    | String e s3 => if is_space3 c d e then lstrip s3 else s
                    end
           end
  end.

(** the text is white space from its start to its end *)
Definition all_space (s : string) : bool := is_empty (lstrip s).

(** [s.rstrip()]: a byte is kept unless the text from it to the end is
    white space. *)
Fixpoint rstrip (s : string) : string :=
  match s with
  | EmptyString => EmptyString
  | String c s' => if all_space s then EmptyString else String c (rstrip s')
  end.

(** [s.strip()] *)
Definition strip (s : string) : string := rstrip (lstrip s).

(** [sep.join(pieces)] *)
Definition join (sep : string) (pieces : list string) : string :=
  String.concat sep pieces.

(** [s[:n]] *)
Fixpoint take (n : nat) (s : string) : string :=
  match n, s with
  | S n', String c s' => String c (take n' s')
  | _, _ => EmptyString
  end.

(** [s[n:]] *)
Fixpoint drop (n : nat) (s : string) : string :=
  match n, s with
  | O, _ => s
  | S _, EmptyString => EmptyString
  | S n', String _ s' => drop n' s'
  end.

(** [c in s] *)
Fixpoint contains (c : ascii) (s : string) : bool :=
  match s with
  | EmptyString => false
  | String d s' => Ascii.eqb c d || contains c s'
  end.

(** [s.split(c, 1)] when [c in s]: the text before the first [c] and the
    text after it. *)
Fixpoint break_at (c : ascii) (s : string) : option (string * string) :=
  match s with
  | EmptyString => None
  | String d s' =>
      if Ascii.eqb d c then Some (EmptyString, s')
      else match break_at c s' with
           | Some (pre, post) => Some (String d pre, post)
           | None => None
           end
  end.

(** [s.replace(c, "")] *)
Fixpoint remove (c : ascii) (s : string) : string :=
  match s with
  | EmptyString => EmptyString
  | String d s' => if Ascii.eqb d c then remove c s' else String d (remove c s')
  end.

Fixpoint forallb (f : ascii -> bool) (s : string) : bool :=
  match s with
  | EmptyString => true
  | String c s' => f c && forallb f s'
  end.

(** [x in l] for a list of strings *)
Definition mem (x : string) (l : list string) : bool :=
  List.existsb (String.eqb x) l.

End Str.

(* ===================================================================== *)
(** ** [hashlib.md5(data).hexdigest()] (RFC 1321) on 32-bit words in [Z] *)
(* ===================================================================== *)

Module hashlib.
Local Open Scope Z_scope.

Definition wrap32 (x : Z) : Z := x mod 2 ^ 32.
Definition add32 (x y : Z) : Z := wrap32 (x + y).
Definition not32 (x : Z) : Z := Z.lxor x 0xFFFFFFFF.
Definition rotl32 (x n : Z) : Z :=
  Z.lor (wrap32 (Z.shiftl x n)) (Z.shiftr x (32 - n)).

(** floor(2^32 * abs(sin(i + 1))) for i = 0 .. 63 *)
Definition K : list Z :=
  [ 0xd76aa478; 0xe8c7b756; 0x242070db; 0xc1bdceee;
    0xf57c0faf; 0x4787c62a; 0xa8304613; 0xfd469501;
    0x698098d8; 0x8b44f7af; 0xffff5bb1; 0x895cd7be;
    0x6b901122; 0xfd987193; 0xa679438e; 0x49b40821;
    0xf61e2562; 0xc040b340; 0x265e5a51; 0xe9b6c7aa;
    0xd62f105d; 0x02441453; 0xd8a1e681; 0xe7d3fbc8;
    0x21e1cde6; 0xc33707d6; 0xf4d50d87; 0x455a14ed;
    0xa9e3e905; 0xfcefa3f8; 0x676f02d9; 0x8d2a4c8a;
    0xfffa3942; 0x8771f681; 0x6d9d6122; 0xfde5380c;
    0xa4beea44; 0x4bdecfa9; 0xf6bb4b60; 0xbebfbc70;
    0x289b7ec6; 0xeaa127fa; 0xd4ef3085; 0x04881d05;
    0xd9d4d039; 0xe6db99e5; 0x1fa27cf8; 0xc4ac5665;
    0xf4292244; 0x432aff97; 0xab9423a7; 0xfc93a039;
    0x655b59c3; 0x8f0ccc92; 0xffeff47d; 0x85845dd1;
    0x6fa87e4f; 0xfe2ce6e0; 0xa3014314; 0x4e0811a1;
    0xf7537e82; 0xbd3af235; 0x2ad7d2bb; 0xeb86d391 ].

(** per-round left-rotation amounts *)
Definition R : list Z :=
  [ 7; 12; 17; 22; 7; 12; 17; 22; 7; 12; 17; 22; 7; 12; 17; 22;
    5;  9; 14; 20; 5;  9; 14; 20; 5;  9; 14; 20; 5;  9; 14; 20;
    4; 11; 16; 23; 4; 11; 16; 23; 4; 11; 16; 23; 4; 11; 16; 23;
    6; 10; 15; 21; 6; 10; 15; 21; 6; 10; 15; 21; 6; 10; 15; 21 ].

Definition bytes_of (s : string) : list Z :=
  List.map (fun c => Z.of_N (N_of_ascii c)) (list_ascii_of_string s).

(** little-endian bytes of the low [n] bytes of [x] *)
Fixpoint le_bytes (n : nat) (x : Z) : list Z :=
  match n with
  | O => []
  | S n' => x mod 256 :: le_bytes n' (x / 256)
  end.

Fixpoint le_word (bs : list Z) : Z :=
  match bs with
  | [] => 0
  | b :: bs' => b + 256 * le_word bs'
  end.

(** the message, one 1 bit, zeros up to 56 modulo 64, the bit length on 8 bytes *)
Definition pad (msg : list Z) : list Z :=
  let len := Z.of_nat (List.length msg) in
  msg ++ [0x80] ++ List.repeat 0 (Z.to_nat ((55 - len) mod 64))
      ++ le_bytes 8 (8 * len).

(** the list cut into consecutive groups of [n]; [fuel] bounds the groups *)
Fixpoint chunks {A} (fuel n : nat) (l : list A) : list (list A) :=
  match fuel, l with
  | O, _ | _, [] => []
  | S fuel', _ => List.firstn n l :: chunks fuel' n (List.skipn n l)
  end.

Definition state : Type := Z * Z * Z * Z.

Definition round (M : list Z) (st : state) (i : nat) : state :=
  let '(a, b, c, d) := st in
  let zi := Z.of_nat i in
  let '(f, g) :=
    if zi <? 16 then (Z.lor (Z.land b c) (Z.land (not32 b) d), zi)
    else if zi <? 32 then
      (Z.lor (Z.land d b) (Z.land (not32 d) c), (5 * zi + 1) mod 16)
    else if zi <? 48 then (Z.lxor (Z.lxor b c) d, (3 * zi + 5) mod 16)
    else (Z.lxor c (Z.lor b (not32 d)), (7 * zi) mod 16) in
  let f' := add32 (add32 (add32 f a) (List.nth i K 0))
                  (List.nth (Z.to_nat g) M 0) in
  (d, add32 b (rotl32 f' (List.nth i R 0)), b, c).

Definition block (st : state) (chunk : list Z) : state :=
  let M := List.map le_word (chunks 16 4 chunk) in
  let '(a, b, c, d) := st in
  let '(a', b', c', d') := List.fold_left (round M) (List.seq 0 64) st in
  (add32 a a', add32 b b', add32 c c', add32 d d').

Definition init : state := (0x67452301, 0xefcdab89, 0x98badcfe, 0x10325476).

Definition digest_state (s : string) : state :=
  let padded := pad (bytes_of s) in
  List.fold_left block (chunks (List.length padded) 64 padded) init.

(** the 16 bytes of the digest *)
Definition digest (s : string) : list Z :=
  let '(a, b, c, d) := digest_state s in
  le_bytes 4 a ++ le_bytes 4 b ++ le_bytes 4 c ++ le_bytes 4 d.

Definition hex_digit (n : Z) : ascii :=
  List.nth (Z.to_nat n) (list_ascii_of_string "0123456789abcdef") "0"%char.

(** two lower-case hexadecimal digits per byte *)
Fixpoint hex (bs : list Z) : string :=
  match bs with
  | [] => EmptyString
  | b :: bs' =>
      String (hex_digit (b / 16 mod 16)) (String (hex_digit (b mod 16)) (hex bs'))
  end.

(** [hashlib.md5(s.encode()).hexdigest()] *)
Definition md5_hexdigest (s : string) : string := hex (digest s).

End hashlib.

(* ===================================================================== *)
(** ** [os.path] on a POSIX system ([posixpath], [genericpath]) *)
(* ===================================================================== *)

Module posixpath.
Local Open Scope Z_scope.

Fixpoint rfind_from (c : ascii) (s : string) (i last : Z) : Z :=
  match s with
  | EmptyString => last
  | String d s' => rfind_from c s' (i + 1) (if Ascii.eqb d c then i else last)
  end.

(** [s.rfind(c)]: the last index of [c], or -1 *)
Definition rfind (c : ascii) (s : string) : Z := rfind_from c s 0 (-1).

(** [s[i:]] and [s[:i]] for an index [0 <= i] *)
Definition slice_from (i : Z) (s : string) : string := Str.drop (Z.to_nat i) s.
Definition slice_to (i : Z) (s : string) : string := Str.take (Z.to_nat i) s.

(** the [while] loop of [genericpath._splitext]: is there a character other
    than the dot at an index in [filenameIndex, dotIndex)? *)
Fixpoint skip_leading_dots (fuel : nat) (p : string) (filenameIndex dotIndex : Z)
  : bool :=
  match fuel with
  | O => false
  | S fuel' =>
      if filenameIndex <? dotIndex then
        match String.get (Z.to_nat filenameIndex) p with
        | Some "."%char =>
            skip_leading_dots fuel' p (filenameIndex + 1) dotIndex
        | _ => true
        end
      else false
  end.

(** [os.path.splitext(p)] *)
Definition splitext (p : string) : string * string :=
  let sepIndex := rfind "/" p in
  let dotIndex := rfind "." p in
  if (dotIndex >? sepIndex)
     && skip_leading_dots (String.length p) p (sepIndex + 1) dotIndex
  then (slice_to dotIndex p, slice_from dotIndex p)
  else (p, EmptyString).

(** [os.path.join(a, b)] *)
Definition join (a b : string) : string :=
  if Str.startswith b "/" then b
  else if Str.is_empty a || Str.endswith a "/" then a +:+ b
  else a +:+ "/" +:+ b.

(** [os.path.basename(p)] *)
Definition basename (p : string) : string := slice_from (rfind "/" p + 1) p.

End posixpath.

(* ===================================================================== *)
(** ** A reference model of the [urllib.parse] functions the script calls

    The development below is parametric in [unquote], [urljoin] and
    [urlsplit]; this module transcribes CPython 3.11's definitions for URLs
    of ASCII text and instantiates the parameters in the examples. Not
    modelled: the UTF-8 decoding with replacement of percent-escapes of 128
    and above (the bytes are kept), the validation of a bracketed host and
    the NFKC check of a non-ASCII host. *)
(* ===================================================================== *)

Module urllib.

Record SplitResult : Type := mkSplit {
  scheme : string; netloc : string; path : string;
  query : string; fragment : string
}.

Definition uses_relative : list string :=
  [ ""; "ftp"; "http"; "gopher"; "nntp"; "imap"; "wais"; "file"; "https";
    "shttp"; "mms"; "prospero"; "rtsp"; "rtspu"; "sftp"; "svn"; "svn+ssh";
    "ws"; "wss" ].

Definition uses_netloc : list string :=
  [ ""; "ftp"; "http"; "gopher"; "nntp"; "telnet"; "imap"; "wais"; "file";
    "mms"; "https"; "shttp"; "snews"; "prospero"; "rtsp"; "rtspu"; "rsync";
    "svn"; "svn+ssh"; "sftp"; "nfs"; "git"; "git+ssh"; "ws"; "wss" ].

Definition uses_params : list string :=
  [ ""; "ftp"; "hdl"; "prospero"; "http"; "imap"; "https"; "shttp"; "rtsp";
    "rtspu"; "sip"; "sips"; "mms"; "sftp"; "tel" ].

Definition is_alpha (c : ascii) : bool :=
  let n := nat_of_ascii c in
  ((65 <=? n)%nat && (n <=? 90)%nat) || ((97 <=? n)%nat && (n <=? 122)%nat).

Definition is_digit (c : ascii) : bool :=
  let n := nat_of_ascii c in (48 <=? n)%nat && (n <=? 57)%nat.

Definition scheme_char (c : ascii) : bool :=
  is_alpha c || is_digit c || Str.contains c "+-.".

(** [_hexdig] and the value of a hexadecimal digit *)
Definition hex_value (c : ascii) : option nat :=
  let n := nat_of_ascii c in
  if is_digit c then Some (n - 48)
  else if (65 <=? n)%nat && (n <=? 70)%nat then Some (n - 55)
  else if (97 <=? n)%nat && (n <=? 102)%nat then Some (n - 87)
  else None.

(** [unquote(string)]: every [%XY] with two hexadecimal digits becomes the
    byte of that value; any other [%] stays. *)
Fixpoint unquote (s : string) : string :=
  match s with
  | EmptyString => EmptyString
  | String c s' =>
      if Ascii.eqb c "%" then
        match s' with
        | String a (String b rest) =>
            match hex_value a, hex_value b with
            | Some x, Some y => String (ascii_of_nat (16 * x + y)) (unquote rest)
            | _, _ => String c (unquote s')
            end
        | _ => String c (unquote s')
        end
      else String c (unquote s')
  end.

(** [_WHATWG_C0_CONTROL_OR_SPACE] *)
Definition c0_or_space (c : ascii) : bool := (nat_of_ascii c <=? 32)%nat.

Fixpoint lstrip_c0 (s : string) : string :=
  match s with
  | EmptyString => EmptyString
  | String c s' => if c0_or_space c then lstrip_c0 s' else s
  end.

Fixpoint rstrip_c0 (s : string) : string :=
  match s with
  | EmptyString => EmptyString
  | String c s' =>
      match rstrip_c0 s' with
      | EmptyString => if c0_or_space c then EmptyString else String c EmptyString
      | String d t => String c (String d t)
      end
  end.

(** the removal of [_UNSAFE_URL_BYTES_TO_REMOVE] *)
Definition remove_unsafe (s : string) : string :=
  Str.remove "010" (Str.remove "013" (Str.remove "009" s)).

(** [_splitnetloc(url, 2)] on the text after the two slashes *)
Fixpoint splitnetloc (s : string) : string * string :=
  match s with
  | EmptyString => (EmptyString, EmptyString)
  | String c s' =>
      if Str.contains c "/?#" then (EmptyString, s)
      else let '(n, rest) := splitnetloc s' in (String c n, rest)
  end.

(** [urlsplit(url, scheme)]; [None] is the [ValueError] of a host with one
    bracket only. *)
Definition urlsplit_default (url scheme : string) : option SplitResult :=
  let url := remove_unsafe (lstrip_c0 url) in
  let scheme := remove_unsafe (rstrip_c0 (lstrip_c0 scheme)) in
  let '(scheme, url) :=
    match Str.break_at ":" url with
    | Some (String c pre', post) =>
        if is_alpha c && Str.forallb scheme_char (String c pre')
        then (Str.lower (String c pre'), post)
        else (scheme, url)
    | _ => (scheme, url)
    end in
  let '(netloc, url) :=
    if Str.startswith url "//" then splitnetloc (Str.drop 2 url)
    else (EmptyString, url) in
  if xorb (Str.contains "[" netloc) (Str.contains "]" netloc) then None
  else
    let '(url, fragment) :=
      match Str.break_at "#" url with
      | Some (u, f) => (u, f)
      | None => (url, EmptyString)
      end in
    let '(url, query) :=
      match Str.break_at "?" url with
      | Some (u, q) => (u, q)
      | None => (url, EmptyString)
      end in
    Some (mkSplit scheme netloc url query fragment).

Definition urlsplit (url : string) : option SplitResult :=
  urlsplit_default url EmptyString.

(** [urlunsplit((scheme, netloc, url, query, fragment))] *)
Definition urlunsplit (scheme netloc url query fragment : string) : string :=
  let url :=
    if negb (Str.is_empty netloc)
       || (negb (Str.is_empty scheme) && Str.mem scheme uses_netloc
           && negb (String.eqb (Str.take 2 url) "//"))
    then
      let url :=
        if negb (Str.is_empty url) && negb (String.eqb (Str.take 1 url) "/")
        then "/" +:+ url else url in
      "//" +:+ netloc +:+ url
    else url in
  let url := if negb (Str.is_empty scheme) then scheme +:+ ":" +:+ url else url in
  let url := if negb (Str.is_empty query) then url +:+ "?" +:+ query else url in
  if negb (Str.is_empty fragment) then url +:+ "#" +:+ fragment else url.

(** [_splitparams(url)] when [';' in url] *)
Definition splitparams (url : string) : string * string :=
  let cut (head tail : string) :=
    match Str.break_at ";" tail with
    | Some (u, p) => (head +:+ u, p)
    | None => (head +:+ tail, EmptyString)
    end in
  if Str.contains "/" url then
    let i := Z.to_nat (posixpath.rfind "/" url) in
    cut (Str.take i url) (Str.drop i url)
  else cut EmptyString url.

Record ParseResult : Type := mkParse {
  p_scheme : string; p_netloc : string; p_path : string; p_params : string;
  p_query : string; p_fragment : string
}.

(** [urlparse(url, scheme)] *)
Definition urlparse (url scheme : string) : option ParseResult :=
  match urlsplit_default url scheme with
  | None => None
  | Some r =>
      let '(url, params) :=
        if Str.mem (urllib.scheme r) uses_params && Str.contains ";" (path r)
        then splitparams (path r) else (path r, EmptyString) in
      Some (mkParse (urllib.scheme r) (netloc r) url params (query r) (fragment r))
  end.

(** [urlunparse(components)] *)
Definition urlunparse (scheme netloc url params query fragment : string) : string :=
  let url := if negb (Str.is_empty params) then url +:+ ";" +:+ params else url in
  urlunsplit scheme netloc url query fragment.

(** [segments[1:-1] = filter(None, segments[1:-1])] *)
Definition filter_middle (segments : list string) : list string :=
  match segments with
  | [] => []
  | first :: rest =>
      match rest with
      | [] => [first]
      | _ => first
             :: List.filter (fun x => negb (Str.is_empty x)) (List.removelast rest)
             ++ [List.last rest EmptyString]
      end
  end.

(** the loop over [segments] that resolves the dot segments *)
Definition resolve_dots (segments : list string) : list string :=
  List.fold_left
    (fun resolved_path seg =>
       if String.eqb seg ".." then List.removelast resolved_path
       else if String.eqb seg "." then resolved_path
       else resolved_path ++ [seg])
    segments [].

(** [urljoin(base, url)] *)
Definition urljoin (base url : string) : option string :=
  if Str.is_empty base then Some url
  else if Str.is_empty url then Some base
  else
    match urlparse base EmptyString with
    | None => None
    | Some b =>
    match urlparse url (p_scheme b) with
    | None => None
    | Some u =>
        if negb (String.eqb (p_scheme u) (p_scheme b))
           || negb (Str.mem (p_scheme u) uses_relative)
        then Some url
        else if Str.mem (p_scheme u) uses_netloc
                && negb (Str.is_empty (p_netloc u))
        then Some (urlunparse (p_scheme u) (p_netloc u) (p_path u) (p_params u)
                              (p_query u) (p_fragment u))
        else
          let netloc :=
            if Str.mem (p_scheme u) uses_netloc then p_netloc b else p_netloc u in
          if Str.is_empty (p_path u) && Str.is_empty (p_params u) then
            Some (urlunparse (p_scheme u) netloc (p_path b) (p_params b)
                    (if Str.is_empty (p_query u) then p_query b else p_query u)
                    (p_fragment u))
          else
            let base_parts := Str.split "/" (p_path b) in
            let base_parts :=
              if negb (Str.is_empty (List.last base_parts EmptyString))
              then List.removelast base_parts else base_parts in
            let segments :=
              if String.eqb (Str.take 1 (p_path u)) "/"
              then Str.split "/" (p_path u)
              else filter_middle (base_parts ++ Str.split "/" (p_path u)) in
            let resolved_path := resolve_dots segments in
            let resolved_path :=
              if Str.mem (List.last segments EmptyString) ["."; ".."]
              then resolved_path ++ [EmptyString] else resolved_path in
            let joined := Str.join "/" resolved_path in
            Some (urlunparse (p_scheme u) netloc
                    (if Str.is_empty joined then "/" else joined)
                    (p_params u) (p_query u) (p_fragment u))
    end
    end.

End urllib.

(* ===================================================================== *)
(** ** The world the script runs in, and its monad *)
(* ===================================================================== *)

(** The exceptions that reach the top level: nothing in the script catches
    an exception. *)
Inductive exn : Type :=
| ValueError          (* urllib.parse on a malformed host, open on a NUL *)
| RequestException    (* requests.get could not produce a response *)
| KeyError            (* tag[key] on an attribute the tag does not have *)
| FileNotFoundError   (* open for writing in a directory that is missing *)
| FileExistsError     (* os.makedirs on the path of a file *)
| IsADirectoryError   (* open for writing on the path of a directory *)
| UnicodeEncodeError  (* a character the output encoding does not have *)
| OSError.            (* open on a file name that is too long *)

(** What the script reads of a [requests.Response]. [text] is the body as
    [response.text] decodes it, the fall-back [response.encoding =
    response.apparent_encoding] included. *)
Record Response : Type := mkResponse {
  status_code : Z;
  content : string;
  text : string
}.

Record World : Type := mkWorld {
  files : gmap string string;   (* path of a regular file -> its bytes *)
  dirs : gset string;           (* paths of the directories *)
  requests : list string;       (* the URLs requested so far, oldest first *)
  stdout : list string          (* the lines printed so far, oldest first *)
}.

Inductive Outcome (A : Type) : Type :=
| Return (a : A) (w : World)
| Raise (e : exn) (w : World).
Arguments Return {A} a w.
Arguments Raise {A} e w.

Definition M (A : Type) : Type := World -> Outcome A.

Definition ret {A} (a : A) : M A := fun w => Return a w.

Definition bind {A B} (c : M A) (k : A -> M B) : M B :=
  fun w => match c w with
           | Return a w' => k a w'
           | Raise e w' => Raise e w'
           end.

Definition raise {A} (e : exn) : M A := fun w => Raise e w.

Notation "x <- c ;; k" := (bind c (fun x => k))
  (at level 100, c at next level, right associativity).

(** a library call that returns or raises [ValueError] *)
Definition value_or_raise {A} (o : option A) : M A :=
  match o with
  | Some a => ret a
  | None => raise ValueError
  end.

Definition mapM {A B} (f : A -> M B) : list A -> M (list B) :=
  fix go (l : list A) : M (list B) :=
    match l with
    | [] => ret []
    | x :: l' => y <- f x ;; ys <- go l' ;; ret (y :: ys)
    end.

Definition foldM {A B} (f : B -> A -> M B) : list A -> B -> M B :=
  fix go (l : list A) (b : B) : M B :=
    match l with
    | [] => ret b
    | x :: l' => b' <- f b x ;; go l' b'
    end.

Definition path_exists (p : string) (w : World) : bool :=
  bool_decide (is_Some (files w !! p)) || bool_decide (p ∈ dirs w).

(** [os.path.exists(p)] *)
Definition os_path_exists (p : string) : M bool :=
  fun w => Return (path_exists p w) w.

(** [os.makedirs(d, exist_ok=True)] *)
Definition os_makedirs (d : string) : M unit :=
  fun w =>
    if bool_decide (is_Some (files w !! d)) then Raise FileExistsError w
    else Return tt (mkWorld (files w) ({[d]} ∪ dirs w) (requests w) (stdout w)).

(** the byte 0, which no path may hold, and the greatest length in bytes
    of a file name (Linux) *)
Definition NUL : ascii := ascii_of_nat 0.
Definition NAME_MAX : nat := 255.

(** What [open(p, mode)] for writing raises, [p] a name in the directory
    [d]: [ValueError] for a NUL in the name, before the system is asked;
    then the errors of the system, for a directory that is missing, for a
    name that is too long ([OSError] with [ENAMETOOLONG]), and for a path
    that is a directory. *)
Definition open_error (d p : string) (w : World) : option exn :=
  if Str.contains NUL (posixpath.basename p) then Some ValueError
  else if negb (bool_decide (d ∈ dirs w)) then Some FileNotFoundError
  else if (NAME_MAX <? String.length (posixpath.basename p))%nat then Some OSError
  else if bool_decide (p ∈ dirs w) then Some IsADirectoryError
  else None.

(** [open(p, mode)] for writing: the file is created, or emptied when it
    was there. *)
Definition open_for_writing (d p : string) : M unit :=
  fun w =>
    match open_error d p w with
    | Some e => Raise e w
    | None => Return tt (mkWorld (<[p := EmptyString]> (files w)) (dirs w)
                                 (requests w) (stdout w))
    end.

(** [f.write(data)] and the closing of the file *)
Definition write_and_close (p data : string) : M unit :=
  fun w => Return tt (mkWorld (<[p := data]> (files w)) (dirs w)
                              (requests w) (stdout w)).

(** [print(line)] *)
Definition print (line : string) : M unit :=
  fun w => Return tt (mkWorld (files w) (dirs w) (requests w) (stdout w ++ [line])).

(** How an f-string renders the value of [os.getenv]. *)
Definition fstring_of_env (v : option string) : string :=
  match v with
  | Some s => s
  | None => "None"
  end.

(** The code point 34, which a style value writes around a URL. *)
Definition dquote : ascii := ascii_of_nat 34.
Definition newline : ascii := ascii_of_nat 10.

(* ===================================================================== *)
(** ** The data of the script *)
(* ===================================================================== *)

(** The attributes of a tag: a [dict] in insertion order. The values the
    script reads and writes are strings; the list values that Beautiful Soup
    gives to [class], [rel] and the like stand under names none of its rules
    apply to. *)
Definition dict : Type := list (string * string).

(** [d.get(k)] *)
Fixpoint dict_get (k : string) (d : dict) : option string :=
  match d with
  | [] => None
  | (k', v) :: d' => if String.eqb k' k then Some v else dict_get k d'
  end.

(** [k in d] *)
Definition dict_has (k : string) (d : dict) : bool :=
  match dict_get k d with Some _ => true | None => false end.

(** [d[k] = v]: the value of a key that is there is replaced where it
    stands, a new key goes to the end. *)
Fixpoint dict_set (k v : string) (d : dict) : dict :=
  match d with
  | [] => [(k, v)]
  | (k', v') :: d' =>
      if String.eqb k' k then (k, v) :: d' else (k', v') :: dict_set k v d'
  end.

(** [del d[k]] *)
Definition dict_del (k : string) (d : dict) : dict :=
  List.filter (fun kv => negb (String.eqb (fst kv) k)) d.

(** [tag[k]] *)
Definition tag_getitem (k : string) (d : dict) : M string :=
  match dict_get k d with
  | Some v => ret v
  | None => raise KeyError
  end.

(** A node of the parsed page: a tag with its attributes and children, or
    anything else (text, comment, doctype). *)
#[warnings="-register-all"]
Inductive Node : Type :=
| Tag (name : string) (attrs : dict) (children : list Node)
| NavigableString (s : string).

(** What the script takes from outside: the library functions it calls that
    are not modelled here in full, the network, and its configuration. *)
Record Env : Type := mkEnv {
  (* urllib.parse.unquote *)
  unquote : string -> string;
  (* urllib.parse.urljoin and urlsplit; None is a ValueError *)
  urljoin : string -> string -> option string;
  urlsplit : string -> option urllib.SplitResult;
  (* the answer to a GET of a URL, given the URLs requested before; None is
     an exception of requests *)
  transport : list string -> string -> option Response;
  (* BeautifulSoup(content, "html.parser") and str(soup) *)
  BeautifulSoup : string -> list Node;
  soup_str : list Node -> string;
  (* os.path.dirname(__file__) *)
  script_dir : string;
  (* os.getenv("BASE_URL") and os.getenv("TARGET_URL") *)
  BASE_URL : option string;
  TARGET_URL : option string
}.

(* ===================================================================== *)
(** ** scripts/download.py *)
(* ===================================================================== *)

Definition ASSET_DIR_NAME : string := "assets".

(** Lines 100 to 104: the name of the cached file, from the path of the
    resolved URL. *)
Definition new_filename (path : string) : string :=
  let url_hash := Str.take 10 (hashlib.md5_hexdigest path) in
  let original_extension := snd (posixpath.splitext path) in
  let original_extension :=
    if Str.is_empty original_extension then ".bin" else original_extension in
  url_hash +:+ original_extension.

(** The pattern of line 84: the literal [url(] and a double quote, a lazy
    group of characters other than the line feed, a double quote and the
    literal [)]. *)
Definition url_open : string := "url(" +:+ String dquote EmptyString.
Definition url_close : string := String dquote ")".

(** The lazy group and the closing literal at the start of [s]: the group
    is extended by one character at a time until the closing literal
    follows. The result is the group and the text after the match. *)
Fixpoint lazy_group (s : string) : option (string * string) :=
  if Str.startswith s url_close then Some (EmptyString, Str.drop 2 s)
  else match s with
       | EmptyString => None
       | String c s' =>
           if Ascii.eqb c newline then None
           else match lazy_group s' with
                | Some (g, rest) => Some (String c g, rest)
                | None => None
                end
       end.

(** the whole pattern at the start of [s] *)
Definition match_here (s : string) : option (string * string) :=
  if Str.startswith s url_open then lazy_group (Str.drop 5 s) else None.

(** [match.group(0)] of a match whose group 1 is [g] *)
Definition group0 (g : string) : string := url_open +:+ g +:+ url_close.

(** [re.sub(pattern, repl, s)] for the pattern above and a function [repl]
    of group 1: the matches are searched from left to right and do not
    overlap. [skip] counts the characters of the current match that are
    still to be passed over. *)
Fixpoint re_sub_from (repl : string -> M string) (skip : nat) (s : string)
  : M string :=
  match s with
  | EmptyString => ret EmptyString
  | String c s' =>
      match skip with
      | S n => re_sub_from repl n s'
      | O =>
          match match_here s with
          | Some (g, _) =>
              r <- repl g ;;
              out <- re_sub_from repl (String.length (group0 g) - 1) s' ;;
              ret (r +:+ out)
          | None =>
              out <- re_sub_from repl 0 s' ;;
              ret (String c out)
          end
      end
  end.

Definition re_sub (repl : string -> M string) (s : string) : M string :=
  re_sub_from repl 0 s.

(** the three prefixes of [url.startswith((...))] *)
Definition remote_prefix (url : string) : bool :=
  Str.startswith url "http://" || Str.startswith url "https://"
  || Str.startswith url "//".

Section Script.

Context (E : Env).

(** [requests.get(url)] *)
Definition requests_get (url : string) : M Response :=
  fun w =>
    let w' := mkWorld (files w) (dirs w) (requests w ++ [url]) (stdout w) in
    match transport E (requests w) url with
    | Some r => Return r w'
    | None => Raise RequestException w'
    end.

(** Lines 119 to 121: the reference written into the markup. *)
Definition local_reference (parsed_url : urllib.SplitResult) : string :=
  let local_path :=
    posixpath.join ASSET_DIR_NAME (new_filename (urllib.path parsed_url)) in
  let new_url :=
    urllib.urlunsplit "" "" local_path (urllib.query parsed_url) "" in
  fstring_of_env (BASE_URL E) +:+ "/" +:+ new_url.

Definition download_and_replace_asset (asset_url base_url assets_dir : string)
  : M string :=
  if Str.is_empty asset_url || Str.startswith asset_url "data:" then
    ret asset_url
  else
    let asset_url := unquote E asset_url in
    full_url <- value_or_raise (urljoin E base_url asset_url) ;;
    parsed_url <- value_or_raise (urlsplit E full_url) ;;
    let path := urllib.path parsed_url in
    let full_local_path := posixpath.join assets_dir (new_filename path) in
    present <- os_path_exists full_local_path ;;
    if negb present then
      response <- requests_get full_url ;;
      if (status_code response =? 200)%Z then
        _ <- open_for_writing assets_dir full_local_path ;;
        _ <- write_and_close full_local_path (content response) ;;
        _ <- print ("Downloaded: " +:+ new_filename path +:+ " (Original: "
                    +:+ posixpath.basename path +:+ ")") ;;
        ret (local_reference parsed_url)
      else
        _ <- print ("Failed to download: " +:+ full_url) ;;
        ret asset_url
    else ret (local_reference parsed_url).

(* --------------------------------------------------------------------- *)
(** *** [process_style_attribute] *)

Definition replace_url (base_url assets_dir : string) (url : string) : M string :=
  if remote_prefix url then
    new_url <- download_and_replace_asset url base_url assets_dir ;;
    ret (url_open +:+ new_url +:+ url_close)
  else ret (group0 url).

Definition process_style_attribute (style base_url assets_dir : string)
  : M string :=
  re_sub (replace_url base_url assets_dir) style.

(* --------------------------------------------------------------------- *)
(** *** The body of the loop over the tags (lines 42 to 70) *)

(** Lines 42 to 45 *)
Definition drop_integrity (attrs : dict) : dict :=
  let attrs :=
    if dict_has "integrity" attrs then dict_del "integrity" attrs else attrs in
  if dict_has "crossorigin" attrs then dict_del "crossorigin" attrs else attrs.

(** Lines 48 and 49 *)
Definition rewrite_style (url assets_dir : string) (attrs : dict) : M dict :=
  if dict_has "style" attrs then
    style <- tag_getitem "style" attrs ;;
    new_style <- process_style_attribute style url assets_dir ;;
    ret (dict_set "style" new_style attrs)
  else ret attrs.

(** One turn of [for attr, value in tag.attrs.items()] (lines 52 to 62): the
    view yields the value the key has when its turn comes. *)
Definition rewrite_url_attr (url assets_dir : string) (attrs : dict)
  (attr : string) : M dict :=
  match dict_get attr attrs with
  | None => ret attrs
  | Some value =>
      if Str.endswith (Str.lower attr) "url" then
        new_value <- download_and_replace_asset value url assets_dir ;;
        ret (dict_set attr new_value attrs)
      else if Str.endswith (Str.lower attr) "urls" then
        new_values <-
          mapM (fun asset_url =>
                  download_and_replace_asset (Str.strip asset_url) url assets_dir)
               (Str.split "," value) ;;
        ret (dict_set attr (Str.join ", " new_values) attrs)
      else ret attrs
  end.

(** Lines 51 to 62: the loop over the attributes, in their order *)
Definition rewrite_url_attrs (url assets_dir : string) (attrs : dict) : M dict :=
  foldM (rewrite_url_attr url assets_dir) (List.map fst attrs) attrs.

(** Lines 65 to 70 *)
Definition rewrite_src_href (url assets_dir : string) (name : string)
  (attrs : dict) : M dict :=
  if Str.mem name ["img"; "script"; "source"] && dict_has "src" attrs then
    src <- tag_getitem "src" attrs ;;
    new_src <- download_and_replace_asset src url assets_dir ;;
    ret (dict_set "src" new_src attrs)
  else if String.eqb name "link" && dict_has "href" attrs then
    href <- tag_getitem "href" attrs ;;
    new_href <- download_and_replace_asset href url assets_dir ;;
    ret (dict_set "href" new_href attrs)
  else ret attrs.

Definition process_tag (url assets_dir : string) (name : string) (attrs : dict)
  : M dict :=
  let attrs := drop_integrity attrs in
  attrs <- rewrite_style url assets_dir attrs ;;
  attrs <- rewrite_url_attrs url assets_dir attrs ;;
  rewrite_src_href url assets_dir name attrs.

(* --------------------------------------------------------------------- *)
(** *** The document *)

(** The search of [soup.find(id=v)] through a list of siblings, given the
    search [f] through one node: [None] says the node itself is the one
    found, the flag says the search is over. *)
Definition decompose_in (f : Node -> option Node * bool)
  : list Node -> list Node * bool :=
  fix go (nodes : list Node) : list Node * bool :=
    match nodes with
    | [] => ([], false)
    | n :: rest =>
        match f n with
        | (None, _) => (rest, true)
        | (Some n', true) => (n' :: rest, true)
        | (Some n', false) =>
            let '(rest', found) := go rest in (n' :: rest', found)
        end
    end.

(** [soup.find(id=v)] followed by [decompose()]: the first tag in document
    order whose [id] is [v] leaves the tree with everything below it. *)
Fixpoint decompose_node (v : string) (n : Node) : option Node * bool :=
  match n with
  | NavigableString _ => (Some n, false)
  | Tag name attrs children =>
      match dict_get "id" attrs with
      | Some i =>
          if String.eqb i v then (None, true)
          else let '(children', found) :=
                 decompose_in (decompose_node v) children in
               (Some (Tag name attrs children'), found)
      | None =>
          let '(children', found) :=
            decompose_in (decompose_node v) children in
          (Some (Tag name attrs children'), found)
      end
  end.

Definition decompose_first (v : string) (soup : list Node) : list Node :=
  fst (decompose_in (decompose_node v) soup).

(** [for tag in soup.find_all(): ...]: the tags in document order, each
    before the tags below it. *)
Fixpoint rewrite_node (url assets_dir : string) (n : Node) : M Node :=
  match n with
  | NavigableString _ => ret n
  | Tag name attrs children =>
      attrs' <- process_tag url assets_dir name attrs ;;
      children' <- mapM (rewrite_node url assets_dir) children ;;
      ret (Tag name attrs' children')
  end.

Definition rewrite_soup (url assets_dir : string) (soup : list Node)
  : M (list Node) :=
  mapM (rewrite_node url assets_dir) soup.

(* --------------------------------------------------------------------- *)
(** *** [download_page] *)

Definition BASE_DIR : string := posixpath.join (script_dir E) "..".
Definition assets_dir : string := posixpath.join BASE_DIR ASSET_DIR_NAME.
Definition output_dir : string := posixpath.join BASE_DIR "original".
Definition output_path : string := posixpath.join output_dir "index.html".

(** [text.encode("iso-8859-1")] of a text given by its UTF-8 bytes: the
    code points up to 255 are one byte each, and [None] is the
    [UnicodeEncodeError] of any other character. *)
Fixpoint latin1_encode (s : string) : option string :=
  match s with
  | EmptyString => Some EmptyString
  | String c s' =>
      let n := nat_of_ascii c in
      if (n <? 128)%nat then option_map (String c) (latin1_encode s')
      else if (n =? 194)%nat || (n =? 195)%nat then
        match s' with
        | String d s'' =>
            let m := nat_of_ascii d in
            if (128 <=? m)%nat && (m <? 192)%nat then
              option_map (String (ascii_of_nat ((n - 192) * 64 + (m - 128))))
                         (latin1_encode s'')
            else None
        | EmptyString => None
        end
      else None
  end.

(** [f.write(text)] on a file opened with [encoding="iso-8859-1"], and the
    end of the [with] block *)
Definition write_latin1 (p text : string) : M unit :=
  match latin1_encode text with
  | Some data => write_and_close p data
  | None => raise UnicodeEncodeError
  end.

Definition download_page (url : string) : M unit :=
  _ <- os_makedirs assets_dir ;;
  response <- requests_get url ;;
  (* the text is held by its UTF-8 bytes, which the round trip through
     encode("utf-8", errors="ignore") and decode("utf-8") keeps *)
  let content := text response in
  let soup := BeautifulSoup E content in
  let soup := decompose_first "i18nWebflowScript" soup in
  soup <- rewrite_soup url assets_dir soup ;;
  _ <- open_for_writing output_dir output_path ;;
  write_latin1 output_path (soup_str E soup).

End Script.

(* ===================================================================== *)
(** ** Notions used in the statements *)
(* ===================================================================== *)

(** the world a computation leaves, whether it returns or raises *)
Definition world_of {A} (o : Outcome A) : World :=
  match o with
  | Return _ w => w
  | Raise _ w => w
  end.

(** the value a computation returns, if it returns *)
Definition result_of {A} (o : Outcome A) : option A :=
  match o with
  | Return a _ => Some a
  | Raise _ _ => None
  end.

Definition is_hex_char (c : ascii) : bool := Str.contains c "0123456789abcdef".

(** What a step of the rewriting may do to the world: it keeps every file
    there is, adds files only under cache names in [dir], keeps the
    directories, and extends the two logs. *)
Record cache_step (dir : string) (w w' : World) : Prop := mk_cache_step {
  cs_kept : forall p c, files w !! p = Some c -> files w' !! p = Some c;
  cs_new : forall p, files w' !! p <> files w !! p ->
                     exists path, p = posixpath.join dir (new_filename path);
  cs_dirs : dirs w' = dirs w;
  cs_requests : requests w `prefix_of` requests w';
  cs_stdout : stdout w `prefix_of` stdout w'
}.

(** a computation all of whose runs are such steps *)
Definition cache_only (dir : string) {A} (c : M A) : Prop :=
  forall w, cache_step dir w (world_of (c w)).

(** a file name that [open] accepts: no NUL, and no longer than the system
    allows *)
Definition writable_name (name : string) : bool :=
  negb (Str.contains NUL name) && (String.length name <=? NAME_MAX)%nat.

(** what [os.path.join] puts between [a] and a relative path *)
Definition join_sep (a : string) : string :=
  if Str.is_empty a || Str.endswith a "/" then EmptyString else "/".

(** the locators that line 88 returns as they are *)
Definition passes_through (asset_url : string) : bool :=
  Str.is_empty asset_url || Str.startswith asset_url "data:".

(** the world after a GET of [u] *)
Definition requested (u : string) (w : World) : World :=
  mkWorld (files w) (dirs w) (requests w ++ [u]) (stdout w).

(* --------------------------------------------------------------------- *)
(** *** What the style rewriter is to do, said without the scan

    A style text is cut into segments: single characters, and matches of the
    pattern given by their group 1. *)

Inductive segment : Type :=
| Lit (c : ascii)
| Match (g : string).

(** the text a segment stands for *)
Definition seg_source (x : segment) : string :=
  match x with
  | Lit c => String c EmptyString
  | Match g => group0 g
  end.

(** the pieces of a text, one after the other *)
Definition concat_all (pieces : list string) : string :=
  List.fold_right String.append EmptyString pieces.

(** The pattern matches at the start of [s]: the opening literal, a group
    free of line feeds, the closing literal. *)
Definition matches_here (s : string) : Prop :=
  exists g rest, s = group0 g +:+ rest /\ Str.contains newline g = false.

(** [g] is the group of a lazy match: it has no line feed, and the closing
    literal does not occur before the place where the match ends. *)
Definition lazy_match_group (g : string) : Prop :=
  Str.contains newline g = false
  /\ forall a b, g +:+ url_close = a +:+ url_close +:+ b -> a = g.

(** the matches that [re.sub] finds in [s], and the characters between them *)
Fixpoint segments_from (skip : nat) (s : string) : list segment :=
  match s with
  | EmptyString => []
  | String c s' =>
      match skip with
      | S n => segments_from n s'
      | O =>
          match match_here s with
          | Some (g, _) => Match g :: segments_from (String.length (group0 g) - 1) s'
          | None => Lit c :: segments_from 0 s'
          end
      end
  end.

Definition segments (s : string) : list segment := segments_from 0 s.

(** What becomes of a segment: a character stays, a match whose group has
    none of the three prefixes stays, and a match whose group has one is
    written anew around the value that the fetcher returns for the group. *)
Definition rewrite_segment (E : Env) (base_url assets_dir : string) (x : segment)
  : M string :=
  match x with
  | Lit c => ret (String c EmptyString)
  | Match g =>
      if remote_prefix g then
        r <- download_and_replace_asset E g base_url assets_dir ;;
        ret (url_open +:+ r +:+ url_close)
      else ret (group0 g)
  end.

(* --------------------------------------------------------------------- *)
(** *** White space, apart from how [strip] finds it *)

(** The code points for which [str.isspace] holds. *)
Definition space_code_points : list N :=
  [9; 10; 11; 12; 13; 28; 29; 30; 31; 32; 133; 160; 5760;
   8192; 8193; 8194; 8195; 8196; 8197; 8198; 8199; 8200; 8201; 8202;
   8232; 8233; 8239; 8287; 12288]%N.

(** The bytes of a code point below 65536 in UTF-8. *)
Definition utf8 (n : N) : string :=
  if (n <? 128)%N then String (ascii_of_N n) EmptyString
  else if (n <? 2048)%N then
    String (ascii_of_N (192 + n / 64))
      (String (ascii_of_N (128 + n mod 64)) EmptyString)
  else
    String (ascii_of_N (224 + n / 4096))
      (String (ascii_of_N (128 + (n / 64) mod 64))
         (String (ascii_of_N (128 + n mod 64)) EmptyString)).

(** the characters of white space, each as its bytes *)
Definition white_space : list string := List.map utf8 space_code_points.

(** a text of characters of white space *)
Inductive white : string -> Prop :=
| white_nil : white EmptyString
| white_cons (x s : string) : In x white_space -> white s -> white (x +:+ s).

(* --------------------------------------------------------------------- *)
(** *** The rules of the loop body, by the name of the attribute *)

(** line 52 and line 55 *)
Definition ends_url (k : string) : bool := Str.endswith (Str.lower k) "url".
Definition ends_urls (k : string) : bool := Str.endswith (Str.lower k) "urls".

(** the tags of line 65 *)
Definition is_media (name : string) : bool :=
  Str.mem name ["img"; "script"; "source"].

(** the attribute [k] of a tag named [name] is under none of the rules *)
Definition under_no_rule (name k : string) : bool :=
  negb (ends_url k) && negb (ends_urls k)
  && negb (String.eqb k "style")
  && negb (String.eqb k "integrity") && negb (String.eqb k "crossorigin")
  && negb (String.eqb k "src" && is_media name)
  && negb (String.eqb k "href" && String.eqb name "link").

(** Two trees of the same shape, tag by tag under the same name, whose
    attributes are related by [R]. *)
#[warnings="-register-all"]
Inductive same_shape (R : string -> dict -> dict -> Prop) : Node -> Node -> Prop :=
| shape_string (s : string) :
    same_shape R (NavigableString s) (NavigableString s)
| shape_tag (name : string) (attrs attrs' : dict) (children children' : list Node) :
    R name attrs attrs' ->
    Forall2 (same_shape R) children children' ->
    same_shape R (Tag name attrs children) (Tag name attrs' children').

(* --------------------------------------------------------------------- *)
(** *** The names and the places of the cached files *)

(** lines 101 to 103: the extension of the cached file *)
Definition cached_extension (path : string) : string :=
  if Str.is_empty (snd (posixpath.splitext path)) then ".bin"
  else snd (posixpath.splitext path).

(** The file [p] of the world [w'] holds the body of an answer of status
    200 to a request made on the way from [w] to [w'], after the requests of
    [w], for a URL whose path gives [p] its name in [dir]. *)
Definition fetched_from (E : Env) (dir : string) (w w' : World) (p : string)
  : Prop :=
  exists l u s r,
    requests w `prefix_of` l
    /\ (l ++ [u]) `prefix_of` requests w'
    /\ transport E l u = Some r
    /\ status_code r = 200%Z
    /\ urlsplit E u = Some s
    /\ p = posixpath.join dir (new_filename (urllib.path s))
    /\ files w' !! p = Some (content r).

(** from [w] to [w']: the requests go on, the files stay, and what is new
    or changed has been fetched *)
Definition provenance (E : Env) (dir : string) (w w' : World) : Prop :=
  requests w `prefix_of` requests w'
  /\ (forall p c, files w !! p = Some c -> files w' !! p = Some c)
  /\ forall p, files w' !! p <> files w !! p -> fetched_from E dir w w' p.

(* --------------------------------------------------------------------- *)
(** *** The document as a sequence, and the tag that [find] finds *)

(** The document read from left to right: the opening of a tag, its end, a
    text. *)
Inductive event : Type :=
| Open (name : string) (attrs : dict)
| Close
| Text (s : string).

Fixpoint events_of (n : Node) : list event :=
  match n with
  | NavigableString s => [Text s]
  | Tag name attrs children =>
      Open name attrs :: List.flat_map events_of children ++ [Close]
  end.

Definition events (soup : list Node) : list event := List.flat_map events_of soup.

(** the test of [find(id=v)] on the attributes of a tag *)
Definition id_is (v : string) (attrs : dict) : bool :=
  match dict_get "id" attrs with
  | Some i => String.eqb i v
  | None => false
  end.

Definition opens_id (v : string) (e : event) : bool :=
  match e with
  | Open _ attrs => id_is v attrs
  | _ => false
  end.

(** [after] is [before] without the first tag whose [id] is [v] and without
    what is below that tag *)
Definition removed_from (v : string) (before after : list event) : Prop :=
  exists pre name attrs children post,
    before = pre ++ events_of (Tag name attrs children) ++ post
    /\ List.existsb (opens_id v) pre = false
    /\ id_is v attrs = true
    /\ after = pre ++ post.

(** the names that lines 42 to 45 leave to a tag *)
Definition kept_name (k : string) : bool :=
  negb (String.eqb k "integrity") && negb (String.eqb k "crossorigin").

(* --------------------------------------------------------------------- *)
(** *** Properties that the rewriting keeps from call to call *)

(** Every run of [c] from a world in [Pre] that returns ends in a world in
    [Pre] which [T] relates to the first, and every run that raises raises
    an exception that [Ex] allows in the world it leaves. *)
Definition obeys (Pre : World -> Prop) (T : World -> World -> Prop)
  (Ex : exn -> World -> Prop) {A} (c : M A) : Prop :=
  forall w, Pre w ->
    match c w with
    | Return _ w' => Pre w' /\ T w w'
    | Raise e w' => Ex e w'
    end.

(** the cache is warm for [c]: a run of [c] that returned returns the same
    again, without a change of the world, in every world that the cache has
    reached from the one it left *)
Definition warm (dir : string) {A} (c : M A) : Prop :=
  cache_only dir c
  /\ forall w a w', c w = Return a w' ->
       forall w'', cache_step dir w' w'' -> c w'' = Return a w''.

(** the line that the fetcher prints about the request of [u] *)
Definition report_of (E : Env) (u line : string) : Prop :=
  line = "Failed to download: " +:+ u
  \/ exists s, urlsplit E u = Some s
               /\ line = "Downloaded: " +:+ new_filename (urllib.path s)
                         +:+ " (Original: " +:+ posixpath.basename (urllib.path s)
                         +:+ ")".

(** from [w] to [w']: requests were added, and one line about each *)
Definition reports (E : Env) (w w' : World) : Prop :=
  exists reqs lines,
    requests w' = requests w ++ reqs
    /\ stdout w' = stdout w ++ lines
    /\ Forall2 (report_of E) reqs lines.


(** a character of ASCII, by its byte *)
Definition is_ascii_char (c : ascii) : bool := (nat_of_ascii c <? 128)%nat.

(** the environment [E] on another network *)
Definition with_transport (E : Env)
  (net : list string -> string -> option Response) : Env :=
  mkEnv (unquote E) (urljoin E) (urlsplit E) net (BeautifulSoup E) (soup_str E)
        (script_dir E) (BASE_URL E) (TARGET_URL E).

(** the network of [E], except that the answer to the request of [url] made
    after the requests [l0] carries the status [status] *)
Definition with_status (E : Env) (l0 : list string) (url : string) (status : Z)
  : list string -> string -> option Response :=
  fun l u =>
    if bool_decide (l = l0) && String.eqb u url then
      match transport E l u with
      | Some r => Some (mkResponse status (content r) (text r))
      | None => None
      end
    else transport E l u.

(** [c1] and [c2] do the same in every world with more than [n] requests,
    and leave more than [n] requests *)
Definition agree (n : nat) {A} (c1 c2 : M A) : Prop :=
  forall w, n < List.length (requests w) ->
    c1 w = c2 w /\ n < List.length (requests (world_of (c1 w))).

(* --------------------------------------------------------------------- *)
(** *** Environments and worlds of the examples *)

(** the reference model of [urllib.parse], a mirror configured at
    [https://mirror.example], the script in the directory [.] and a network
    [net]; the page itself plays no part in the examples of the fetcher *)
Definition example_env (net : list string -> string -> option Response) : Env :=
  mkEnv urllib.unquote urllib.urljoin urllib.urlsplit net
        (fun _ => []) (fun _ => EmptyString) "."
        (Some "https://mirror.example") (Some "https://example.com/page/").

(** a network that answers every GET with status 200, and one that answers
    every GET with status 404 *)
Definition net_200 (_ : list string) (u : string) : option Response :=
  Some (mkResponse 200 ("bytes of " +:+ u) EmptyString).

Definition net_404 (_ : list string) (_ : string) : option Response :=
  Some (mkResponse 404 "Not Found" EmptyString).

(** nothing on disk but the cache directory *)
Definition fresh_world (dir : string) : World := mkWorld ∅ {[dir]} [] [].

(** a page with a link of navigation, a video, a style sheet under
    subresource integrity, a list of images and an image *)
Definition example_soup : list Node :=
  [ Tag "a" [("href", "https://example.com/next"); ("class", "nav")]
        [NavigableString "next"];
    Tag "video" [("src", "https://example.com/clip.mp4")] [];
    Tag "link" [("rel", "stylesheet"); ("href", "site.css");
                ("integrity", "sha384-x"); ("crossorigin", "anonymous")] [];
    Tag "div" [("data-urls", "https://a.com/1.png, https://a.com/2.png");
               ("data-poster-url", "poster.jpg"); ("id", "hero")]
        [Tag "img" [("src", "img/logo.png"); ("alt", "logo")] []] ].

(** the same page after the walk, from a network that answers 200 *)
Definition example_soup_mirrored : list Node :=
  [ Tag "a" [("href", "https://example.com/next"); ("class", "nav")]
        [NavigableString "next"];
    Tag "video" [("src", "https://example.com/clip.mp4")] [];
    Tag "link" [("rel", "stylesheet");
                ("href", "https://mirror.example/assets/b28ae46457.css")] [];
    Tag "div" [("data-urls",
                "https://mirror.example/assets/e0bd866067.png, https://mirror.example/assets/e43058cb90.png");
               ("data-poster-url", "https://mirror.example/assets/99d2b08ba4.jpg");
               ("id", "hero")]
        [Tag "img" [("src", "https://mirror.example/assets/0085aa6192.png");
                    ("alt", "logo")] []] ].

(** The page [<p>€</p>], whose one character, the euro sign, is the three
    bytes 226, 130, 172 in UTF-8 and has no code in ISO 8859-1; what the
    parser makes of the page, and the text of that tree. *)
Definition euro : string :=
  String (ascii_of_nat 226) (String (ascii_of_nat 130) (String (ascii_of_nat 172) "")).

Definition euro_page : string := "<p>" +:+ euro +:+ "</p>".

Definition euro_soup : list Node := [Tag "p" [] [NavigableString euro]].

(** an environment in which the target page is that page: the network
    answers every GET with it, the parser and [str] are given at it *)
Definition euro_env : Env :=
  mkEnv urllib.unquote urllib.urljoin urllib.urlsplit
        (fun _ _ => Some (mkResponse 200 euro_page euro_page))
        (fun _ => euro_soup) (fun _ => euro_page) "."
        (Some "https://mirror.example") (Some "https://example.com/page/").

(** nothing on disk but the directory of the output *)
Definition world_with_output_dir : World :=
  mkWorld ∅ {["./../original"]} [] [].

(** an environment whose network is down *)
Definition offline_env : Env :=
  example_env (fun _ _ => None).

(** a locator whose extension has 260 letters *)
Definition long_locator : string :=
  "a." +:+ string_of_list_ascii (List.repeat "x"%char 260).

(** an environment in which [BASE_URL] is not set *)
Definition unconfigured_env : Env :=
  mkEnv urllib.unquote urllib.urljoin urllib.urlsplit net_200
        (fun _ => []) (fun _ => EmptyString) "."
        None (Some "https://example.com/page/").

(** a plain rendering of a tree, which stands for [str(soup)] in the
    examples *)
Fixpoint example_render (n : Node) : string :=
  match n with
  | NavigableString s => s
  | Tag name attrs children =>
      "<" +:+ name
      +:+ concat_all (List.map (fun kv => " " +:+ fst kv +:+ "="
                                          +:+ String dquote (snd kv)
                                          +:+ String dquote EmptyString) attrs)
      +:+ ">" +:+ concat_all (List.map example_render children)
      +:+ "</" +:+ name +:+ ">"
  end.

(** an environment whose target page parses to [example_soup] *)
Definition page_env : Env :=
  mkEnv urllib.unquote urllib.urljoin urllib.urlsplit net_200
        (fun _ => example_soup)
        (fun soup => concat_all (List.map example_render soup)) "."
        (Some "https://mirror.example") (Some "https://example.com/page/").

(** a tag with a remote image in its style, and the tag after the walk *)
Definition styled_soup : list Node :=
  [ Tag "div" [("style", "background:url(" +:+ String dquote "https://x.com/a.png"
                           +:+ String dquote ") no-repeat")] [] ].

Definition styled_soup_mirrored : list Node :=
  [ Tag "div" [("style", "background:url("
                           +:+ String dquote "https://mirror.example/assets/8383dc4090.png"
                           +:+ String dquote ") no-repeat")] [] ].

(* ===================================================================== *)
(** ** The library models on known values *)
(* ===================================================================== *)

(** the test suite of RFC 1321 *)
Example md5_of_empty :
  hashlib.md5_hexdigest ""
  = "d41d8cd98f00b204e9800998ecf8427e".
Proof. vm_compute. reflexivity. Qed.

Example md5_of_a :
  hashlib.md5_hexdigest "a"
  = "0cc175b9c0f1b6a831c399e269772661".
Proof. vm_compute. reflexivity. Qed.

Example md5_of_abc :
  hashlib.md5_hexdigest "abc"
  = "900150983cd24fb0d6963f7d28e17f72".
Proof. vm_compute. reflexivity. Qed.

Example md5_of_message_digest :
  hashlib.md5_hexdigest "message digest"
  = "f96b697d7cb7938d525a2f31aaf161d0".
Proof. vm_compute. reflexivity. Qed.

Example md5_of_alphabet :
  hashlib.md5_hexdigest "abcdefghijklmnopqrstuvwxyz"
  = "c3fcd3d76192e4007dfb496cca67e13b".
Proof. vm_compute. reflexivity. Qed.

Example md5_of_eighty_digits :
  hashlib.md5_hexdigest "12345678901234567890123456789012345678901234567890123456789012345678901234567890"
  = "57edf4a22be3c955ac49da2e2107b67a".
Proof. vm_compute. reflexivity. Qed.

(** [os.path.splitext], [os.path.join] and [os.path.basename] *)
Example splitext_values :
  posixpath.splitext "/a/b.tar.gz" = ("/a/b.tar", ".gz") /\
  posixpath.splitext "/a.b/c" = ("/a.b/c", "") /\
  posixpath.splitext "/a/.bashrc" = ("/a/.bashrc", "") /\
  posixpath.splitext "/a/..x.y" = ("/a/..x", ".y") /\
  posixpath.splitext "x." = ("x", ".").
Proof. repeat split; vm_compute; reflexivity. Qed.

Example join_and_basename_values :
  posixpath.join "a" "b" = "a/b" /\
  posixpath.join "a/" "b" = "a/b" /\
  posixpath.join "" "b" = "b" /\
  posixpath.join "a" "/b" = "/b" /\
  posixpath.basename "/a/b.c" = "b.c" /\
  posixpath.basename "b.c" = "b.c" /\
  posixpath.basename "a/" = "".
Proof. repeat split; vm_compute; reflexivity. Qed.

(** [urljoin] on the examples of RFC 3986, section 5.4, and on URLs that the
    page of a site carries *)
Example urljoin_values :
  urllib.urljoin "http://a/b/c/d;p?q" "g" = Some "http://a/b/c/g" /\
  urllib.urljoin "http://a/b/c/d;p?q" "./g" = Some "http://a/b/c/g" /\
  urllib.urljoin "http://a/b/c/d;p?q" "g/" = Some "http://a/b/c/g/" /\
  urllib.urljoin "http://a/b/c/d;p?q" "/g" = Some "http://a/g" /\
  urllib.urljoin "http://a/b/c/d;p?q" "//g" = Some "http://g" /\
  urllib.urljoin "http://a/b/c/d;p?q" "?y" = Some "http://a/b/c/d;p?y" /\
  urllib.urljoin "http://a/b/c/d;p?q" "g?y" = Some "http://a/b/c/g?y" /\
  urllib.urljoin "http://a/b/c/d;p?q" "#s" = Some "http://a/b/c/d;p?q#s" /\
  urllib.urljoin "http://a/b/c/d;p?q" "g#s" = Some "http://a/b/c/g#s" /\
  urllib.urljoin "http://a/b/c/d;p?q" ";x" = Some "http://a/b/c/;x" /\
  urllib.urljoin "http://a/b/c/d;p?q" "g;x" = Some "http://a/b/c/g;x" /\
  urllib.urljoin "http://a/b/c/d;p?q" "." = Some "http://a/b/c/" /\
  urllib.urljoin "http://a/b/c/d;p?q" "./" = Some "http://a/b/c/" /\
  urllib.urljoin "http://a/b/c/d;p?q" ".." = Some "http://a/b/" /\
  urllib.urljoin "http://a/b/c/d;p?q" "../g" = Some "http://a/b/g" /\
  urllib.urljoin "http://a/b/c/d;p?q" "../.." = Some "http://a/" /\
  urllib.urljoin "http://a/b/c/d;p?q" "../../g" = Some "http://a/g" /\
  urllib.urljoin "http://a/b/c/d;p?q" "../../../g" = Some "http://a/g" /\
  urllib.urljoin "http://a/b/c/d;p?q" "g/./h" = Some "http://a/b/c/g/h" /\
  urllib.urljoin "http://a/b/c/d;p?q" "g/../h" = Some "http://a/b/c/h" /\
  urllib.urljoin "http://a/b/c/d;p?q" "mailto:x@y" = Some "mailto:x@y" /\
  urllib.urljoin "http://a/b/c/d;p?q" "https://cdn.example/lib.js" = Some "https://cdn.example/lib.js".
Proof. repeat split; vm_compute; reflexivity. Qed.

(** [urlsplit] and [unquote] *)
Example urlsplit_and_unquote_values :
  urllib.urlsplit "http://h/a.png?x=A#f" = Some (urllib.mkSplit "http" "h" "/a.png" "x=A" "f") /\
  urllib.urlsplit "a.png?x=%41" = Some (urllib.mkSplit "" "" "a.png" "x=%41" "") /\
  urllib.urlsplit "//x/y?z" = Some (urllib.mkSplit "" "x" "/y" "z" "") /\
  urllib.urlsplit "mailto:x?y" = Some (urllib.mkSplit "mailto" "" "x" "y" "") /\
  urllib.urlsplit "HTTP://H/p;a?b" = Some (urllib.mkSplit "http" "H" "/p;a" "b" "") /\
  urllib.unquote "img/my%20logo.png" = "img/my logo.png" /\
  urllib.unquote "a%2Fb%3Fc" = "a/b?c" /\
  urllib.unquote "100%" = "100%" /\
  urllib.unquote "%zz%41" = "%zzA" /\
  urllib.unquote "%4" = "%4".
Proof. repeat split; vm_compute; reflexivity. Qed.

(** [str.split], [str.strip] and [str.join] *)
Example str_values :
  Str.split "," "a, b,,c" = ["a"; " b"; ""; "c"] /\
  Str.split "," "" = [""] /\
  Str.strip "  a b  " = "a b" /\
  Str.strip "   " = "" /\
  Str.strip (String (ascii_of_nat 194) (String (ascii_of_nat 160) "a ")) = "a" /\
  Str.join ", " ["a"; "b"; "c"] = "a, b, c" /\
  Str.join ", " [] = "" /\
  Str.endswith (Str.lower "Data-URLs") "urls" = true /\
  Str.endswith (Str.lower "curl") "url" = true /\
  Str.endswith (Str.lower "src") "url" = false.
Proof. repeat split; vm_compute; reflexivity. Qed.

(* ===================================================================== *)
(** ** Facts about strings *)
(* ===================================================================== *)

Lemma append_nil_l (s : string) : "" +:+ s = s.
Proof. reflexivity. Qed.

Lemma append_cons (c : ascii) (s t : string) : String c s +:+ t = String c (s +:+ t).
Proof. reflexivity. Qed.

Lemma append_nil_r (s : string) : s +:+ "" = s.
Proof. induction s as [|c s IH]; [reflexivity|]. rewrite append_cons. by rewrite IH. Qed.

Lemma append_assoc (a b c : string) : (a +:+ b) +:+ c = a +:+ (b +:+ c).
Proof.
  induction a as [|x a IH]; [reflexivity|].
  rewrite !append_cons. by rewrite IH.
Qed.

Lemma append_length (a b : string) :
  String.length (a +:+ b) = String.length a + String.length b.
Proof.
  induction a as [|x a IH]; [reflexivity|].
  rewrite append_cons. simpl. by rewrite IH.
Qed.

Lemma append_inj_l (a x y : string) : a +:+ x = a +:+ y -> x = y.
Proof.
  induction a as [|c a IH]; [done|].
  rewrite !append_cons. intros H. injection H as H. auto.
Qed.

Lemma startswith_spec (s p : string) :
  Str.startswith s p = true <-> exists r, s = p +:+ r.
Proof.
  revert s. induction p as [|c p IH]; intros s.
  - destruct s; cbn [Str.startswith]; split; eauto.
  - destruct s as [|d s]; cbn [Str.startswith].
    + split; [done|]. intros [r Hr]. rewrite append_cons in Hr. discriminate.
    + rewrite andb_true_iff, Ascii.eqb_eq, IH. split.
      * intros [-> [r ->]]. exists r. by rewrite append_cons.
      * intros [r Hr]. rewrite append_cons in Hr. injection Hr as -> ->. eauto.
Qed.

Lemma startswith_app (p r : string) : Str.startswith (p +:+ r) p = true.
Proof. apply startswith_spec. eauto. Qed.

Lemma drop_app (p r : string) : Str.drop (String.length p) (p +:+ r) = r.
Proof. induction p as [|c p IH]; [by destruct r|]. rewrite append_cons. simpl. done. Qed.

Lemma endswith_spec (s suf : string) :
  Str.endswith s suf = true <-> exists p, s = p +:+ suf.
Proof.
  induction s as [|c s IH]; cbn [Str.endswith].
  - rewrite orb_false_r, String.eqb_eq. split.
    + intros <-. by exists "".
    + intros [p Hp]. destruct p; [done|]. rewrite append_cons in Hp. discriminate.
  - rewrite orb_true_iff, String.eqb_eq, IH. split.
    + intros [<-|[p ->]]; [by exists ""|]. exists (String c p). by rewrite append_cons.
    + intros [p Hp]. destruct p as [|d p]; [left; done|].
      rewrite append_cons in Hp. injection Hp as -> ->. right. eauto.
Qed.

Lemma contains_cons (c d : ascii) (s : string) :
  Str.contains c (String d s) = Ascii.eqb c d || Str.contains c s.
Proof. reflexivity. Qed.

Lemma take_length (n : nat) (s : string) :
  n <= String.length s -> String.length (Str.take n s) = n.
Proof.
  revert s. induction n as [|n IH]; intros [|c s] H; simpl in *; try lia.
  rewrite IH; lia.
Qed.

Lemma forallb_take (f : ascii -> bool) (n : nat) (s : string) :
  Str.forallb f s = true -> Str.forallb f (Str.take n s) = true.
Proof.
  revert s. induction n as [|n IH]; intros [|c s]; simpl; try done.
  rewrite !andb_true_iff. intros [? ?]. auto.
Qed.

Lemma hex_digit_is_hex (n : Z) :
  (0 <= n < 16)%Z -> is_hex_char (hashlib.hex_digit n) = true.
Proof.
  intros H. unfold hashlib.hex_digit.
  remember (Z.to_nat n) as k eqn:Hk.
  assert (k < 16) as Hlt by lia. clear Hk H.
  do 16 (destruct k as [|k]; [reflexivity|]). lia.
Qed.

Lemma hex_length (bs : list Z) : String.length (hashlib.hex bs) = 2 * List.length bs.
Proof. induction bs as [|b bs IH]; simpl; lia. Qed.

Lemma hex_is_hex (bs : list Z) : Str.forallb is_hex_char (hashlib.hex bs) = true.
Proof.
  induction bs as [|b bs IH]; [done|]. simpl.
  rewrite !hex_digit_is_hex, IH; [done| |]; apply Z.mod_pos_bound; lia.
Qed.

Lemma digest_length (s : string) : List.length (hashlib.digest s) = 16.
Proof. unfold hashlib.digest. by destruct (hashlib.digest_state s) as [[[a b] c] d]. Qed.

Lemma md5_hexdigest_length (s : string) : String.length (hashlib.md5_hexdigest s) = 32.
Proof. unfold hashlib.md5_hexdigest. rewrite hex_length, digest_length. done. Qed.

Lemma md5_hexdigest_is_hex (s : string) :
  Str.forallb is_hex_char (hashlib.md5_hexdigest s) = true.
Proof. apply hex_is_hex. Qed.

(* ===================================================================== *)
(** ** White space, the case of letters and the commas *)
(* ===================================================================== *)

Lemma white_space_inv (x : string) :
  In x white_space ->
  (exists c, x = String c "" /\ Str.is_space c = true)
  \/ (exists c d, x = String c (String d "")
                  /\ Str.is_space c = false /\ Str.is_space2 c d = true)
  \/ (exists c d e, x = String c (String d (String e ""))
                    /\ Str.is_space c = false /\ Str.is_space2 c d = false
                    /\ Str.is_space3 c d e = true).
Proof.
  intros H. vm_compute in H.
  repeat (destruct H as [<-|H];
          [first [ left; eexists; split; reflexivity
                 | right; left; eexists _, _; repeat split; reflexivity
                 | right; right; eexists _, _, _; repeat split; reflexivity ]|]).
  done.
Qed.

Lemma ascii_of_code (c : ascii) (n : nat) : nat_of_ascii c = n -> c = ascii_of_nat n.
Proof. intros <-. by rewrite ascii_nat_embedding. Qed.

Lemma white_space_intro1 (c : ascii) :
  Str.is_space c = true -> In (String c "") white_space.
Proof.
  destruct c as [[] [] [] [] [] [] [] []]; vm_compute; intros H;
    try discriminate H; tauto.
Qed.

Lemma white_space_intro2 (c d : ascii) :
  Str.is_space2 c d = true -> In (String c (String d "")) white_space.
Proof.
  unfold Str.is_space2. cbv zeta. rewrite andb_true_iff, orb_true_iff, !Nat.eqb_eq.
  intros [Hc Hd]. apply ascii_of_code in Hc as ->.
  destruct Hd as [Hd|Hd]; apply ascii_of_code in Hd as ->; vm_compute; tauto.
Qed.

Lemma white_space_intro3 (c d e : ascii) :
  Str.is_space3 c d e = true -> In (String c (String d (String e ""))) white_space.
Proof.
  unfold Str.is_space3. cbv zeta.
  rewrite !orb_true_iff, !andb_true_iff, !orb_true_iff, !andb_true_iff,
    !Nat.eqb_eq, !Nat.leb_le.
  intros H.
  assert (exists a b n, c = ascii_of_nat a /\ d = ascii_of_nat b /\ e = ascii_of_nat n
            /\ ((a = 225 /\ b = 154 /\ n = 128)
                \/ (a = 226 /\ b = 128
                    /\ (128 <= n <= 138 \/ n = 168 \/ n = 169 \/ n = 175))
                \/ (a = 226 /\ b = 129 /\ n = 159)
                \/ (a = 227 /\ b = 128 /\ n = 128)))
    as (a & b & n & -> & -> & -> & Hn).
  { exists (nat_of_ascii c), (nat_of_ascii d), (nat_of_ascii e).
    rewrite !ascii_nat_embedding. repeat split. lia. }
  destruct Hn as [(-> & -> & ->)|[(-> & -> & Hn)|[(-> & -> & ->)|(-> & -> & ->)]]];
    try (vm_compute; tauto).
  assert (n = 128 \/ n = 129 \/ n = 130 \/ n = 131 \/ n = 132 \/ n = 133 \/ n = 134
          \/ n = 135 \/ n = 136 \/ n = 137 \/ n = 138 \/ n = 168 \/ n = 169 \/ n = 175)
    as Hcases by lia.
  repeat (destruct Hcases as [->|Hcases]; [vm_compute; tauto|]).
  subst n. vm_compute. tauto.
Qed.

(** a character of white space at the start is passed over *)
Lemma lstrip_white_head (x s : string) :
  In x white_space -> Str.lstrip (x +:+ s) = Str.lstrip s.
Proof.
  intros H. apply white_space_inv in H
    as [(c & -> & Hc)|[(c & d & -> & Hc & Hd)|(c & d & e & -> & Hc & Hd & He)]].
  - rewrite append_cons, append_nil_l. cbn [Str.lstrip]. by rewrite Hc.
  - rewrite !append_cons, append_nil_l. cbn [Str.lstrip]. by rewrite Hc, Hd.
  - rewrite !append_cons, append_nil_l. cbn [Str.lstrip]. by rewrite Hc, Hd, He.
Qed.

Lemma white_space_length (x : string) : In x white_space -> 0 < String.length x.
Proof.
  intros H. apply white_space_inv in H
    as [(c & -> & _)|[(c & d & -> & _)|(c & d & e & -> & _)]]; cbn; lia.
Qed.

(** one step of [lstrip]: a character of white space is passed over, or
    the text does not begin with one and is kept *)
Lemma lstrip_cases (s : string) :
  (exists x r, In x white_space /\ s = x +:+ r /\ Str.lstrip s = Str.lstrip r)
  \/ (Str.lstrip s = s /\ forall x, In x white_space -> Str.startswith s x = false).
Proof.
  assert (forall c r, Str.is_space c = true ->
            exists x r', In x white_space /\ String c r = x +:+ r'
                         /\ Str.lstrip (String c r) = Str.lstrip r') as H1.
  { intros c r Hc. exists (String c ""), r. split; [by apply white_space_intro1|].
    split; [done|]. cbn [Str.lstrip]. by rewrite Hc. }
  assert (forall c d r, Str.is_space c = false -> Str.is_space2 c d = true ->
            exists x r', In x white_space /\ String c (String d r) = x +:+ r'
                         /\ Str.lstrip (String c (String d r)) = Str.lstrip r') as H2.
  { intros c d r Hc Hd. exists (String c (String d "")), r.
    split; [by apply white_space_intro2|]. split; [done|].
    cbn [Str.lstrip]. by rewrite Hc, Hd. }
  assert (forall c d e r, Str.is_space c = false -> Str.is_space2 c d = false ->
            Str.is_space3 c d e = true ->
            exists x r', In x white_space /\ String c (String d (String e r)) = x +:+ r'
                         /\ Str.lstrip (String c (String d (String e r)))
                            = Str.lstrip r') as H3.
  { intros c d e r Hc Hd He. exists (String c (String d (String e ""))), r.
    split; [by apply white_space_intro3|]. split; [done|].
    cbn [Str.lstrip]. by rewrite Hc, Hd, He. }
  destruct s as [|c s1].
  { right. split; [done|]. intros x Hx. apply white_space_length in Hx.
    destruct x; [cbn in Hx; lia|done]. }
  destruct (Str.is_space c) eqn:Hc; [left; by apply H1|].
  destruct s1 as [|d s2].
  { right. split; [cbn [Str.lstrip]; by rewrite Hc|]. intros x Hx.
    apply white_space_inv in Hx
      as [(c' & -> & Hc')|[(c' & d' & -> & _)|(c' & d' & e' & -> & _)]];
      cbn [Str.startswith]; rewrite ?andb_false_r; try done.
    rewrite andb_true_r. destruct (Ascii.eqb_spec c' c) as [->|]; [congruence|done]. }
  destruct (Str.is_space2 c d) eqn:Hd; [left; by apply H2|].
  destruct s2 as [|e s3].
  { right. split; [cbn [Str.lstrip]; by rewrite Hc, Hd|]. intros x Hx.
    apply white_space_inv in Hx
      as [(c' & -> & Hc')|[(c' & d' & -> & _ & Hd')|(c' & d' & e' & -> & _)]];
      cbn [Str.startswith]; rewrite ?andb_false_r; try done.
    - rewrite andb_true_r. destruct (Ascii.eqb_spec c' c) as [->|]; [congruence|done].
    - rewrite andb_true_r. destruct (Ascii.eqb_spec c' c) as [->|]; [|done].
      destruct (Ascii.eqb_spec d' d) as [->|]; [congruence|done]. }
  destruct (Str.is_space3 c d e) eqn:He; [left; by apply H3|].
  right. split; [cbn [Str.lstrip]; by rewrite Hc, Hd, He|]. intros x Hx.
  apply white_space_inv in Hx
    as [(c' & -> & Hc')|[(c' & d' & -> & _ & Hd')|(c' & d' & e' & -> & _ & _ & He')]];
    cbn [Str.startswith]; rewrite ?andb_true_r.
  - destruct (Ascii.eqb_spec c' c) as [->|]; [congruence|done].
  - destruct (Ascii.eqb_spec c' c) as [->|]; [|done].
    destruct (Ascii.eqb_spec d' d) as [->|]; [congruence|done].
  - destruct (Ascii.eqb_spec c' c) as [->|]; [|done].
    destruct (Ascii.eqb_spec d' d) as [->|]; [|done].
    destruct (Ascii.eqb_spec e' e) as [->|]; [congruence|done].
Qed.

(** [lstrip] takes a text of white space from the start and leaves a text
    that begins with no character of white space *)
Lemma lstrip_spec (s : string) :
  exists pre,
    s = pre +:+ Str.lstrip s
    /\ white pre
    /\ forall x, In x white_space -> Str.startswith (Str.lstrip s) x = false.
Proof.
  remember (String.length s) as n eqn:Hn. revert s Hn.
  induction n as [n IH] using lt_wf_ind. intros s ->.
  destruct (lstrip_cases s) as [(x & r & Hx & -> & Hl)|[Hl Hhead]].
  - destruct (IH (String.length r)) with (s := r) as (pre & Hr & Hpre & Hhead);
      [|done|].
    { rewrite append_length. apply white_space_length in Hx. lia. }
    exists (x +:+ pre). rewrite Hl. split; [|split; [by constructor|done]].
    rewrite append_assoc. by rewrite <- Hr.
  - exists "". rewrite Hl. split; [done|]. split; [constructor|done].
Qed.

Lemma white_all_space (s : string) : white s -> Str.all_space s = true.
Proof.
  unfold Str.all_space. induction 1 as [|x s Hx _ IH]; [done|].
  by rewrite lstrip_white_head.
Qed.

Lemma all_space_white (s : string) : Str.all_space s = true -> white s.
Proof.
  unfold Str.all_space. intros H.
  destruct (lstrip_spec s) as (pre & Hs & Hpre & _).
  destruct (Str.lstrip s); [|done]. rewrite append_nil_r in Hs. by subst.
Qed.

Lemma rstrip_spec (t : string) :
  exists post, t = Str.rstrip t +:+ post /\ white post.
Proof.
  induction t as [|c t (post & Ht & Hpost)]; [exists ""; split; [done|constructor]|].
  cbn [Str.rstrip]. destruct (Str.all_space (String c t)) eqn:Hall.
  - exists (String c t). split; [done|]. by apply all_space_white.
  - exists post. rewrite append_cons. by rewrite <- Ht.
Qed.

(** no text that [rstrip] keeps at the end is white space with what was
    cut *)
Lemma rstrip_kept (t m r post : string) :
  Str.rstrip t = m +:+ r -> r <> "" -> t = Str.rstrip t +:+ post ->
  Str.all_space (r +:+ post) = false.
Proof.
  revert m. induction t as [|c t IH]; intros m Hr Hne Ht.
  { cbn in Hr. destruct m; [|done]. cbn in Hr. by subst. }
  cbn [Str.rstrip] in Hr, Ht. destruct (Str.all_space (String c t)) eqn:Hall.
  { destruct m; [|done]. cbn in Hr. by subst. }
  destruct m as [|c' m].
  - rewrite append_nil_l in Hr. subst r. by rewrite <- Ht.
  - rewrite append_cons in Hr, Ht. injection Hr as <- Hr. injection Ht as Ht.
    by apply (IH m).
Qed.

(** [strip] takes white space from both ends and leaves a text that
    neither begins nor ends with a character of white space *)
Lemma strip_spec (a : string) :
  exists pre post,
    a = pre +:+ Str.strip a +:+ post
    /\ white pre /\ white post
    /\ forall x, In x white_space ->
         Str.startswith (Str.strip a) x = false
         /\ Str.endswith (Str.strip a) x = false.
Proof.
  unfold Str.strip.
  destruct (lstrip_spec a) as (pre & Ha & Hpre & Hhead).
  destruct (rstrip_spec (Str.lstrip a)) as (post & Ht & Hpost).
  exists pre, post. split; [by rewrite <- Ht|]. split; [done|]. split; [done|].
  intros x Hx. split.
  - destruct (Str.startswith (Str.rstrip _) x) eqn:Hs; [|done].
    apply startswith_spec in Hs as [r Hr].
    rewrite <- (Hhead x Hx). symmetry. apply startswith_spec.
    exists (r +:+ post). rewrite Ht at 1. rewrite Hr. by rewrite append_assoc.
  - destruct (Str.endswith (Str.rstrip _) x) eqn:Hs; [|done].
    apply endswith_spec in Hs as [m Hm].
    assert (x <> "") as Hne.
    { apply white_space_length in Hx. intros ->. cbn in Hx. lia. }
    pose proof (rstrip_kept _ _ _ _ Hm Hne Ht) as Hkept.
    unfold Str.all_space in Hkept. rewrite lstrip_white_head in Hkept by done.
    apply white_all_space in Hpost. unfold Str.all_space in Hpost. congruence.
Qed.

Lemma lower_app (p q : string) : Str.lower (p +:+ q) = Str.lower p +:+ Str.lower q.
Proof.
  induction p as [|c p IH]; [done|]. rewrite append_cons. cbn [Str.lower].
  by rewrite IH, append_cons.
Qed.

Lemma lower_app_inv (s p' q' : string) :
  Str.lower s = p' +:+ q' ->
  exists p q, s = p +:+ q /\ Str.lower p = p' /\ Str.lower q = q'.
Proof.
  revert s. induction p' as [|c p' IH]; intros s H.
  { exists "", s. by rewrite append_nil_l in H. }
  destruct s as [|d s]; [done|]. rewrite append_cons in H. cbn [Str.lower] in H.
  injection H as Hc H. destruct (IH s H) as (p & q & -> & <- & <-).
  exists (String d p), q. cbn [Str.lower]. rewrite append_cons. by rewrite Hc.
Qed.

Lemma lower_char_letters (c : ascii) :
  (Str.lower_char c = "u"%char <-> c = "u"%char \/ c = "U"%char)
  /\ (Str.lower_char c = "r"%char <-> c = "r"%char \/ c = "R"%char)
  /\ (Str.lower_char c = "l"%char <-> c = "l"%char \/ c = "L"%char)
  /\ (Str.lower_char c = "s"%char <-> c = "s"%char \/ c = "S"%char).
Proof.
  destruct c as [[] [] [] [] [] [] [] []]; vm_compute;
    (repeat split; first [ intros [H|H]; discriminate H
                         | intros H; discriminate H
                         | auto ]).
Qed.

Lemma ends_url_spec (k : string) :
  ends_url k = true
  <-> exists p a b c,
        k = p +:+ String a (String b (String c ""))
        /\ (a = "u"%char \/ a = "U"%char)
        /\ (b = "r"%char \/ b = "R"%char)
        /\ (c = "l"%char \/ c = "L"%char).
Proof.
  unfold ends_url. rewrite endswith_spec. split.
  - intros [p' H]. apply lower_app_inv in H as (p & q & -> & _ & Hq).
    destruct q as [|a [|b [|c [|]]]]; try done. cbn [Str.lower] in Hq.
    injection Hq as Ha Hb Hc. exists p, a, b, c. split; [done|].
    destruct (lower_char_letters a) as (Hu & _).
    destruct (lower_char_letters b) as (_ & Hr & _).
    destruct (lower_char_letters c) as (_ & _ & Hl & _).
    split; [by apply Hu|]. split; [by apply Hr|by apply Hl].
  - intros (p & a & b & c & -> & Ha & Hb & Hc). exists (Str.lower p).
    rewrite lower_app. cbn [Str.lower].
    destruct (lower_char_letters a) as (Hu & _).
    destruct (lower_char_letters b) as (_ & Hr & _).
    destruct (lower_char_letters c) as (_ & _ & Hl & _).
    apply Hu in Ha. apply Hr in Hb. apply Hl in Hc. by rewrite Ha, Hb, Hc.
Qed.

Lemma ends_urls_spec (k : string) :
  ends_urls k = true
  <-> exists p a b c d,
        k = p +:+ String a (String b (String c (String d "")))
        /\ (a = "u"%char \/ a = "U"%char)
        /\ (b = "r"%char \/ b = "R"%char)
        /\ (c = "l"%char \/ c = "L"%char)
        /\ (d = "s"%char \/ d = "S"%char).
Proof.
  unfold ends_urls. rewrite endswith_spec. split.
  - intros [p' H]. apply lower_app_inv in H as (p & q & -> & _ & Hq).
    destruct q as [|a [|b [|c [|d [|]]]]]; try done. cbn [Str.lower] in Hq.
    injection Hq as Ha Hb Hc Hd. exists p, a, b, c, d. split; [done|].
    destruct (lower_char_letters a) as (Hu & _).
    destruct (lower_char_letters b) as (_ & Hr & _).
    destruct (lower_char_letters c) as (_ & _ & Hl & _).
    destruct (lower_char_letters d) as (_ & _ & _ & Hs).
    split; [by apply Hu|]. split; [by apply Hr|]. split; [by apply Hl|by apply Hs].
  - intros (p & a & b & c & d & -> & Ha & Hb & Hc & Hd). exists (Str.lower p).
    rewrite lower_app. cbn [Str.lower].
    destruct (lower_char_letters a) as (Hu & _).
    destruct (lower_char_letters b) as (_ & Hr & _).
    destruct (lower_char_letters c) as (_ & _ & Hl & _).
    destruct (lower_char_letters d) as (_ & _ & _ & Hs).
    apply Hu in Ha. apply Hr in Hb. apply Hl in Hc. apply Hs in Hd.
    by rewrite Ha, Hb, Hc, Hd.
Qed.

Lemma split_not_nil (c : ascii) (s : string) : Str.split c s <> [].
Proof.
  induction s as [|d s IH]; [done|]. cbn [Str.split].
  destruct (Ascii.eqb d c); [done|]. by destruct (Str.split c s).
Qed.

(** the pieces of [split] have no separator, and joined by the separator
    they are the text *)
Lemma split_spec (c : ascii) (s : string) :
  Str.join (String c "") (Str.split c s) = s
  /\ Forall (fun piece => Str.contains c piece = false) (Str.split c s).
Proof.
  unfold Str.join. induction s as [|d s [IHj IHc]]; [split; [done|by repeat constructor]|].
  cbn [Str.split]. destruct (Ascii.eqb_spec d c) as [->|Hne].
  - pose proof (split_not_nil c s) as Hnil. split; [|by constructor].
    destruct (Str.split c s) as [|x l] eqn:Hs; [done|].
    change (String.concat (String c "") ("" :: x :: l))
      with (String c (String.concat (String c "") (x :: l))).
    by rewrite IHj.
  - pose proof (split_not_nil c s) as Hnil.
    destruct (Str.split c s) as [|x l] eqn:Hs; [done|]. split.
    + rewrite <- IHj. by destruct l.
    + apply Forall_cons in IHc as [Hx Hl]. constructor; [|done].
      cbn [Str.contains]. rewrite Hx, orb_false_r.
      destruct (Ascii.eqb_spec c d); [congruence|done].
Qed.

(* ===================================================================== *)
(** ** The name of a cached file *)
(* ===================================================================== *)

(** the first ten characters of the digest *)
Lemma url_hash_shape (path : string) :
  let h := Str.take 10 (hashlib.md5_hexdigest path) in
  String.length h = 10 /\ Str.forallb is_hex_char h = true.
Proof.
  split.
  - apply take_length. rewrite md5_hexdigest_length. lia.
  - apply forallb_take, md5_hexdigest_is_hex.
Qed.

Lemma new_filename_not_absolute (path : string) :
  Str.startswith (new_filename path) "/" = false.
Proof.
  unfold new_filename.
  destruct (url_hash_shape path) as [Hlen Hhex].
  destruct (Str.take 10 (hashlib.md5_hexdigest path)) as [|c h]; [discriminate|].
  simpl in Hhex. apply andb_true_iff in Hhex as [Hc _].
  rewrite append_cons. cbn [Str.startswith].
  destruct (Ascii.eqb_spec "/" c) as [<-|]; [|done].
  vm_compute in Hc. discriminate.
Qed.

Lemma asset_dir_join (fname : string) :
  Str.startswith fname "/" = false ->
  posixpath.join ASSET_DIR_NAME fname = "assets/" +:+ fname.
Proof. intros H. unfold posixpath.join. rewrite H. reflexivity. Qed.

(* ===================================================================== *)
(** ** The extension that [os.path.splitext] returns *)
(* ===================================================================== *)

Lemma rfind_from_spec (c : ascii) (s : string) (i last : Z) :
  posixpath.rfind_from c s i last = last
  \/ (i <= posixpath.rfind_from c s i last
      /\ String.get (Z.to_nat (posixpath.rfind_from c s i last - i)) s = Some c)%Z.
Proof.
  revert i last. induction s as [|d s IH]; intros i last; [by left|].
  cbn [posixpath.rfind_from].
  destruct (IH (i + 1)%Z (if Ascii.eqb d c then i else last)) as [Heq|[Hle Hget]].
  - rewrite Heq. destruct (Ascii.eqb_spec d c) as [->|]; [|by left].
    right. split; [lia|]. by rewrite Z.sub_diag.
  - right. split; [lia|].
    replace (Z.to_nat (posixpath.rfind_from c s (i + 1) (if Ascii.eqb d c then i else last) - i))
      with (S (Z.to_nat (posixpath.rfind_from c s (i + 1) (if Ascii.eqb d c then i else last) - (i + 1))))
      by lia.
    exact Hget.
Qed.

Lemma drop_get (n : nat) (s : string) (c : ascii) :
  String.get n s = Some c -> Str.drop n s = String c (Str.drop (S n) s).
Proof.
  revert s. induction n as [|n IH]; intros [|d s]; simpl; try done.
  - by intros [= ->].
  - intros H. by rewrite (IH s H).
Qed.

(** the extension is empty or begins with the dot *)
Lemma splitext_extension (p : string) :
  snd (posixpath.splitext p) = EmptyString
  \/ Str.startswith (snd (posixpath.splitext p)) "." = true.
Proof.
  unfold posixpath.splitext.
  destruct (_ && _) eqn:Hc; [|by left]. right.
  apply andb_true_iff in Hc as [Hgt _]. apply Z.gtb_lt in Hgt.
  unfold posixpath.rfind in *.
  destruct (rfind_from_spec "/" p 0 (-1)) as [Hs|[Hs _]];
    destruct (rfind_from_spec "." p 0 (-1)) as [Hd|[Hd Hget]]; try lia.
  - cbn [snd]. unfold posixpath.slice_from.
    rewrite Z.sub_0_r in Hget. rewrite (drop_get _ _ _ Hget). reflexivity.
  - cbn [snd]. unfold posixpath.slice_from.
    rewrite Z.sub_0_r in Hget. rewrite (drop_get _ _ _ Hget). reflexivity.
Qed.

Lemma new_filename_shape (path : string) :
  exists h e,
    new_filename path = h +:+ e
    /\ h = Str.take 10 (hashlib.md5_hexdigest path)
    /\ String.length h = 10
    /\ Str.forallb is_hex_char h = true
    /\ e = (if Str.is_empty (snd (posixpath.splitext path)) then ".bin"
            else snd (posixpath.splitext path))
    /\ Str.startswith e "." = true.
Proof.
  destruct (url_hash_shape path) as [Hlen Hhex].
  eexists _, _. split; [reflexivity|]. repeat split; try done.
  destruct (splitext_extension path) as [->|He]; [done|].
  destruct (snd (posixpath.splitext path)); done.
Qed.

(** nothing after the last occurrence of a character is that character *)
Lemma rfind_from_last (c : ascii) (s : string) (i last : Z) :
  (last < i)%Z ->
  Str.contains c (Str.drop (Z.to_nat (posixpath.rfind_from c s i last + 1 - i)) s)
  = false.
Proof.
  revert i last. induction s as [|d s IH]; intros i last Hlt.
  { by destruct (Z.to_nat _). }
  cbn [posixpath.rfind_from].
  set (last' := if Ascii.eqb d c then i else last).
  assert (last' < i + 1)%Z as Hlt' by (subst last'; destruct (Ascii.eqb d c); lia).
  specialize (IH (i + 1)%Z last' Hlt').
  destruct (rfind_from_spec c s (i + 1) last') as [Heq|[Hle _]].
  - rewrite Heq in *. subst last'. destruct (Ascii.eqb_spec d c) as [->|Hne].
    + replace (Z.to_nat (i + 1 - i)) with 1 by lia.
      replace (Z.to_nat (i + 1 - (i + 1))) with 0 in IH by lia. exact IH.
    + replace (Z.to_nat (last + 1 - i)) with 0 by lia.
      replace (Z.to_nat (last + 1 - (i + 1))) with 0 in IH by lia.
      cbn [Str.drop] in *. rewrite contains_cons, IH, orb_false_r.
      apply Ascii.eqb_neq. congruence.
  - replace (Z.to_nat (posixpath.rfind_from c s (i + 1) last' + 1 - i))
      with (S (Z.to_nat (posixpath.rfind_from c s (i + 1) last' + 1 - (i + 1))))
      by lia.
    exact IH.
Qed.

Lemma contains_drop (c : ascii) (n m : nat) (s : string) :
  n <= m -> Str.contains c (Str.drop n s) = false ->
  Str.contains c (Str.drop m s) = false.
Proof.
  revert n m. induction s as [|d s IH]; intros n m Hle.
  { by destruct n, m. }
  destruct n as [|n], m as [|m]; cbn [Str.drop]; try lia; try done.
  - rewrite contains_cons. intros H. apply orb_false_iff in H as [_ H].
    apply (IH 0 m); [lia|]. by destruct s.
  - apply IH. lia.
Qed.

Lemma contains_app (c : ascii) (a b : string) :
  Str.contains c (a +:+ b) = Str.contains c a || Str.contains c b.
Proof.
  induction a as [|d a IH]; [done|].
  rewrite append_cons, !contains_cons, IH. by rewrite orb_assoc.
Qed.

(** the extension has no slash in it *)
Lemma splitext_extension_has_no_slash (p : string) :
  Str.contains "/" (snd (posixpath.splitext p)) = false.
Proof.
  unfold posixpath.splitext.
  destruct (_ && _) eqn:Hc; [|done].
  apply andb_true_iff in Hc as [Hgt _]. apply Z.gtb_lt in Hgt.
  cbn [snd]. unfold posixpath.slice_from.
  pose proof (rfind_from_last "/" p 0 (-1) ltac:(lia)) as Hlast.
  fold (posixpath.rfind "/" p) in Hlast.
  eapply contains_drop; [|exact Hlast].
  destruct (rfind_from_spec "/" p 0 (-1)) as [Hs|[Hs _]];
    unfold posixpath.rfind in *; lia.
Qed.

Lemma hex_has_no_slash (h : string) :
  Str.forallb is_hex_char h = true -> Str.contains "/" h = false.
Proof.
  induction h as [|c h IH]; [done|]. cbn [Str.forallb].
  intros H. apply andb_true_iff in H as [Hc Hh].
  rewrite contains_cons, (IH Hh), orb_false_r.
  destruct (Ascii.eqb_spec "/" c) as [<-|]; [|done]. by vm_compute in Hc.
Qed.

(** the name of a cached file is a name in the cache directory: it has no
    slash in it, so the file is opened in [assets_dir] itself *)
Lemma new_filename_has_no_slash (path : string) :
  Str.contains "/" (new_filename path) = false.
Proof.
  destruct (new_filename_shape path) as (h & e & -> & _ & _ & Hhex & -> & _).
  rewrite contains_app, (hex_has_no_slash _ Hhex).
  destruct (Str.is_empty _); [done|]. apply splitext_extension_has_no_slash.
Qed.

(* ===================================================================== *)
(** ** The path of a cached file *)
(* ===================================================================== *)

Lemma join_relative (a b : string) :
  Str.startswith b "/" = false -> posixpath.join a b = a +:+ join_sep a +:+ b.
Proof.
  intros H. unfold posixpath.join, join_sep. rewrite H.
  by destruct (Str.is_empty a || Str.endswith a "/").
Qed.

Lemma rfind_from_absent (c : ascii) (s : string) (i last : Z) :
  Str.contains c s = false -> posixpath.rfind_from c s i last = last.
Proof.
  revert i last. induction s as [|d s IH]; intros i last; [done|].
  cbn [Str.contains posixpath.rfind_from]. intros H.
  apply orb_false_iff in H as [Hd Hs]. rewrite Ascii.eqb_sym, Hd. by apply IH.
Qed.

Lemma rfind_from_app_absent (c : ascii) (a b : string) (i last : Z) :
  Str.contains c b = false ->
  posixpath.rfind_from c (a +:+ b) i last = posixpath.rfind_from c a i last.
Proof.
  intros Hb. revert i last. induction a as [|d a IH]; intros i last.
  - rewrite append_nil_l. by apply rfind_from_absent.
  - rewrite append_cons. cbn [posixpath.rfind_from]. apply IH.
Qed.

Lemma rfind_from_snoc (c : ascii) (a : string) (i last : Z) :
  posixpath.rfind_from c (a +:+ String c EmptyString) i last
  = (i + Z.of_nat (String.length a))%Z.
Proof.
  revert i last. induction a as [|d a IH]; intros i last.
  - rewrite append_nil_l. cbn [posixpath.rfind_from String.length].
    rewrite Ascii.eqb_refl. lia.
  - rewrite append_cons. cbn [posixpath.rfind_from String.length]. rewrite IH. lia.
Qed.

Lemma basename_after_slash (a name : string) :
  Str.contains "/" name = false ->
  posixpath.basename (a +:+ "/" +:+ name) = name.
Proof.
  intros Hname. unfold posixpath.basename, posixpath.rfind, posixpath.slice_from.
  rewrite <- append_assoc, rfind_from_app_absent by done.
  rewrite rfind_from_snoc.
  replace (Z.to_nat (0 + Z.of_nat (String.length a) + 1))
    with (String.length (a +:+ "/")) by (rewrite append_length; cbn; lia).
  apply drop_app.
Qed.

Lemma basename_of_name (name : string) :
  Str.contains "/" name = false -> posixpath.basename name = name.
Proof.
  intros Hname. unfold posixpath.basename, posixpath.rfind, posixpath.slice_from.
  by rewrite rfind_from_absent.
Qed.

(** the cached file is a file of the directory, under its name *)
Lemma basename_of_cached (dir path : string) :
  posixpath.basename (posixpath.join dir (new_filename path)) = new_filename path.
Proof.
  pose proof (new_filename_has_no_slash path) as Hno.
  rewrite join_relative by apply new_filename_not_absolute. unfold join_sep.
  destruct (Str.is_empty dir) eqn:Hempty.
  { cbn [orb]. destruct dir; [|done]. rewrite !append_nil_l.
    by apply basename_of_name. }
  cbn [orb]. destruct (Str.endswith dir "/") eqn:Hend.
  - apply endswith_spec in Hend as [a ->]. rewrite append_nil_l, append_assoc.
    by apply basename_after_slash.
  - by apply basename_after_slash.
Qed.

(** what opening the cached file raises, when nothing is at its path *)
Lemma open_error_cached (dir path : string) (w : World) :
  path_exists (posixpath.join dir (new_filename path)) w = false ->
  open_error dir (posixpath.join dir (new_filename path)) w
  = if Str.contains NUL (new_filename path) then Some ValueError
    else if negb (bool_decide (dir ∈ dirs w)) then Some FileNotFoundError
    else if (NAME_MAX <? String.length (new_filename path))%nat then Some OSError
    else None.
Proof.
  intros Hex. unfold open_error. rewrite basename_of_cached.
  unfold path_exists in Hex. apply orb_false_iff in Hex as [_ ->]. done.
Qed.

Lemma open_error_writable (dir path : string) (w : World) :
  path_exists (posixpath.join dir (new_filename path)) w = false ->
  dir ∈ dirs w ->
  writable_name (new_filename path) = true ->
  open_error dir (posixpath.join dir (new_filename path)) w = None.
Proof.
  intros Hex Hdir Hname. rewrite open_error_cached by done.
  unfold writable_name in Hname. apply andb_true_iff in Hname as [Hnul Hlen].
  apply negb_true_iff in Hnul. rewrite Hnul.
  rewrite bool_decide_eq_true_2 by done. cbn [negb].
  apply Nat.leb_le in Hlen.
  destruct (Nat.ltb_spec NAME_MAX (String.length (new_filename path))); [lia|done].
Qed.

(* ===================================================================== *)
(** ** Facts about the monad *)
(* ===================================================================== *)

Lemma bind_Return_inv {A B} (c : M A) (k : A -> M B) (w w' : World) (b : B) :
  bind c k w = Return b w' ->
  exists a w1, c w = Return a w1 /\ k a w1 = Return b w'.
Proof. unfold bind. destruct (c w) as [a w1|e w1]; [eauto|discriminate]. Qed.

Lemma bind_Raise_inv {A B} (c : M A) (k : A -> M B) (w w' : World) (e : exn) :
  bind c k w = Raise e w' ->
  c w = Raise e w' \/ exists a w1, c w = Return a w1 /\ k a w1 = Raise e w'.
Proof. unfold bind. destruct (c w) as [a w1|e1 w1]; [eauto|]. intros [= -> ->]. auto. Qed.

Lemma bind_assoc {A B C} (c : M A) (k : A -> M B) (h : B -> M C) (w : World) :
  bind (bind c k) h w = bind c (fun a => bind (k a) h) w.
Proof. unfold bind. destruct (c w); auto. Qed.

(* ===================================================================== *)
(** ** The steps of the cache *)
(* ===================================================================== *)

Lemma cache_step_refl (dir : string) (w : World) : cache_step dir w w.
Proof. split; try done. Qed.

Lemma cache_step_trans (dir : string) (w1 w2 w3 : World) :
  cache_step dir w1 w2 -> cache_step dir w2 w3 -> cache_step dir w1 w3.
Proof.
  intros [K1 N1 D1 R1 S1] [K2 N2 D2 R2 S2]. split.
  - eauto.
  - intros p Hp.
    destruct (decide (files w2 !! p = files w1 !! p)) as [Heq|Hne]; [|eauto].
    apply N2. by rewrite Heq.
  - congruence.
  - by etrans.
  - by etrans.
Qed.

Lemma cache_only_ret (dir : string) {A} (a : A) : cache_only dir (ret a).
Proof. intros w. apply cache_step_refl. Qed.

Lemma cache_only_raise (dir : string) {A} (e : exn) : cache_only dir (@raise A e).
Proof. intros w. apply cache_step_refl. Qed.

Lemma cache_only_bind (dir : string) {A B} (c : M A) (k : A -> M B) :
  cache_only dir c -> (forall a, cache_only dir (k a)) -> cache_only dir (bind c k).
Proof.
  intros Hc Hk w. unfold bind. specialize (Hc w).
  destruct (c w) as [a w1|e w1]; [|done].
  eapply cache_step_trans; [exact Hc|]. apply Hk.
Qed.

Lemma cache_only_mapM (dir : string) {A B} (f : A -> M B) (l : list A) :
  (forall a, cache_only dir (f a)) -> cache_only dir (mapM f l).
Proof.
  intros Hf. induction l as [|x l IH]; [apply cache_only_ret|].
  cbn [mapM]. apply cache_only_bind; [apply Hf|]. intros y.
  apply cache_only_bind; [exact IH|]. intros ys. apply cache_only_ret.
Qed.

Lemma cache_only_foldM (dir : string) {A B} (f : B -> A -> M B) (l : list A) (b : B) :
  (forall b a, cache_only dir (f b a)) -> cache_only dir (foldM f l b).
Proof.
  intros Hf. revert b. induction l as [|x l IH]; intros b; [apply cache_only_ret|].
  cbn [foldM]. apply cache_only_bind; [apply Hf|]. intros b'. apply IH.
Qed.

Section Fetcher.
Context (E : Env).

Lemma resolve_passthrough (asset_url base_url dir : string) (w : World) :
  passes_through asset_url = true ->
  download_and_replace_asset E asset_url base_url dir w = Return asset_url w.
Proof.
  unfold passes_through, download_and_replace_asset. by intros ->.
Qed.

Lemma resolve_bad_join (asset_url base_url dir : string) (w : World) :
  passes_through asset_url = false ->
  urljoin E base_url (unquote E asset_url) = None ->
  download_and_replace_asset E asset_url base_url dir w = Raise ValueError w.
Proof.
  unfold passes_through, download_and_replace_asset. intros -> Hj.
  unfold bind. by rewrite Hj.
Qed.

Lemma resolve_bad_split (asset_url base_url dir u : string) (w : World) :
  passes_through asset_url = false ->
  urljoin E base_url (unquote E asset_url) = Some u ->
  urlsplit E u = None ->
  download_and_replace_asset E asset_url base_url dir w = Raise ValueError w.
Proof.
  unfold passes_through, download_and_replace_asset. intros -> Hj Hs.
  unfold bind. rewrite Hj. simpl. by rewrite Hs.
Qed.

(** The run of the function on a locator that resolves to the URL [u] with
    the parts [s]. *)
Lemma resolve_unfold (asset_url base_url dir u : string) (s : urllib.SplitResult)
  (w : World) :
  passes_through asset_url = false ->
  urljoin E base_url (unquote E asset_url) = Some u ->
  urlsplit E u = Some s ->
  download_and_replace_asset E asset_url base_url dir w =
  let p := posixpath.join dir (new_filename (urllib.path s)) in
  if path_exists p w then Return (local_reference E s) w
  else match transport E (requests w) u with
       | None => Raise RequestException (requested u w)
       | Some r =>
           if (status_code r =? 200)%Z then
             match open_error dir p w with
             | Some e => Raise e (requested u w)
             | None =>
                 Return (local_reference E s)
                   (mkWorld (<[p := content r]> (files w)) (dirs w)
                      (requests w ++ [u])
                      (stdout w ++ ["Downloaded: " +:+ new_filename (urllib.path s)
                                    +:+ " (Original: "
                                    +:+ posixpath.basename (urllib.path s) +:+ ")"]))
             end
           else
             Return (unquote E asset_url)
               (mkWorld (files w) (dirs w) (requests w ++ [u])
                  (stdout w ++ ["Failed to download: " +:+ u]))
       end.
Proof.
  intros Hpass Hjoin Hsplit. cbv zeta.
  unfold passes_through in Hpass.
  unfold download_and_replace_asset. rewrite Hpass.
  unfold bind at 1. rewrite Hjoin. cbn [value_or_raise ret].
  unfold bind at 1. rewrite Hsplit. cbn [value_or_raise ret].
  unfold bind at 1. unfold os_path_exists.
  destruct (path_exists _ w) eqn:Hex; cbn [negb]; [done|].
  unfold bind at 1. unfold requests_get.
  destruct (transport E (requests w) u) as [r|]; [|done].
  destruct (status_code r =? 200)%Z; [|done].
  unfold bind at 1. unfold open_for_writing.
  change (open_error dir (posixpath.join dir (new_filename (urllib.path s)))
            (mkWorld (files w) (dirs w) (requests w ++ [u]) (stdout w)))
    with (open_error dir (posixpath.join dir (new_filename (urllib.path s))) w).
  destruct (open_error dir _ w); [done|].
  unfold bind, write_and_close, print, ret. cbn [files dirs requests stdout].
  by rewrite insert_insert_eq.
Qed.

Lemma cache_step_requested (dir u : string) (w : World) :
  cache_step dir w (requested u w).
Proof. split; try done; by apply prefix_app_r. Qed.

Lemma resolve_cache_only (asset_url base_url dir : string) :
  cache_only dir (download_and_replace_asset E asset_url base_url dir).
Proof.
  intros w.
  destruct (passes_through asset_url) eqn:Hpass.
  { rewrite resolve_passthrough by done. apply cache_step_refl. }
  destruct (urljoin E base_url (unquote E asset_url)) as [u|] eqn:Hj.
  2:{ rewrite resolve_bad_join by done. apply cache_step_refl. }
  destruct (urlsplit E u) as [s|] eqn:Hs.
  2:{ erewrite resolve_bad_split by done. apply cache_step_refl. }
  erewrite resolve_unfold by done. cbv zeta.
  destruct (path_exists _ w) eqn:Hex; [apply cache_step_refl|].
  destruct (transport E (requests w) u) as [r|]; [|apply cache_step_requested].
  destruct (status_code r =? 200)%Z.
  - destruct (open_error dir _ w); [apply cache_step_requested|].
    unfold path_exists in Hex. apply orb_false_iff in Hex as [Hf _].
    apply bool_decide_eq_false in Hf.
    assert (files w !! posixpath.join dir (new_filename (urllib.path s)) = None) as Hnone.
    { destruct (files w !! _) eqn:Hl; [|done]. exfalso. apply Hf. eauto. }
    split; cbn [world_of files dirs requests stdout]; try done.
    + intros p c Hp. rewrite lookup_insert_ne; [done|]. intros <-. congruence.
    + intros p Hp. destruct (decide (p = posixpath.join dir (new_filename (urllib.path s)))) as [->|Hne].
      * eauto.
      * rewrite lookup_insert_ne in Hp by done. done.
    + by apply prefix_app_r.
    + by apply prefix_app_r.
  - split; cbn [world_of files dirs requests stdout]; try done; by apply prefix_app_r.
Qed.
End Fetcher.

(* ===================================================================== *)
(** ** The asset cache and fetcher: the claims *)
(* ===================================================================== *)

(** C6. A locator that is empty or begins with [data:] comes back as it is,
    and the world is the one before: no request was made and no file was
    written. *)
Theorem data_and_empty_locators_pass_through
  (E : Env) (asset_url base_url dir : string) (w : World) :
  asset_url = EmptyString \/ Str.startswith asset_url "data:" = true ->
  download_and_replace_asset E asset_url base_url dir w = Return asset_url w.
Proof.
  intros H. apply resolve_passthrough. unfold passes_through.
  destruct H as [-> | ->]; [done|]. apply orb_true_r.
Qed.

Lemma data_locator_passes_through_example :
  download_and_replace_asset (example_env net_200) "data:image/png;base64,AAAA"
    "https://example.com/page/" "cache" (fresh_world "cache")
  = Return "data:image/png;base64,AAAA" (fresh_world "cache").
Proof.
  apply data_and_empty_locators_pass_through. right. reflexivity.
Defined.

(** C7. A file that a call leaves in the asset store, whether the call
    returns or raises, stands in the cache directory under a name made of
    the first ten characters of the hexadecimal MD5 digest of the path of the
    resolved URL, the query playing no part, followed by the extension of
    that path, or by [.bin] when the path has none. *)
Theorem cached_file_is_named_by_hash_and_extension
  (E : Env) (asset_url base_url dir : string) (w : World) (p : string) :
  files (world_of (download_and_replace_asset E asset_url base_url dir w)) !! p
    <> files w !! p ->
  exists u s h e,
    urljoin E base_url (unquote E asset_url) = Some u
    /\ urlsplit E u = Some s
    /\ p = posixpath.join dir (h +:+ e)
    /\ h = Str.take 10 (hashlib.md5_hexdigest (urllib.path s))
    /\ String.length h = 10
    /\ Str.forallb is_hex_char h = true
    /\ e = (if Str.is_empty (snd (posixpath.splitext (urllib.path s))) then ".bin"
            else snd (posixpath.splitext (urllib.path s)))
    /\ Str.startswith e "." = true.
Proof.
  intros Hp.
  destruct (passes_through asset_url) eqn:Hpass.
  { rewrite resolve_passthrough in Hp by done. done. }
  destruct (urljoin E base_url (unquote E asset_url)) as [u|] eqn:Hj.
  2:{ rewrite resolve_bad_join in Hp by done. done. }
  destruct (urlsplit E u) as [s|] eqn:Hs.
  2:{ erewrite resolve_bad_split in Hp by done. done. }
  erewrite resolve_unfold in Hp by done. cbv zeta in Hp.
  destruct (new_filename_shape (urllib.path s)) as (h & e & Hname & Hrest).
  exists u, s, h, e. split; [done|]. split; [done|]. split; [|exact Hrest].
  rewrite <- Hname.
  destruct (path_exists _ w); [done|].
  destruct (transport E (requests w) u) as [r|]; [|done].
  destruct (status_code r =? 200)%Z; [|done].
  destruct (open_error dir _ w); [done|].
  cbn [world_of files] in Hp.
  destruct (decide (p = posixpath.join dir (new_filename (urllib.path s)))) as [->|Hne];
    [done|].
  by rewrite lookup_insert_ne in Hp.
Qed.

Lemma cached_file_name_example :
  exists u s h e,
    urllib.urljoin "https://example.com/page/" (urllib.unquote "img/logo.png?v=3")
      = Some u
    /\ urllib.urlsplit u = Some s
    /\ "cache/0085aa6192.png" = posixpath.join "cache" (h +:+ e)
    /\ h = Str.take 10 (hashlib.md5_hexdigest (urllib.path s))
    /\ String.length h = 10
    /\ Str.forallb is_hex_char h = true
    /\ e = (if Str.is_empty (snd (posixpath.splitext (urllib.path s))) then ".bin"
            else snd (posixpath.splitext (urllib.path s)))
    /\ Str.startswith e "." = true.
Proof.
  apply (cached_file_is_named_by_hash_and_extension (example_env net_200)
           "img/logo.png?v=3" "https://example.com/page/" "cache"
           (fresh_world "cache") "cache/0085aa6192.png").
  vm_compute. discriminate.
Defined.

(** the reference as lines 119 to 121 put it together *)
Lemma local_reference_eq (E : Env) (s : urllib.SplitResult) :
  local_reference E s =
  fstring_of_env (BASE_URL E) +:+ "/" +:+ ASSET_DIR_NAME +:+ "/"
    +:+ new_filename (urllib.path s)
    +:+ (if Str.is_empty (urllib.query s) then EmptyString
         else "?" +:+ urllib.query s).
Proof.
  unfold local_reference.
  rewrite asset_dir_join by apply new_filename_not_absolute.
  unfold urllib.urlunsplit. cbn [Str.is_empty negb andb orb].
  do 2 f_equal.
  destruct (Str.is_empty (urllib.query s)); cbn [negb].
  - by rewrite append_nil_r.
  - by rewrite append_assoc.
Qed.

(** C3, as amended. When the cached file is there, or the fetch answers 200
    and the file can be written (the cache directory exists, and the cached
    name has no NUL and is not too long), the call returns the configured
    base, a slash, the name of the asset directory, a slash and the cached
    file name, followed, when the resolved URL has a query string, by a
    question mark and that query string: the one of the locator after
    percent-decoding and resolution against the base URL. *)
Theorem local_reference_is_base_dir_name_query
  (E : Env) (asset_url base_url dir u : string) (s : urllib.SplitResult) (w : World) :
  passes_through asset_url = false ->
  urljoin E base_url (unquote E asset_url) = Some u ->
  urlsplit E u = Some s ->
  path_exists (posixpath.join dir (new_filename (urllib.path s))) w = true
  \/ (exists r, transport E (requests w) u = Some r
                /\ status_code r = 200%Z /\ dir ∈ dirs w
                /\ writable_name (new_filename (urllib.path s)) = true) ->
  exists w',
    download_and_replace_asset E asset_url base_url dir w =
    Return (fstring_of_env (BASE_URL E) +:+ "/" +:+ ASSET_DIR_NAME +:+ "/"
              +:+ new_filename (urllib.path s)
              +:+ (if Str.is_empty (urllib.query s) then EmptyString
                   else "?" +:+ urllib.query s)) w'.
Proof.
  intros Hpass Hj Hs Hok.
  erewrite resolve_unfold by done. cbv zeta. rewrite <- local_reference_eq.
  destruct (path_exists _ w) eqn:Hex; [eauto|].
  destruct Hok as [?|(r & -> & -> & Hdir & Hname)]; [done|].
  cbn [Z.eqb Pos.eqb]. rewrite open_error_writable by done. eauto.
Qed.

Lemma local_reference_example :
  exists w',
    download_and_replace_asset (example_env net_200) "logo.png?v=3"
      "https://example.com/" "cache" (fresh_world "cache") =
    Return ("https://mirror.example" +:+ "/" +:+ "assets" +:+ "/"
              +:+ "5d163c4d9d.png" +:+ "?" +:+ "v=3") w'.
Proof.
  apply (local_reference_is_base_dir_name_query (example_env net_200)
           "logo.png?v=3" "https://example.com/" "cache"
           "https://example.com/logo.png?v=3"
           (urllib.mkSplit "https" "example.com" "/logo.png" "v=3" "")
           (fresh_world "cache")).
  - reflexivity.
  - reflexivity.
  - reflexivity.
  - right. eexists. split; [reflexivity|]. split; [reflexivity|].
    split; [|vm_compute; reflexivity].
    unfold fresh_world. cbn [dirs]. set_solver.
Defined.

(** C3 as stated fails. The query string of the locator [logo.png?x=%41] is
    [x=%41], and the reference returned for it ends in [?x=A]. The locator
    [#top] has no query string, and on the page [https://example.com/p?q=1]
    the reference returned for it ends in [?q=1], the query string of the
    page. *)
Lemma local_reference_query_is_of_resolved_url :
  (urllib.query <$> urllib.urlsplit "logo.png?x=%41") = Some "x=%41"
  /\ result_of (download_and_replace_asset (example_env net_200) "logo.png?x=%41"
                  "https://example.com/" "cache" (fresh_world "cache"))
     = Some "https://mirror.example/assets/5d163c4d9d.png?x=A"
  /\ "https://mirror.example/assets/5d163c4d9d.png?x=A"
     <> "https://mirror.example/assets/5d163c4d9d.png?x=%41"
  /\ (urllib.query <$> urllib.urlsplit "#top") = Some ""
  /\ result_of (download_and_replace_asset (example_env net_200) "#top"
                  "https://example.com/p?q=1" "cache" (fresh_world "cache"))
     = Some "https://mirror.example/assets/b86493d2ae.bin?q=1".
Proof.
  repeat split; try discriminate; vm_compute; reflexivity.
Qed.

(** a call for a file that is there: the reference, and the world as it was *)
Lemma resolve_cached (E : Env) (asset_url base_url dir u : string)
  (s : urllib.SplitResult) (w : World) :
  passes_through asset_url = false ->
  urljoin E base_url (unquote E asset_url) = Some u ->
  urlsplit E u = Some s ->
  path_exists (posixpath.join dir (new_filename (urllib.path s))) w = true ->
  download_and_replace_asset E asset_url base_url dir w
  = Return (local_reference E s) w.
Proof.
  intros Hpass Hj Hs Hex. erewrite resolve_unfold by done. cbv zeta. by rewrite Hex.
Qed.

(** C1, as amended. Two locators whose resolved URLs have the same path use
    the same cache file. Once that file is there, a call makes no request and
    changes nothing. When the file is there at the start, or the fetch of the
    first call answers 200 and the file can be written (the cache directory
    exists, and the cached name has no NUL and is not too long), the two
    calls in a row make one request at most, the second none, and a file
    that was there keeps its bytes. When the file is not there and the fetch
    of the first call answers another status, the first call returns and
    leaves no file, and the second call makes a request again: the two calls
    have made two. *)
Theorem same_path_shares_one_cached_file
  (E : Env) (l1 l2 base_url dir u1 u2 : string) (s1 s2 : urllib.SplitResult)
  (w : World) :
  passes_through l1 = false -> passes_through l2 = false ->
  urljoin E base_url (unquote E l1) = Some u1 -> urlsplit E u1 = Some s1 ->
  urljoin E base_url (unquote E l2) = Some u2 -> urlsplit E u2 = Some s2 ->
  urllib.path s1 = urllib.path s2 ->
  new_filename (urllib.path s1) = new_filename (urllib.path s2)
  /\ (forall w0,
        path_exists (posixpath.join dir (new_filename (urllib.path s1))) w0 = true ->
        download_and_replace_asset E l2 base_url dir w0
        = Return (local_reference E s2) w0)
  /\ (path_exists (posixpath.join dir (new_filename (urllib.path s1))) w = true
      \/ (exists r, transport E (requests w) u1 = Some r
                    /\ status_code r = 200%Z /\ dir ∈ dirs w
                    /\ writable_name (new_filename (urllib.path s1)) = true) ->
      exists w1,
        download_and_replace_asset E l1 base_url dir w
        = Return (local_reference E s1) w1
        /\ download_and_replace_asset E l2 base_url dir w1
           = Return (local_reference E s2) w1
        /\ path_exists (posixpath.join dir (new_filename (urllib.path s1))) w1 = true
        /\ (List.length (requests w1) <= S (List.length (requests w)))%nat
        /\ forall c,
             files w !! posixpath.join dir (new_filename (urllib.path s1)) = Some c ->
             files w1 !! posixpath.join dir (new_filename (urllib.path s1)) = Some c)
  /\ (forall r,
        path_exists (posixpath.join dir (new_filename (urllib.path s1))) w = false ->
        transport E (requests w) u1 = Some r ->
        status_code r <> 200%Z ->
        exists w1,
          download_and_replace_asset E l1 base_url dir w = Return (unquote E l1) w1
          /\ files w1 = files w
          /\ path_exists (posixpath.join dir (new_filename (urllib.path s1))) w1
             = false
          /\ requests w1 = requests w ++ [u1]
          /\ requests (world_of (download_and_replace_asset E l2 base_url dir w1))
             = requests w ++ [u1; u2]).
Proof.
  intros Hp1 Hp2 Hj1 Hs1 Hj2 Hs2 Hpath.
  split; [by rewrite Hpath|].
  assert (forall w0,
    path_exists (posixpath.join dir (new_filename (urllib.path s1))) w0 = true ->
    download_and_replace_asset E l2 base_url dir w0 = Return (local_reference E s2) w0)
    as Hcached.
  { intros w0 Hex. eapply resolve_cached; try done. by rewrite <- Hpath. }
  split; [exact Hcached|].
  split; last first.
  { intros r Hex Hr Hstatus.
    erewrite (resolve_unfold E l1) by done. cbv zeta. rewrite Hex, Hr.
    apply Z.eqb_neq in Hstatus. rewrite Hstatus.
    eexists. split; [reflexivity|]. cbn [files requests].
    split; [done|]. split; [exact Hex|]. split; [done|].
    erewrite (resolve_unfold E l2) by done. cbv zeta. rewrite <- Hpath.
    change (path_exists ?p (mkWorld (files w) (dirs w) ?rq ?out))
      with (path_exists p w). rewrite Hex. cbn [requests].
    destruct (transport E (requests w ++ [u1]) u2) as [r2|];
      [|by cbn [world_of requested requests]; rewrite <- app_assoc].
    destruct (status_code r2 =? 200)%Z;
      [|by cbn [world_of requests]; rewrite <- app_assoc].
    destruct (open_error dir _ _);
      by cbn [world_of requested requests]; rewrite <- app_assoc. }
  intros Hok.
  erewrite (resolve_unfold E l1) by done. cbv zeta.
  destruct (path_exists _ w) eqn:Hex.
  - exists w. repeat split; auto.
  - destruct Hok as [?|(r & -> & -> & Hdir & Hname)]; [done|].
    cbn [Z.eqb Pos.eqb]. rewrite open_error_writable by done.
    eexists. split; [reflexivity|].
    assert (path_exists (posixpath.join dir (new_filename (urllib.path s1)))
              (mkWorld (<[posixpath.join dir (new_filename (urllib.path s1)) := content r]> (files w))
                 (dirs w) (requests w ++ [u1])
                 (stdout w ++ ["Downloaded: " +:+ new_filename (urllib.path s1)
                               +:+ " (Original: "
                               +:+ posixpath.basename (urllib.path s1) +:+ ")"])) = true)
      as Hex'.
    { unfold path_exists. cbn [files]. rewrite lookup_insert_eq.
      rewrite bool_decide_eq_true_2; [done|]. eauto. }
    split; [by apply Hcached|]. split; [exact Hex'|]. split.
    + cbn [requests]. rewrite length_app. cbn. lia.
    + intros c Hc. unfold path_exists in Hex. apply orb_false_iff in Hex as [Hf _].
      apply bool_decide_eq_false in Hf. exfalso. apply Hf. eauto.
Qed.

Lemma same_path_example :
  new_filename "/a.png" = new_filename "/a.png"
  /\ (forall w0,
        path_exists (posixpath.join "cache" (new_filename "/a.png")) w0 = true ->
        download_and_replace_asset (example_env net_200) "a.png?v=2"
          "https://example.com/" "cache" w0
        = Return (local_reference (example_env net_200)
                    (urllib.mkSplit "https" "example.com" "/a.png" "v=2" "")) w0)
  /\ exists w1,
       download_and_replace_asset (example_env net_200) "a.png?v=1"
         "https://example.com/" "cache" (fresh_world "cache")
       = Return (local_reference (example_env net_200)
                   (urllib.mkSplit "https" "example.com" "/a.png" "v=1" "")) w1
       /\ download_and_replace_asset (example_env net_200) "a.png?v=2"
            "https://example.com/" "cache" w1
          = Return (local_reference (example_env net_200)
                      (urllib.mkSplit "https" "example.com" "/a.png" "v=2" "")) w1
       /\ path_exists (posixpath.join "cache" (new_filename "/a.png")) w1 = true
       /\ (List.length (requests w1) <= 1)%nat
       /\ forall c,
            files (fresh_world "cache") !! posixpath.join "cache" (new_filename "/a.png")
              = Some c ->
            files w1 !! posixpath.join "cache" (new_filename "/a.png") = Some c.
Proof.
  destruct (same_path_shares_one_cached_file (example_env net_200)
              "a.png?v=1" "a.png?v=2" "https://example.com/" "cache"
              "https://example.com/a.png?v=1" "https://example.com/a.png?v=2"
              (urllib.mkSplit "https" "example.com" "/a.png" "v=1" "")
              (urllib.mkSplit "https" "example.com" "/a.png" "v=2" "")
              (fresh_world "cache") eq_refl eq_refl eq_refl eq_refl eq_refl eq_refl
              eq_refl) as (Hname & Hcached & Hboth & _).
  split; [exact Hname|]. split; [exact Hcached|].
  apply Hboth. right. eexists. split; [reflexivity|]. split; [reflexivity|].
  split; [|vm_compute; reflexivity].
  unfold fresh_world. cbn [dirs]. set_solver.
Defined.

(** C1 as stated fails: with a network that answers 404, the two locators
    [a.png?v=1] and [a.png?v=2] resolve to the same path, and the two calls in
    a row make two requests. *)
Lemma failed_fetch_is_repeated :
  (urllib.path <$> (urllib.urljoin "https://example.com/" (urllib.unquote "a.png?v=1")
                      ≫= urllib.urlsplit)) = Some "/a.png"
  /\ (urllib.path <$> (urllib.urljoin "https://example.com/" (urllib.unquote "a.png?v=2")
                         ≫= urllib.urlsplit)) = Some "/a.png"
  /\ requests (world_of
       ((_ <- download_and_replace_asset (example_env net_404) "a.png?v=1"
                "https://example.com/" "cache" ;;
         download_and_replace_asset (example_env net_404) "a.png?v=2"
           "https://example.com/" "cache") (fresh_world "cache")))
     = ["https://example.com/a.png?v=1"; "https://example.com/a.png?v=2"].
Proof. split; [|split]; vm_compute; reflexivity. Qed.

(** C2, at the failing input: the fetch answers 404, no file is written, and
    the value returned is the percent-decoded locator, not the locator. *)
Lemma failed_fetch_returns_decoded_locator :
  result_of (download_and_replace_asset (example_env net_404) "img/my%20logo.png"
               "https://example.com/page/" "cache" (fresh_world "cache"))
  = Some "img/my logo.png"
  /\ files (world_of (download_and_replace_asset (example_env net_404)
                        "img/my%20logo.png" "https://example.com/page/" "cache"
                        (fresh_world "cache"))) = ∅
  /\ "img/my logo.png" <> "img/my%20logo.png".
Proof. split; [|split]; [vm_compute; reflexivity..|discriminate]. Qed.

(* ===================================================================== *)
(** ** The pattern of the style rewriter *)
(* ===================================================================== *)

Lemma lazy_group_unfold (s : string) :
  lazy_group s =
  if Str.startswith s url_close then Some (EmptyString, Str.drop 2 s)
  else match s with
       | EmptyString => None
       | String c s' =>
           if Ascii.eqb c newline then None
           else match lazy_group s' with
                | Some (g, rest) => Some (String c g, rest)
                | None => None
                end
       end.
Proof. by destruct s. Qed.

Lemma lazy_group_sound (s g rest : string) :
  lazy_group s = Some (g, rest) ->
  s = g +:+ url_close +:+ rest /\ lazy_match_group g.
Proof.
  revert g rest. induction s as [|c s IH]; intros g rest; rewrite lazy_group_unfold.
  - destruct (Str.startswith "" url_close) eqn:Hst; [|done]. done.
  - destruct (Str.startswith (String c s) url_close) eqn:Hst.
    + apply startswith_spec in Hst as [r Hr]. rewrite Hr.
      change (Str.drop 2 (url_close +:+ r)) with r.
      intros [= <- <-]. split; [done|]. split; [done|].
      intros a b Hab. rewrite append_nil_l in Hab.
      apply (f_equal String.length) in Hab. rewrite !append_length in Hab.
      destruct a; [done|]. simpl in Hab. lia.
    + destruct (Ascii.eqb_spec c newline) as [->|Hc]; [done|].
      destruct (lazy_group s) as [[g' rest']|] eqn:Hl; [|done].
      intros [= <- <-]. destruct (IH g' rest' eq_refl) as (-> & Hnl & Hfirst).
      split; [by rewrite append_cons|]. split.
      * rewrite contains_cons, Hnl, orb_false_r.
        apply Ascii.eqb_neq. congruence.
      * intros a b Hab. destruct a as [|d a].
        -- exfalso. rewrite append_nil_l, append_cons in Hab.
           assert (Str.startswith (String c (g' +:+ url_close +:+ rest')) url_close = true)
             as Hcontra; [|congruence].
           apply startswith_spec. exists (b +:+ rest').
           transitivity (String c (g' +:+ url_close) +:+ rest').
           { by rewrite append_cons, append_assoc. }
           by rewrite Hab, append_assoc.
        -- rewrite !append_cons in Hab. injection Hab as -> Hab.
           by rewrite (Hfirst a b Hab).
Qed.

Lemma lazy_group_complete (s g rest : string) :
  s = g +:+ url_close +:+ rest -> Str.contains newline g = false ->
  lazy_group s <> None.
Proof.
  revert s. induction g as [|c g IH]; intros s -> Hnl; rewrite lazy_group_unfold.
  - rewrite append_nil_l, startswith_app. done.
  - destruct (Str.startswith _ url_close); [done|].
    rewrite append_cons. rewrite contains_cons in Hnl.
    apply orb_false_iff in Hnl as [Hc Hnl].
    rewrite Ascii.eqb_sym, Hc.
    specialize (IH _ eq_refl Hnl).
    destruct (lazy_group (g +:+ url_close +:+ rest)) as [[]|]; done.
Qed.

Lemma match_here_sound (s g rest : string) :
  match_here s = Some (g, rest) ->
  s = group0 g +:+ rest /\ lazy_match_group g.
Proof.
  unfold match_here. destruct (Str.startswith s url_open) eqn:Hst; [|done].
  apply startswith_spec in Hst as [r ->].
  change (Str.drop 5 (url_open +:+ r)) with r.
  intros H. apply lazy_group_sound in H as [-> Hg]. split; [|done].
  unfold group0. by rewrite !append_assoc.
Qed.

Lemma match_here_complete (s : string) :
  match_here s = None -> ~ matches_here s.
Proof.
  unfold match_here. intros H (g & rest & -> & Hnl).
  unfold group0 in H. rewrite !append_assoc, startswith_app in H.
  change (Str.drop 5 (url_open +:+ ?r)) with r in H.
  by eapply lazy_group_complete.
Qed.

Lemma match_here_matches (s g rest : string) :
  match_here s = Some (g, rest) -> matches_here s.
Proof.
  intros H. apply match_here_sound in H as [-> [Hnl _]]. by exists g, rest.
Qed.

Lemma drop_nil (n : nat) : Str.drop n EmptyString = EmptyString.
Proof. by destruct n. Qed.

Lemma drop_length_pred (c : ascii) (m rest : string) :
  Str.drop (String.length (String c m) - 1) (m +:+ rest) = rest.
Proof. simpl. rewrite Nat.sub_0_r. apply drop_app. Qed.

Lemma group0_cons (g : string) :
  exists m, group0 g = String "u" m.
Proof. by eexists. Qed.

(** the segments tile the text *)
Lemma segments_from_source (skip : nat) (s : string) :
  concat_all (List.map seg_source (segments_from skip s)) = Str.drop skip s.
Proof.
  revert skip. induction s as [|c s IH]; intros skip; [by rewrite drop_nil|].
  cbn [segments_from]. destruct skip as [|n]; [|by rewrite IH].
  destruct (match_here (String c s)) as [[g rest]|] eqn:Hm.
  - cbn [List.map concat_all List.fold_right seg_source].
    fold (concat_all (List.map seg_source (segments_from (String.length (group0 g) - 1) s))).
    rewrite IH. apply match_here_sound in Hm as [Hs _].
    destruct (group0_cons g) as [m Hg]. rewrite Hg in *.
    rewrite append_cons in Hs. injection Hs as -> ->.
    rewrite drop_length_pred. by rewrite append_cons.
  - cbn [List.map concat_all List.fold_right seg_source].
    fold (concat_all (List.map seg_source (segments_from 0 s))).
    rewrite IH. by destruct s.
Qed.

(** every match among the segments is a lazy match of the pattern *)
Lemma segments_from_matches (skip : nat) (s g : string) :
  In (Match g) (segments_from skip s) -> lazy_match_group g.
Proof.
  revert skip. induction s as [|c s IH]; intros skip; [done|].
  cbn [segments_from]. destruct skip as [|n]; [|apply IH].
  destruct (match_here (String c s)) as [[g' rest]|] eqn:Hm.
  - intros [[= <-]|Hin]; [|by eapply IH].
    by apply match_here_sound in Hm as [_ ?].
  - intros [[=]|Hin]. by eapply IH.
Qed.

(** where a character stands, the pattern does not match *)
Lemma segments_from_leftmost (skip : nat) (s : string) (pre post : list segment)
  (c : ascii) :
  segments_from skip s = pre ++ Lit c :: post ->
  ~ matches_here (concat_all (List.map seg_source (Lit c :: post))).
Proof.
  revert skip pre. induction s as [|d s IH]; intros skip pre.
  { cbn. by destruct pre. }
  cbn [segments_from]. destruct skip as [|n]; [|apply IH].
  destruct (match_here (String d s)) as [[g rest]|] eqn:Hm.
  - destruct pre as [|x pre]; [done|]. intros [= _ H]. by eapply IH.
  - destruct pre as [|x pre].
    + intros [= <- <-]. apply match_here_complete.
      cbn [List.map concat_all List.fold_right seg_source].
      fold (concat_all (List.map seg_source (segments_from 0 s))).
      rewrite segments_from_source. by destruct s.
    + intros [= _ H]. by eapply IH.
Qed.

(** [re.sub] is the rewriting of the segments, from left to right *)
Lemma re_sub_from_segments (repl : string -> M string) (skip : nat) (s : string)
  (w : World) :
  re_sub_from repl skip s w
  = (pieces <- mapM (fun x => match x with
                              | Lit c => ret (String c EmptyString)
                              | Match g => repl g
                              end) (segments_from skip s) ;;
     ret (concat_all pieces)) w.
Proof.
  revert skip w. induction s as [|c s IH]; intros skip w; [done|].
  cbn [re_sub_from segments_from]. destruct skip as [|n]; [|apply IH].
  destruct (match_here (String c s)) as [[g rest]|].
  - cbn [mapM]. unfold bind at 1 3 4. destruct (repl g w) as [r w1|e w1]; [|done].
    unfold bind at 1. rewrite IH. unfold bind, ret.
    by destruct (mapM _ _ w1).
  - cbn [mapM]. unfold bind at 1 3 4. unfold ret at 2.
    rewrite IH. unfold bind, ret. by destruct (mapM _ _ w).
Qed.

Lemma lazy_group_of_lazy_match (g rest : string) :
  lazy_match_group g -> lazy_group (g +:+ url_close +:+ rest) = Some (g, rest).
Proof.
  induction g as [|c g IH]; intros [Hnl Hfirst]; rewrite lazy_group_unfold.
  - rewrite append_nil_l, startswith_app. done.
  - rewrite contains_cons in Hnl. apply orb_false_iff in Hnl as [Hc Hnl].
    destruct (Str.startswith _ url_close) eqn:Hst.
    + exfalso. apply startswith_spec in Hst as [r Hr].
      rewrite append_cons in Hr. unfold url_close in Hr at 2.
      rewrite append_cons in Hr. injection Hr as -> Hr.
      destruct g as [|d g].
      * rewrite append_nil_l in Hr. unfold url_close in Hr at 1.
        rewrite !append_cons in Hr. by injection Hr.
      * rewrite !append_cons in Hr. injection Hr as -> Hr.
        discriminate (Hfirst EmptyString (g +:+ url_close) eq_refl).
    + rewrite append_cons, Ascii.eqb_sym, Hc. rewrite IH; [done|]. split; [done|].
      intros a b Hab. specialize (Hfirst (String c a) b).
      rewrite !append_cons, Hab in Hfirst. by injection (Hfirst eq_refl).
Qed.

Lemma match_here_of_lazy_match (g rest : string) :
  lazy_match_group g -> match_here (group0 g +:+ rest) = Some (g, rest).
Proof.
  intros Hg. unfold match_here, group0.
  rewrite !append_assoc, startswith_app.
  change (Str.drop 5 (url_open +:+ ?r)) with r. by apply lazy_group_of_lazy_match.
Qed.

Lemma segments_from_drop (skip : nat) (s : string) :
  segments_from skip s = segments_from 0 (Str.drop skip s).
Proof.
  revert s. induction skip as [|n IH]; intros [|c s]; try done. cbn. apply IH.
Qed.

(** the segments are the only cut of the text into characters and lazy
    matches that leaves no match at a character *)
Lemma segments_unique (segs : list segment) :
  (forall g, In (Match g) segs -> lazy_match_group g) ->
  (forall pre c post,
     segs = pre ++ Lit c :: post ->
     ~ matches_here (concat_all (List.map seg_source (Lit c :: post)))) ->
  segs = segments (concat_all (List.map seg_source segs)).
Proof.
  induction segs as [|x segs IH]; intros Hlazy Hleft; [done|].
  assert (segs = segments (concat_all (List.map seg_source segs))) as Htail.
  { apply IH.
    - intros g Hg. apply Hlazy. by right.
    - intros pre c post ->. by apply (Hleft (x :: pre) c post). }
  cbn [List.map concat_all List.fold_right].
  fold (concat_all (List.map seg_source segs)).
  destruct x as [c|g]; cbn [seg_source].
  - rewrite append_cons, append_nil_l. unfold segments. cbn [segments_from].
    destruct (match_here _) as [[g rest]|] eqn:Hm.
    + exfalso. apply (Hleft [] c segs eq_refl).
      cbn [List.map concat_all List.fold_right seg_source].
      fold (concat_all (List.map seg_source segs)).
      rewrite append_cons, append_nil_l. by eapply match_here_matches.
    + f_equal. fold (segments (concat_all (List.map seg_source segs))). exact Htail.
  - assert (lazy_match_group g) as Hg by (apply Hlazy; by left).
    destruct (group0_cons g) as [m Hm]. unfold segments.
    pose proof (match_here_of_lazy_match g (concat_all (List.map seg_source segs)) Hg)
      as Hmatch.
    rewrite Hm in *. rewrite append_cons in *. cbn [segments_from].
    rewrite Hmatch. f_equal. rewrite Hm.
    rewrite segments_from_drop, drop_length_pred. exact Htail.
Qed.

(** C4. The text of a style attribute is tiled by its segments: the matches
    of the pattern, found from left to right without overlap, each with the
    shortest group, and the single characters between them, at none of which
    the pattern matches; no other cut of the text is of that kind. The
    rewriter returns the segments in their order, where a character and a
    match whose group has none of the three prefixes are as they were, and a
    match whose group has one is the opening literal, the value of the
    fetcher for the group, and the closing literal. *)
Theorem style_rewriter_replaces_remote_matches
  (E : Env) (style base_url dir : string) :
  concat_all (List.map seg_source (segments style)) = style
  /\ (forall g, In (Match g) (segments style) -> lazy_match_group g)
  /\ (forall pre c post,
        segments style = pre ++ Lit c :: post ->
        ~ matches_here (concat_all (List.map seg_source (Lit c :: post))))
  /\ (forall segs,
        concat_all (List.map seg_source segs) = style ->
        (forall g, In (Match g) segs -> lazy_match_group g) ->
        (forall pre c post,
           segs = pre ++ Lit c :: post ->
           ~ matches_here (concat_all (List.map seg_source (Lit c :: post)))) ->
        segs = segments style)
  /\ (forall w,
        process_style_attribute E style base_url dir w
        = (pieces <- mapM (rewrite_segment E base_url dir) (segments style) ;;
           ret (concat_all pieces)) w).
Proof.
  split; [|split; [|split; [|split]]].
  - unfold segments. rewrite segments_from_source. by destruct style.
  - intros g. apply segments_from_matches.
  - intros pre c post. apply segments_from_leftmost.
  - intros segs <-. apply segments_unique.
  - intros w. exact (re_sub_from_segments (replace_url E base_url dir) 0 style w).
Qed.

(** X5. A style none of whose matches has a remote prefix is returned as it
    is, in the world as it is: nothing is requested, written or printed. *)
Lemma style_without_remote_match_is_kept
  (E : Env) (style base_url dir : string) (w : World) :
  (forall g, In (Match g) (segments style) -> remote_prefix g = false) ->
  process_style_attribute E style base_url dir w = Return style w.
Proof.
  intros Hno. unfold process_style_attribute, re_sub.
  rewrite re_sub_from_segments. fold (segments style).
  assert (concat_all (List.map seg_source (segments style)) = style) as Htile.
  { unfold segments. rewrite segments_from_source. by destruct style. }
  rewrite <- Htile at 2. clear Htile. unfold bind.
  assert (mapM (fun x => match x with
                         | Lit c => ret (String c EmptyString)
                         | Match g => replace_url E base_url dir g
                         end) (segments style) w
          = Return (List.map seg_source (segments style)) w) as ->; [|done].
  induction (segments style) as [|x segs IH]; [done|].
  cbn [mapM List.map]. unfold bind.
  destruct x as [c|g].
  - unfold ret at 1. rewrite IH; [done|]. intros g Hg. apply Hno. by right.
  - unfold replace_url at 1. rewrite Hno by (by left). unfold ret at 1.
    rewrite IH; [done|]. intros g' Hg. apply Hno. by right.
Qed.

Lemma local_style_is_kept_example :
  process_style_attribute (example_env net_200)
    ("background:url(" +:+ String dquote "/local.png" +:+ String dquote ") no-repeat")
    "https://example.com/page/" "cache" (fresh_world "cache")
  = Return ("background:url(" +:+ String dquote "/local.png"
              +:+ String dquote ") no-repeat")
           (fresh_world "cache").
Proof.
  apply (style_without_remote_match_is_kept (example_env net_200)).
  intros g Hg. vm_compute in Hg.
  repeat (destruct Hg as [Hg|Hg];
          [first [discriminate Hg | by injection Hg as <-]|]).
  destruct Hg.
Defined.

(* ===================================================================== *)
(** ** The style rewriter on the texts of the specification *)
(* ===================================================================== *)

(** a relative URL in double quotes: the text comes back as it is and
    nothing is fetched *)
Example style_with_local_url_is_kept :
  process_style_attribute (example_env net_200)
    ("background:url(" +:+ String dquote "/local.png" +:+ String dquote ") no-repeat")
    "https://example.com/page/" "cache" (fresh_world "cache")
  = Return ("background:url(" +:+ String dquote "/local.png"
              +:+ String dquote ") no-repeat")
           (fresh_world "cache").
Proof. vm_compute. reflexivity. Qed.

(** a remote URL in double quotes: the URL alone is replaced *)
Example style_with_remote_url_is_rewritten :
  result_of (process_style_attribute (example_env net_200)
               ("background:url(" +:+ String dquote "https://x.com/a.png"
                  +:+ String dquote ") no-repeat")
               "https://example.com/page/" "cache" (fresh_world "cache"))
  = Some ("background:url(" +:+ String dquote
            "https://mirror.example/assets/8383dc4090.png"
            +:+ String dquote ") no-repeat").
Proof. vm_compute. reflexivity. Qed.

(** single quotes and no quotes: the pattern does not match *)
Example style_with_other_quotes_is_kept :
  process_style_attribute (example_env net_200)
    "a:url('https://x.com/a.png');b:url(https://x.com/b.png)"
    "https://example.com/page/" "cache" (fresh_world "cache")
  = Return "a:url('https://x.com/a.png');b:url(https://x.com/b.png)"
           (fresh_world "cache").
Proof. vm_compute. reflexivity. Qed.

(* ===================================================================== *)
(** ** Facts about the attributes of a tag *)
(* ===================================================================== *)

Lemma dict_get_set_eq (k v : string) (d : dict) :
  dict_get k (dict_set k v d) = Some v.
Proof.
  induction d as [|[k' v'] d IH]; cbn [dict_set dict_get].
  - by rewrite String.eqb_refl.
  - destruct (String.eqb_spec k' k) as [->|Hne]; cbn [dict_get].
    + by rewrite String.eqb_refl.
    + apply String.eqb_neq in Hne. by rewrite Hne.
Qed.

Lemma dict_get_set_ne (k k' v : string) (d : dict) :
  k <> k' -> dict_get k (dict_set k' v d) = dict_get k d.
Proof.
  intros Hne. induction d as [|[k'' v''] d IH]; cbn [dict_set dict_get].
  - destruct (String.eqb_spec k' k); [congruence|done].
  - destruct (String.eqb_spec k'' k') as [->|Hne']; cbn [dict_get].
    + destruct (String.eqb_spec k' k); [congruence|done].
    + by rewrite IH.
Qed.

Lemma dict_get_del_ne (k k' : string) (d : dict) :
  k <> k' -> dict_get k (dict_del k' d) = dict_get k d.
Proof.
  intros Hne. unfold dict_del.
  induction d as [|[k'' v''] d IH]; [done|]. cbn [List.filter fst dict_get].
  destruct (String.eqb_spec k'' k') as [->|Hne']; cbn [negb dict_get].
  - destruct (String.eqb_spec k' k); [congruence|done].
  - by rewrite IH.
Qed.

Lemma dict_set_keys (k v : string) (d : dict) :
  dict_has k d = true -> List.map fst (dict_set k v d) = List.map fst d.
Proof.
  unfold dict_has. induction d as [|[k' v'] d IH]; [done|].
  cbn [dict_get dict_set]. destruct (String.eqb_spec k' k) as [->|Hne]; [done|].
  intros H. cbn [List.map fst]. by rewrite IH.
Qed.

Lemma dict_has_get (k : string) (d : dict) :
  dict_has k d = true <-> exists v, dict_get k d = Some v.
Proof.
  unfold dict_has. destruct (dict_get k d); split; eauto; [|by intros [? ?]]. done.
Qed.

Lemma dict_get_In (k v : string) (d : dict) :
  dict_get k d = Some v -> In k (List.map fst d).
Proof.
  induction d as [|[k' v'] d IH]; [done|]. cbn [dict_get List.map fst].
  destruct (String.eqb_spec k' k) as [->|Hne]; [by left|]. right. auto.
Qed.

Lemma drop_integrity_get (k : string) (d : dict) :
  k <> "integrity" -> k <> "crossorigin" ->
  dict_get k (drop_integrity d) = dict_get k d.
Proof.
  intros H1 H2. unfold drop_integrity.
  destruct (dict_has "integrity" d);
    destruct (dict_has "crossorigin" _); rewrite ?dict_get_del_ne by done; done.
Qed.

(** the names that end in [urls] do not end in [url] *)
Lemma endswith_urls_not_url (s : string) :
  Str.endswith s "urls" = true -> Str.endswith s "url" = false.
Proof.
  induction s as [|c s IH]; [done|]. cbn [Str.endswith].
  rewrite orb_true_iff, orb_false_iff, String.eqb_eq, String.eqb_neq.
  intros [[= -> ->]|H]; [split; [discriminate|reflexivity]|]. split; [|auto].
  intros [= -> ->]. vm_compute in H. discriminate.
Qed.

(* ===================================================================== *)
(** ** Every step of the rewriting is a step of the cache *)
(* ===================================================================== *)

Lemma cache_step_of_return (dir : string) {A} (c : M A) (w w' : World) (a : A) :
  cache_only dir c -> c w = Return a w' -> cache_step dir w w'.
Proof. intros H Hc. specialize (H w). by rewrite Hc in H. Qed.

Lemma cache_step_of_raise (dir : string) {A} (c : M A) (w w' : World) (e : exn) :
  cache_only dir c -> c w = Raise e w' -> cache_step dir w w'.
Proof. intros H Hc. specialize (H w). by rewrite Hc in H. Qed.

Create HintDb cache.

#[export] Hint Resolve resolve_cache_only : cache.

(** a computation put together from [ret], [raise], [bind], [mapM], [foldM]
    and case distinctions: its parts are left to the hints of [cache] *)
Ltac cache_steps :=
  repeat first
    [ apply cache_only_ret
    | apply cache_only_raise
    | apply cache_only_bind; [|intros ?]
    | apply cache_only_mapM; intros ?
    | apply cache_only_foldM; intros ? ?
    | match goal with
      | |- cache_only _ (if ?b then _ else _) => destruct b
      | |- cache_only _ (match ?o with _ => _ end) => destruct o
      end ];
  eauto with cache.

Lemma re_sub_from_cache_only (dir : string) (repl : string -> M string)
  (skip : nat) (s : string) :
  (forall g, cache_only dir (repl g)) -> cache_only dir (re_sub_from repl skip s).
Proof.
  intros Hrepl. revert skip. induction s as [|c s IH]; intros skip.
  { apply cache_only_ret. }
  cbn [re_sub_from]. destruct skip as [|n]; [|apply IH]. cache_steps.
Qed.

Section Steps.
Context (E : Env) (url dir : string).

Lemma replace_url_cache_only (g : string) : cache_only dir (replace_url E url dir g).
Proof. unfold replace_url. cache_steps. Qed.

Lemma process_style_attribute_cache_only (style : string) :
  cache_only dir (process_style_attribute E style url dir).
Proof. apply re_sub_from_cache_only, replace_url_cache_only. Qed.

Lemma tag_getitem_cache_only (k : string) (d : dict) : cache_only dir (tag_getitem k d).
Proof. unfold tag_getitem. cache_steps. Qed.

Hint Resolve process_style_attribute_cache_only tag_getitem_cache_only : cache.

Lemma rewrite_style_cache_only (attrs : dict) :
  cache_only dir (rewrite_style E url dir attrs).
Proof. unfold rewrite_style. cache_steps. Qed.

Lemma rewrite_url_attr_cache_only (attrs : dict) (attr : string) :
  cache_only dir (rewrite_url_attr E url dir attrs attr).
Proof. unfold rewrite_url_attr. cache_steps. Qed.

Hint Resolve rewrite_url_attr_cache_only : cache.

Lemma rewrite_url_attrs_cache_only (attrs : dict) :
  cache_only dir (rewrite_url_attrs E url dir attrs).
Proof. unfold rewrite_url_attrs. cache_steps. Qed.

Lemma rewrite_src_href_cache_only (name : string) (attrs : dict) :
  cache_only dir (rewrite_src_href E url dir name attrs).
Proof. unfold rewrite_src_href. cache_steps. Qed.

Hint Resolve rewrite_style_cache_only rewrite_url_attrs_cache_only
  rewrite_src_href_cache_only : cache.

Lemma process_tag_cache_only (name : string) (attrs : dict) :
  cache_only dir (process_tag E url dir name attrs).
Proof. unfold process_tag. cache_steps. Qed.

(** induction on a tree, with the property in hand for the children *)
Lemma Node_forall_ind (P : Node -> Prop) :
  (forall s, P (NavigableString s)) ->
  (forall name attrs children, Forall P children -> P (Tag name attrs children)) ->
  forall n, P n.
Proof.
  intros Hs Ht. fix IH 1. intros [name attrs children|s]; [|apply Hs].
  apply Ht. induction children as [|c cs IHcs]; constructor; [apply IH|exact IHcs].
Qed.

Lemma rewrite_node_cache_only (n : Node) : cache_only dir (rewrite_node E url dir n).
Proof.
  induction n as [s|name attrs children IH] using Node_forall_ind.
  { apply cache_only_ret. }
  cbn [rewrite_node].
  apply cache_only_bind; [apply process_tag_cache_only|]. intros a.
  apply cache_only_bind; [|intros cs; apply cache_only_ret].
  induction IH as [|c cs Hc _ IHcs]; [apply cache_only_ret|].
  cbn [mapM]. apply cache_only_bind; [exact Hc|]. intros c'.
  apply cache_only_bind; [exact IHcs|]. intros cs'. apply cache_only_ret.
Qed.

Lemma rewrite_soup_cache_only (soup : list Node) :
  cache_only dir (rewrite_soup E url dir soup).
Proof. apply cache_only_mapM. intros n. apply rewrite_node_cache_only. Qed.

End Steps.

(* ===================================================================== *)
(** ** The loop body, attribute by attribute *)
(* ===================================================================== *)

Section TagRules.
Context (E : Env) (url dir : string).

Lemma rewrite_style_get (attrs attrs' : dict) (w w' : World) (k : string) :
  rewrite_style E url dir attrs w = Return attrs' w' ->
  k <> "style" -> dict_get k attrs' = dict_get k attrs.
Proof.
  unfold rewrite_style. destruct (dict_has "style" attrs).
  - intros H Hk. apply bind_Return_inv in H as (style & w1 & _ & H).
    apply bind_Return_inv in H as (s & w2 & _ & H). injection H as <- _.
    by apply dict_get_set_ne.
  - by intros [= <- _] _.
Qed.

Lemma rewrite_style_keys (attrs attrs' : dict) (w w' : World) :
  rewrite_style E url dir attrs w = Return attrs' w' ->
  List.map fst attrs' = List.map fst attrs.
Proof.
  unfold rewrite_style. destruct (dict_has "style" attrs) eqn:Hhas.
  - intros H. apply bind_Return_inv in H as (style & w1 & _ & H).
    apply bind_Return_inv in H as (s & w2 & _ & H). injection H as <- _.
    by apply dict_set_keys.
  - by intros [= <- _].
Qed.

(** one turn of the loop writes the attribute whose turn it is, if its name
    ends in [url] or [urls], and nothing else *)
Lemma rewrite_url_attr_get (d d' : dict) (k0 k : string) (w w' : World) :
  rewrite_url_attr E url dir d k0 w = Return d' w' ->
  k0 <> k \/ (ends_url k0 = false /\ ends_urls k0 = false) ->
  dict_get k d' = dict_get k d.
Proof.
  unfold rewrite_url_attr, ends_url, ends_urls.
  destruct (dict_get k0 d) as [v|]; [|by intros [= <- _]].
  intros H Hk.
  destruct (Str.endswith (Str.lower k0) "url") eqn:Hu.
  { destruct Hk as [Hk|[? _]]; [|done].
    apply bind_Return_inv in H as (r & w1 & _ & H). injection H as <- _.
    apply dict_get_set_ne. congruence. }
  destruct (Str.endswith (Str.lower k0) "urls") eqn:Hus; [|by injection H as <- _].
  destruct Hk as [Hk|[_ ?]]; [|done].
  apply bind_Return_inv in H as (r & w1 & _ & H). injection H as <- _.
  apply dict_get_set_ne. congruence.
Qed.

Lemma url_loop_get (ks : list string) (d d' : dict) (k : string) (w w' : World) :
  foldM (rewrite_url_attr E url dir) ks d w = Return d' w' ->
  (forall k0, In k0 ks -> k0 <> k \/ (ends_url k0 = false /\ ends_urls k0 = false)) ->
  dict_get k d' = dict_get k d.
Proof.
  revert d w. induction ks as [|k0 ks IH]; intros d w; cbn [foldM].
  - by intros [= <- _] _.
  - intros H Hks. apply bind_Return_inv in H as (d1 & w1 & Hturn & H).
    rewrite (IH _ _ H) by (intros; apply Hks; by right).
    eapply rewrite_url_attr_get; [exact Hturn|]. apply Hks. by left.
Qed.

Lemma rewrite_src_href_get (name : string) (attrs attrs' : dict) (w w' : World)
  (k : string) :
  rewrite_src_href E url dir name attrs w = Return attrs' w' ->
  (String.eqb k "src" && is_media name) = false ->
  (String.eqb k "href" && String.eqb name "link") = false ->
  dict_get k attrs' = dict_get k attrs.
Proof.
  unfold rewrite_src_href, is_media. intros H Hsrc Hhref.
  destruct (Str.mem name _ && dict_has "src" attrs) eqn:Hm.
  { apply andb_true_iff in Hm as [Hm _]. rewrite Hm, andb_true_r in Hsrc.
    apply String.eqb_neq in Hsrc.
    apply bind_Return_inv in H as (v & w1 & _ & H).
    apply bind_Return_inv in H as (r & w2 & _ & H). injection H as <- _.
    by apply dict_get_set_ne. }
  destruct (String.eqb name "link" && dict_has "href" attrs) eqn:Hl;
    [|by injection H as <- _].
  apply andb_true_iff in Hl as [Hl _]. rewrite Hl, andb_true_r in Hhref.
  apply String.eqb_neq in Hhref.
  apply bind_Return_inv in H as (v & w1 & _ & H).
  apply bind_Return_inv in H as (r & w2 & _ & H). injection H as <- _.
  by apply dict_get_set_ne.
Qed.

(** the frame of the loop body: an attribute under none of the rules keeps
    its value *)
Lemma process_tag_frame (name : string) (attrs attrs' : dict) (w w' : World)
  (k : string) :
  process_tag E url dir name attrs w = Return attrs' w' ->
  under_no_rule name k = true ->
  dict_get k attrs' = dict_get k attrs.
Proof.
  unfold process_tag, under_no_rule. intros H Hk.
  repeat (apply andb_true_iff in Hk as [Hk ?]).
  repeat match goal with
         | H : negb _ = true |- _ => apply negb_true_iff in H
         end.
  repeat match goal with
         | H : String.eqb k _ = false |- _ => apply String.eqb_neq in H
         end.
  apply bind_Return_inv in H as (a1 & w1 & Hstyle & H).
  apply bind_Return_inv in H as (a2 & w2 & Hloop & H).
  rewrite (rewrite_src_href_get _ _ _ _ _ _ H) by done.
  unfold rewrite_url_attrs in Hloop.
  rewrite (url_loop_get _ _ _ k _ _ Hloop).
  2:{ intros k0 _. destruct (String.eqb_spec k0 k) as [->|]; [right|left]; done. }
  rewrite (rewrite_style_get _ _ _ _ _ Hstyle) by done.
  by apply drop_integrity_get.
Qed.

End TagRules.

(* ===================================================================== *)
(** ** The walk over the document *)
(* ===================================================================== *)

Lemma mapM_Forall2 {A B} (f : A -> M B) (Q : A -> B -> Prop) (l : list A) :
  Forall (fun x => forall w y w', f x w = Return y w' -> Q x y) l ->
  forall w l' w', mapM f l w = Return l' w' -> Forall2 Q l l'.
Proof.
  induction 1 as [|x l Hx _ IH]; intros w l' w'; cbn [mapM].
  - intros [= <- _]. constructor.
  - intros H. apply bind_Return_inv in H as (y & w1 & Hy & H).
    apply bind_Return_inv in H as (ys & w2 & Hys & H). injection H as <- _.
    constructor; eauto.
Qed.

(** the walk keeps the shape of the tree, and each tag has gone through the
    loop body *)
Lemma rewrite_node_shape (E : Env) (url dir : string)
  (R : string -> dict -> dict -> Prop) :
  (forall name attrs w1 attrs' w2,
     process_tag E url dir name attrs w1 = Return attrs' w2 -> R name attrs attrs') ->
  forall n w n' w',
    rewrite_node E url dir n w = Return n' w' -> same_shape R n n'.
Proof.
  intros HR n.
  induction n as [s|name attrs children IH] using Node_forall_ind; intros w n' w'.
  { intros [= <- _]. constructor. }
  cbn [rewrite_node]. intros H.
  apply bind_Return_inv in H as (a & w1 & Ha & H).
  apply bind_Return_inv in H as (cs & w2 & Hcs & H). injection H as <- _.
  constructor; [by eapply HR|].
  by eapply (mapM_Forall2 (rewrite_node E url dir)).
Qed.

Lemma rewrite_soup_shape (E : Env) (url dir : string)
  (R : string -> dict -> dict -> Prop) :
  (forall name attrs w1 attrs' w2,
     process_tag E url dir name attrs w1 = Return attrs' w2 -> R name attrs attrs') ->
  forall soup w soup' w',
    rewrite_soup E url dir soup w = Return soup' w' ->
    Forall2 (same_shape R) soup soup'.
Proof.
  intros HR soup w soup' w'. unfold rewrite_soup.
  apply mapM_Forall2. apply Forall_forall. intros n _.
  apply rewrite_node_shape, HR.
Qed.

(** The same with the worlds. A call of the walk starts in a world that the
    cache has reached from the first world [w] of the walk and ends in a
    world from which the cache reaches its last world [w']: what holds of
    the loop body between two such worlds holds of every tag. *)
Lemma mapM_Forall2_steps {A B} (dir : string) (f : A -> M B)
  (Q : World -> World -> A -> B -> Prop) (l : list A) :
  (forall x, cache_only dir (f x)) ->
  Forall (fun x => forall wa y wb w w',
            f x wa = Return y wb ->
            cache_step dir w wa -> cache_step dir wb w' -> Q w w' x y) l ->
  forall wa l' wb w w',
    mapM f l wa = Return l' wb ->
    cache_step dir w wa -> cache_step dir wb w' -> Forall2 (Q w w') l l'.
Proof.
  intros Hf. induction 1 as [|x l Hx _ IH]; intros wa l' wb w w'; cbn [mapM].
  - intros [= <- _] _ _. constructor.
  - intros H Hin Hout. apply bind_Return_inv in H as (y & w1 & Hy & H).
    apply bind_Return_inv in H as (ys & w2 & Hys & H). injection H as <- <-.
    assert (cache_step dir wa w1) as H1
      by (eapply cache_step_of_return; [apply Hf|exact Hy]).
    assert (cache_step dir w1 w2) as H2
      by (eapply cache_step_of_return; [apply cache_only_mapM, Hf|exact Hys]).
    constructor.
    + eapply Hx; [exact Hy|exact Hin|]. by eapply cache_step_trans.
    + eapply IH; [exact Hys| |exact Hout]. by eapply cache_step_trans.
Qed.

Lemma rewrite_node_shape_steps (E : Env) (url dir : string)
  (R : World -> World -> string -> dict -> dict -> Prop) :
  (forall name attrs w1 attrs' w2 w w',
     process_tag E url dir name attrs w1 = Return attrs' w2 ->
     cache_step dir w w1 -> cache_step dir w2 w' -> R w w' name attrs attrs') ->
  forall n wa n' wb w w',
    rewrite_node E url dir n wa = Return n' wb ->
    cache_step dir w wa -> cache_step dir wb w' -> same_shape (R w w') n n'.
Proof.
  intros HR n.
  induction n as [s|name attrs children IH] using Node_forall_ind;
    intros wa n' wb w w'.
  { intros [= <- _] _ _. constructor. }
  cbn [rewrite_node]. intros H Hin Hout.
  apply bind_Return_inv in H as (a & w1 & Ha & H).
  apply bind_Return_inv in H as (cs & w2 & Hcs & H). injection H as <- <-.
  assert (cache_step dir wa w1) as H1
    by (eapply cache_step_of_return; [apply process_tag_cache_only|exact Ha]).
  assert (cache_step dir w1 w2) as H2.
  { eapply cache_step_of_return; [|exact Hcs].
    apply cache_only_mapM, rewrite_node_cache_only. }
  constructor.
  - eapply HR; [exact Ha|exact Hin|]. by eapply cache_step_trans.
  - eapply (mapM_Forall2_steps dir (rewrite_node E url dir)
              (fun w w' => same_shape (R w w')));
      [apply rewrite_node_cache_only|exact IH|exact Hcs| |exact Hout].
    by eapply cache_step_trans.
Qed.

Lemma rewrite_soup_shape_steps (E : Env) (url dir : string)
  (R : World -> World -> string -> dict -> dict -> Prop) :
  (forall name attrs w1 attrs' w2 w w',
     process_tag E url dir name attrs w1 = Return attrs' w2 ->
     cache_step dir w w1 -> cache_step dir w2 w' -> R w w' name attrs attrs') ->
  forall soup w soup' w',
    rewrite_soup E url dir soup w = Return soup' w' ->
    Forall2 (same_shape (R w w')) soup soup'.
Proof.
  intros HR soup w soup' w' H. unfold rewrite_soup in H.
  eapply (mapM_Forall2_steps dir (rewrite_node E url dir)
            (fun w w' => same_shape (R w w')));
    [apply rewrite_node_cache_only| |exact H|apply cache_step_refl|apply cache_step_refl].
  apply Forall_forall. intros n _ wa n' wb w0 w0'.
  by apply rewrite_node_shape_steps.
Qed.

(** C10. The walk returns a tree of the same shape, tag by tag under the
    same name, in which every attribute under none of the rules has the value
    it had: its name ends neither in [url] nor in [urls], case aside, it is
    none of [style], [integrity] and [crossorigin], it is not the [src] of an
    [img], [script] or [source] tag and not the [href] of a [link] tag. The
    [href] of an [a] tag and the [src] of a [video] or [iframe] tag are
    such attributes. *)
Theorem attributes_under_no_rule_are_kept
  (E : Env) (url dir : string) (soup soup' : list Node) (w w' : World) :
  rewrite_soup E url dir soup w = Return soup' w' ->
  Forall2 (same_shape (fun name attrs attrs' =>
                         forall k, under_no_rule name k = true ->
                                   dict_get k attrs' = dict_get k attrs))
          soup soup'
  /\ under_no_rule "a" "href" = true
  /\ under_no_rule "video" "src" = true
  /\ under_no_rule "iframe" "src" = true.
Proof.
  intros H. split; [|by vm_compute].
  eapply rewrite_soup_shape; [|exact H].
  intros name attrs w1 attrs' w2 Htag k Hk. by eapply process_tag_frame.
Qed.

Lemma example_soup_keeps_attributes_under_no_rule :
  Forall2 (same_shape (fun name attrs attrs' =>
                         forall k, under_no_rule name k = true ->
                                   dict_get k attrs' = dict_get k attrs))
          example_soup example_soup_mirrored
  /\ under_no_rule "a" "href" = true
  /\ under_no_rule "video" "src" = true
  /\ under_no_rule "iframe" "src" = true.
Proof.
  apply (attributes_under_no_rule_are_kept (example_env net_200)
           "https://example.com/page/" "cache" example_soup example_soup_mirrored
           (fresh_world "cache")
           (world_of (rewrite_soup (example_env net_200) "https://example.com/page/"
                        "cache" example_soup (fresh_world "cache")))).
  vm_compute. reflexivity.
Defined.

(* ===================================================================== *)
(** ** The attributes that the loop body resolves *)
(* ===================================================================== *)

Section Resolved.
Context (E : Env) (url dir : string).

(** the value that the rules before line 65 leave under [src] and [href] *)
Lemma before_src_href_get (attrs a2 : dict) (w w2 : World) (k : string) :
  (a1 <- rewrite_style E url dir (drop_integrity attrs) ;;
   rewrite_url_attrs E url dir a1) w = Return a2 w2 ->
  k = "src" \/ k = "href" ->
  dict_get k a2 = dict_get k attrs /\ cache_step dir w w2.
Proof.
  intros H Hk. apply bind_Return_inv in H as (a1 & w1 & Hstyle & Hloop).
  split.
  - unfold rewrite_url_attrs in Hloop. rewrite (url_loop_get E url dir _ _ _ k _ _ Hloop).
    2:{ intros k0 _. destruct (String.eqb_spec k0 k) as [->|]; [right|by left].
        by destruct Hk as [-> | ->]. }
    rewrite (rewrite_style_get E url dir _ _ _ _ k Hstyle) by (by destruct Hk as [-> | ->]).
    apply drop_integrity_get; by destruct Hk as [-> | ->].
  - eapply cache_step_trans.
    + eapply cache_step_of_return; [apply rewrite_style_cache_only|exact Hstyle].
    + eapply cache_step_of_return; [apply rewrite_url_attrs_cache_only|exact Hloop].
Qed.

(** When the loop body returns for an [img], [script] or [source] tag that
    has a [src], or for a [link] tag that has an [href], the value the
    attribute had in the page went through the fetcher as one locator, after
    the other rules and as the last step of the body, and the attribute
    holds what the fetcher returned. *)
Lemma process_tag_src_href
  (name : string) (attrs attrs' : dict) (key v : string) (w w' : World) :
  process_tag E url dir name attrs w = Return attrs' w' ->
  (key = "src" /\ is_media name = true) \/ (key = "href" /\ name = "link") ->
  dict_get key attrs = Some v ->
  exists w1 r,
    cache_step dir w w1
    /\ download_and_replace_asset E v url dir w1 = Return r w'
    /\ dict_get key attrs' = Some r.
Proof.
  unfold process_tag. intros H Hrule Hget.
  rewrite <- bind_assoc in H.
  apply bind_Return_inv in H as (a2 & w2 & Hbefore & H).
  destruct (before_src_href_get _ _ _ _ key Hbefore) as [Hkeep Hstep].
  { destruct Hrule as [[-> _]|[-> _]]; auto. }
  rewrite Hget in Hkeep.
  assert (dict_has key a2 = true) as Hhas by (apply dict_has_get; eauto).
  exists w2. unfold rewrite_src_href in H. fold (is_media name) in H.
  destruct Hrule as [[-> Hmedia]|[-> ->]].
  - rewrite Hmedia, Hhas in H. cbn [andb] in H.
    unfold tag_getitem in H. rewrite Hkeep in H.
    apply bind_Return_inv in H as (v' & w3 & [= <- <-] & H).
    apply bind_Return_inv in H as (r & w4 & Hr & [= <- <-]).
    exists r. split; [done|]. split; [done|]. apply dict_get_set_eq.
  - change (is_media "link") with false in H.
    change (String.eqb "link" "link") with true in H.
    rewrite Hhas in H. cbn [andb] in H.
    unfold tag_getitem in H. rewrite Hkeep in H.
    apply bind_Return_inv in H as (v' & w3 & [= <- <-] & H).
    apply bind_Return_inv in H as (r & w4 & Hr & [= <- <-]).
    exists r. split; [done|]. split; [done|]. apply dict_get_set_eq.
Qed.

End Resolved.

Example process_tag_src_href_example :
  (exists w1 r,
     cache_step "cache" (fresh_world "cache") w1
     /\ download_and_replace_asset (example_env net_200) "img/logo.png"
          "https://example.com/page/" "cache" w1
        = Return r (world_of (process_tag (example_env net_200)
                                "https://example.com/page/" "cache" "img"
                                [("src", "img/logo.png"); ("alt", "logo")]
                                (fresh_world "cache")))
     /\ dict_get "src" [("src", "https://mirror.example/assets/0085aa6192.png");
                        ("alt", "logo")] = Some r)
  /\ (exists w1 r,
        cache_step "cache" (fresh_world "cache") w1
        /\ download_and_replace_asset (example_env net_200) "site.css"
             "https://example.com/page/" "cache" w1
           = Return r (world_of (process_tag (example_env net_200)
                                   "https://example.com/page/" "cache" "link"
                                   [("rel", "stylesheet"); ("href", "site.css");
                                    ("integrity", "sha384-x");
                                    ("crossorigin", "anonymous")]
                                   (fresh_world "cache")))
        /\ dict_get "href" [("rel", "stylesheet");
                            ("href", "https://mirror.example/assets/b28ae46457.css")]
           = Some r).
Proof.
  split.
  - apply (process_tag_src_href (example_env net_200)
             "https://example.com/page/" "cache" "img"
             [("src", "img/logo.png"); ("alt", "logo")] _ "src" "img/logo.png"
             (fresh_world "cache") _).
    + vm_compute. reflexivity.
    + left. split; reflexivity.
    + reflexivity.
  - apply (process_tag_src_href (example_env net_200)
             "https://example.com/page/" "cache" "link"
             [("rel", "stylesheet"); ("href", "site.css");
              ("integrity", "sha384-x"); ("crossorigin", "anonymous")]
             _ "href" "site.css" (fresh_world "cache") _).
    + vm_compute. reflexivity.
    + right. split; reflexivity.
    + reflexivity.
Defined.

(** C8. When the walk returns, every [img], [script] and [source] tag that
    had a [src] holds under [src], and every [link] tag that had an [href]
    holds under [href], what the fetcher returned for the value the
    attribute had in the page, taken as one locator, in a call made during
    the walk: the world of the call is reached from the first world of the
    walk by steps of the cache, and so is the last world of the walk from
    the world the call left. *)
Theorem src_and_href_are_resolved
  (E : Env) (url dir : string) (soup soup' : list Node) (w w' : World) :
  rewrite_soup E url dir soup w = Return soup' w' ->
  Forall2 (same_shape (fun name attrs attrs' =>
             forall key v,
               (key = "src" /\ is_media name = true)
               \/ (key = "href" /\ name = "link") ->
               dict_get key attrs = Some v ->
               exists w1 w2 r,
                 cache_step dir w w1
                 /\ download_and_replace_asset E v url dir w1 = Return r w2
                 /\ cache_step dir w2 w'
                 /\ dict_get key attrs' = Some r))
          soup soup'.
Proof.
  apply (rewrite_soup_shape_steps E url dir
           (fun w w' name attrs attrs' =>
              forall key v,
                (key = "src" /\ is_media name = true)
                \/ (key = "href" /\ name = "link") ->
                dict_get key attrs = Some v ->
                exists w1 w2 r,
                  cache_step dir w w1
                  /\ download_and_replace_asset E v url dir w1 = Return r w2
                  /\ cache_step dir w2 w'
                  /\ dict_get key attrs' = Some r)).
  intros name attrs wa attrs' wb w0 w0' Htag Hin Hout key v Hrule Hget.
  destruct (process_tag_src_href E url dir name attrs attrs' key v wa wb Htag Hrule Hget)
    as (w1 & r & Hs & Hr & Hk).
  exists w1, wb, r. split; [by eapply cache_step_trans|]. done.
Qed.

Lemma src_and_href_example :
  Forall2 (same_shape (fun name attrs attrs' =>
             forall key v,
               (key = "src" /\ is_media name = true)
               \/ (key = "href" /\ name = "link") ->
               dict_get key attrs = Some v ->
               exists w1 w2 r,
                 cache_step "cache" (fresh_world "cache") w1
                 /\ download_and_replace_asset (example_env net_200) v
                      "https://example.com/page/" "cache" w1 = Return r w2
                 /\ cache_step "cache" w2
                      (world_of (rewrite_soup (example_env net_200)
                                   "https://example.com/page/" "cache" example_soup
                                   (fresh_world "cache")))
                 /\ dict_get key attrs' = Some r))
          example_soup example_soup_mirrored.
Proof.
  apply (src_and_href_are_resolved (example_env net_200)
           "https://example.com/page/" "cache" example_soup example_soup_mirrored
           (fresh_world "cache")
           (world_of (rewrite_soup (example_env net_200) "https://example.com/page/"
                        "cache" example_soup (fresh_world "cache")))).
  vm_compute. reflexivity.
Defined.

Section UrlAttributes.
Context (E : Env) (url dir : string).

(** the turn of the attribute [k] in the loop: the worlds before and after
    it, and the attributes before and after it *)
Lemma url_loop_turn (ks : list string) (d d' : dict) (k v : string) (w w' : World) :
  List.NoDup ks -> In k ks -> dict_get k d = Some v ->
  foldM (rewrite_url_attr E url dir) ks d w = Return d' w' ->
  exists w1 w2 d1 d2,
    cache_step dir w w1
    /\ dict_get k d1 = Some v
    /\ rewrite_url_attr E url dir d1 k w1 = Return d2 w2
    /\ cache_step dir w2 w'
    /\ dict_get k d' = dict_get k d2.
Proof.
  revert d w. induction ks as [|k0 ks IH]; intros d w Hnd Hin Hget; [done|].
  cbn [foldM]. intros H. apply bind_Return_inv in H as (dA & wA & Hturn & Hrest).
  apply List.NoDup_cons_iff in Hnd as [Hk0 Hnd].
  destruct Hin as [->|Hin].
  - exists w, wA, d, dA. split; [apply cache_step_refl|]. split; [done|].
    split; [done|]. split.
    + eapply cache_step_of_return; [|exact Hrest].
      apply cache_only_foldM. intros b a. apply rewrite_url_attr_cache_only.
    + eapply url_loop_get; [exact Hrest|]. intros k1 Hk1. left. congruence.
  - assert (k0 <> k) as Hne by congruence.
    destruct (IH dA wA Hnd Hin) as (w1 & w2 & d1 & d2 & Hs1 & Hg & Ht & Hs2 & Hfin);
      [|exact Hrest|].
    { rewrite <- Hget. eapply rewrite_url_attr_get; [exact Hturn|]. by left. }
    exists w1, w2, d1, d2. split; [|done].
    eapply cache_step_trans; [|exact Hs1].
    eapply cache_step_of_return; [apply rewrite_url_attr_cache_only|exact Hturn].
Qed.

Lemma drop_integrity_keys_NoDup (attrs : dict) :
  List.NoDup (List.map fst attrs) -> List.NoDup (List.map fst (drop_integrity attrs)).
Proof.
  assert (forall k d, List.NoDup (List.map fst d) ->
                      List.NoDup (List.map fst (dict_del k d))) as Hdel.
  { intros k d. unfold dict_del. induction d as [|[k' v'] d IH]; [done|].
    cbn [List.map fst List.filter]. intros Hnd.
    apply List.NoDup_cons_iff in Hnd as [Hk' Hnd].
    destruct (negb (String.eqb k' k)); [|auto].
    cbn [List.map fst]. apply List.NoDup_cons; [|auto].
    intros Hin. apply Hk'. apply List.in_map_iff in Hin as ([k2 v2] & <- & Hin).
    apply List.filter_In in Hin as [Hin _]. apply List.in_map_iff. by exists (k2, v2). }
  intros Hnd. unfold drop_integrity.
  destruct (dict_has "integrity" attrs); destruct (dict_has "crossorigin" _); auto.
Qed.

(** When the loop body returns for a tag whose attributes have distinct
    names, an attribute whose name ends in [urls], case aside, holds the
    values that the fetcher returned for the pieces of its value, cut at the
    commas and stripped of white space, one call after the other, joined by a
    comma and a space; and an attribute whose name ends in [url] holds the
    value that the fetcher returned for its whole value. *)
Lemma process_tag_url_attrs
  (name : string) (attrs attrs' : dict) (k v : string) (w w' : World) :
  List.NoDup (List.map fst attrs) ->
  dict_get k attrs = Some v ->
  process_tag E url dir name attrs w = Return attrs' w' ->
  (ends_urls k = true ->
   exists w1 w2 rs,
     cache_step dir w w1
     /\ mapM (fun asset_url =>
                download_and_replace_asset E (Str.strip asset_url) url dir)
             (Str.split "," v) w1 = Return rs w2
     /\ cache_step dir w2 w'
     /\ dict_get k attrs' = Some (Str.join ", " rs))
  /\ (ends_url k = true ->
      exists w1 w2 r,
        cache_step dir w w1
        /\ download_and_replace_asset E v url dir w1 = Return r w2
        /\ cache_step dir w2 w'
        /\ dict_get k attrs' = Some r).
Proof.
  intros Hnd Hget H.
  assert (ends_url k = true \/ ends_urls k = true ->
          exists wA wB d1 d2,
            cache_step dir w wA /\ dict_get k d1 = Some v
            /\ rewrite_url_attr E url dir d1 k wA = Return d2 wB
            /\ cache_step dir wB w' /\ dict_get k attrs' = dict_get k d2) as Hturn.
  { intros Hrule.
    assert (k <> "style" /\ k <> "integrity" /\ k <> "crossorigin"
            /\ k <> "src" /\ k <> "href") as (N1 & N2 & N3 & N4 & N5).
    { repeat split; intros ->; by destruct Hrule as [Hr|Hr]; vm_compute in Hr. }
    unfold process_tag in H.
    apply bind_Return_inv in H as (a1 & wS & Hstyle & H).
    apply bind_Return_inv in H as (a2 & wL & Hloop & Hlast).
    assert (dict_get k a1 = Some v) as Hget1.
    { rewrite (rewrite_style_get E url dir _ _ _ _ k Hstyle) by done.
      by rewrite drop_integrity_get. }
    unfold rewrite_url_attrs in Hloop.
    destruct (url_loop_turn (List.map fst a1) a1 a2 k v wS wL)
      as (w1 & w2 & d1 & d2 & Hs1 & Hg & Ht & Hs2 & Hfin).
    { rewrite (rewrite_style_keys E url dir _ _ _ _ Hstyle).
      by apply drop_integrity_keys_NoDup. }
    { by eapply dict_get_In. }
    { exact Hget1. }
    { exact Hloop. }
    exists w1, w2, d1, d2. split.
    { eapply cache_step_trans; [|exact Hs1].
      eapply cache_step_of_return; [apply rewrite_style_cache_only|exact Hstyle]. }
    split; [done|]. split; [done|]. split.
    { eapply cache_step_trans; [exact Hs2|].
      eapply cache_step_of_return; [apply rewrite_src_href_cache_only|exact Hlast]. }
    rewrite <- Hfin. eapply rewrite_src_href_get; [exact Hlast| |].
    - apply String.eqb_neq in N4. by rewrite N4.
    - apply String.eqb_neq in N5. by rewrite N5. }
  split; intros Hrule.
  - destruct Hturn as (wA & wB & d1 & d2 & Hs1 & Hg & Ht & Hs2 & Hfin); [by right|].
    unfold rewrite_url_attr in Ht. rewrite Hg in Ht.
    unfold ends_urls in Hrule. rewrite (endswith_urls_not_url _ Hrule), Hrule in Ht.
    apply bind_Return_inv in Ht as (rs & w2 & Hrs & [= <- <-]).
    exists wA, w2, rs. split; [exact Hs1|]. split; [exact Hrs|]. split; [exact Hs2|].
    by rewrite Hfin, dict_get_set_eq.
  - destruct Hturn as (wA & wB & d1 & d2 & Hs1 & Hg & Ht & Hs2 & Hfin); [by left|].
    unfold rewrite_url_attr in Ht. rewrite Hg in Ht.
    unfold ends_url in Hrule. rewrite Hrule in Ht.
    apply bind_Return_inv in Ht as (r & w2 & Hr & [= <- <-]).
    exists wA, w2, r. split; [exact Hs1|]. split; [exact Hr|]. split; [exact Hs2|].
    by rewrite Hfin, dict_get_set_eq.
Qed.

End UrlAttributes.

Example process_tag_url_attrs_example :
  (exists w1 w2 rs,
     cache_step "cache" (fresh_world "cache") w1
     /\ mapM (fun asset_url =>
                download_and_replace_asset (example_env net_200)
                  (Str.strip asset_url) "https://example.com/page/" "cache")
             (Str.split "," "https://a.com/1.png, https://a.com/2.png") w1
        = Return rs w2
     /\ cache_step "cache" w2
          (world_of (process_tag (example_env net_200) "https://example.com/page/"
                       "cache" "div"
                       [("data-urls", "https://a.com/1.png, https://a.com/2.png");
                        ("data-poster-url", "poster.jpg"); ("id", "hero")]
                       (fresh_world "cache")))
     /\ dict_get "data-urls"
          [("data-urls",
            "https://mirror.example/assets/e0bd866067.png, https://mirror.example/assets/e43058cb90.png");
           ("data-poster-url", "https://mirror.example/assets/99d2b08ba4.jpg");
           ("id", "hero")]
        = Some (Str.join ", " rs))
  /\ (exists w1 w2 r,
        cache_step "cache" (fresh_world "cache") w1
        /\ download_and_replace_asset (example_env net_200) "poster.jpg"
             "https://example.com/page/" "cache" w1 = Return r w2
        /\ cache_step "cache" w2
             (world_of (process_tag (example_env net_200) "https://example.com/page/"
                          "cache" "div"
                          [("data-urls", "https://a.com/1.png, https://a.com/2.png");
                           ("data-poster-url", "poster.jpg"); ("id", "hero")]
                          (fresh_world "cache")))
        /\ dict_get "data-poster-url"
             [("data-urls",
               "https://mirror.example/assets/e0bd866067.png, https://mirror.example/assets/e43058cb90.png");
              ("data-poster-url", "https://mirror.example/assets/99d2b08ba4.jpg");
              ("id", "hero")]
           = Some r).
Proof.
  assert (List.NoDup (List.map fst
            [("data-urls", "https://a.com/1.png, https://a.com/2.png");
             ("data-poster-url", "poster.jpg"); ("id", "hero")])) as Hnd.
  { cbn [List.map fst].
    repeat (apply List.NoDup_cons; [cbn [In]; intuition discriminate|]).
    apply List.NoDup_nil. }
  split.
  - apply (process_tag_url_attrs (example_env net_200)
             "https://example.com/page/" "cache" "div" _ _ "data-urls" _
             (fresh_world "cache") _ Hnd eq_refl).
    + vm_compute. reflexivity.
    + reflexivity.
  - apply (process_tag_url_attrs (example_env net_200)
             "https://example.com/page/" "cache" "div" _ _ "data-poster-url" _
             (fresh_world "cache") _ Hnd eq_refl).
    + vm_compute. reflexivity.
    + reflexivity.
Defined.

(** C5. When the walk returns, in every tag whose attributes have distinct
    names, an attribute whose name ends in [urls], case aside, holds the
    values that the fetcher returned for the pieces of the value it had in
    the page, cut at the commas and stripped of white space, one call after
    the other, joined by a comma and a space; and an attribute whose name
    ends in [url] holds what the fetcher returned for its whole value. The
    calls are made during the walk. A name ends in [urls], case aside, when
    its last four characters are the letters u, r, l and s, each small or
    capital, and in [url] when its last three are u, r and l. The pieces
    have no comma, and with the commas between them they are the value. A
    piece stripped is the piece without a text of white space at its start
    and one at its end, and neither begins nor ends with a character of
    white space, those of [str.isspace]. The join puts a comma and a space
    between one value and the next. *)
Theorem url_and_urls_attributes_are_resolved (E : Env) (url dir : string) :
  (forall (soup soup' : list Node) (w w' : World),
     rewrite_soup E url dir soup w = Return soup' w' ->
     Forall2 (same_shape (fun name attrs attrs' =>
                List.NoDup (List.map fst attrs) ->
                forall k v,
                  dict_get k attrs = Some v ->
                  (ends_urls k = true ->
                   exists w1 w2 rs,
                     cache_step dir w w1
                     /\ mapM (fun asset_url =>
                                download_and_replace_asset E (Str.strip asset_url)
                                  url dir)
                             (Str.split "," v) w1 = Return rs w2
                     /\ cache_step dir w2 w'
                     /\ dict_get k attrs' = Some (Str.join ", " rs))
                  /\ (ends_url k = true ->
                      exists w1 w2 r,
                        cache_step dir w w1
                        /\ download_and_replace_asset E v url dir w1 = Return r w2
                        /\ cache_step dir w2 w'
                        /\ dict_get k attrs' = Some r)))
             soup soup')
  /\ (forall k,
        ends_urls k = true
        <-> exists p a b c d,
              k = p +:+ String a (String b (String c (String d "")))
              /\ (a = "u"%char \/ a = "U"%char)
              /\ (b = "r"%char \/ b = "R"%char)
              /\ (c = "l"%char \/ c = "L"%char)
              /\ (d = "s"%char \/ d = "S"%char))
  /\ (forall k,
        ends_url k = true
        <-> exists p a b c,
              k = p +:+ String a (String b (String c ""))
              /\ (a = "u"%char \/ a = "U"%char)
              /\ (b = "r"%char \/ b = "R"%char)
              /\ (c = "l"%char \/ c = "L"%char))
  /\ (forall v,
        Str.join "," (Str.split "," v) = v
        /\ Forall (fun piece => Str.contains "," piece = false) (Str.split "," v))
  /\ (forall a,
        exists pre post,
          a = pre +:+ Str.strip a +:+ post
          /\ white pre /\ white post
          /\ forall x, In x white_space ->
               Str.startswith (Str.strip a) x = false
               /\ Str.endswith (Str.strip a) x = false)
  /\ (forall x y l,
        Str.join ", " [] = ""
        /\ Str.join ", " [x] = x
        /\ Str.join ", " (x :: y :: l) = x +:+ ", " +:+ Str.join ", " (y :: l)).
Proof.
  split; [|split; [exact ends_urls_spec|split; [exact ends_url_spec|
           split; [exact (split_spec ",")|split; [exact strip_spec|done]]]]].
  intros soup soup' w w'.
  apply (rewrite_soup_shape_steps E url dir
           (fun w w' name attrs attrs' =>
              List.NoDup (List.map fst attrs) ->
              forall k v,
                dict_get k attrs = Some v ->
                (ends_urls k = true ->
                 exists w1 w2 rs,
                   cache_step dir w w1
                   /\ mapM (fun asset_url =>
                              download_and_replace_asset E (Str.strip asset_url) url dir)
                           (Str.split "," v) w1 = Return rs w2
                   /\ cache_step dir w2 w'
                   /\ dict_get k attrs' = Some (Str.join ", " rs))
                /\ (ends_url k = true ->
                    exists w1 w2 r,
                      cache_step dir w w1
                      /\ download_and_replace_asset E v url dir w1 = Return r w2
                      /\ cache_step dir w2 w'
                      /\ dict_get k attrs' = Some r))).
  intros name attrs wa attrs' wb w0 w0' Htag Hin Hout Hnd k v Hget.
  destruct (process_tag_url_attrs E url dir name attrs attrs' k v wa wb Hnd Hget Htag)
    as [Hurls Hurl].
  split; intros Hrule.
  - destruct (Hurls Hrule) as (w1 & w2 & rs & Hs1 & Hrs & Hs2 & Hk).
    exists w1, w2, rs. split; [by eapply cache_step_trans|]. split; [done|].
    split; [by eapply cache_step_trans|done].
  - destruct (Hurl Hrule) as (w1 & w2 & r & Hs1 & Hr & Hs2 & Hk).
    exists w1, w2, r. split; [by eapply cache_step_trans|]. split; [done|].
    split; [by eapply cache_step_trans|done].
Qed.

Lemma url_and_urls_attributes_example :
  Forall2 (same_shape (fun name attrs attrs' =>
             List.NoDup (List.map fst attrs) ->
             forall k v,
               dict_get k attrs = Some v ->
               (ends_urls k = true ->
                exists w1 w2 rs,
                  cache_step "cache" (fresh_world "cache") w1
                  /\ mapM (fun asset_url =>
                             download_and_replace_asset (example_env net_200)
                               (Str.strip asset_url) "https://example.com/page/" "cache")
                          (Str.split "," v) w1 = Return rs w2
                  /\ cache_step "cache" w2
                       (world_of (rewrite_soup (example_env net_200)
                                    "https://example.com/page/" "cache" example_soup
                                    (fresh_world "cache")))
                  /\ dict_get k attrs' = Some (Str.join ", " rs))
               /\ (ends_url k = true ->
                   exists w1 w2 r,
                     cache_step "cache" (fresh_world "cache") w1
                     /\ download_and_replace_asset (example_env net_200) v
                          "https://example.com/page/" "cache" w1 = Return r w2
                     /\ cache_step "cache" w2
                          (world_of (rewrite_soup (example_env net_200)
                                       "https://example.com/page/" "cache" example_soup
                                       (fresh_world "cache")))
                     /\ dict_get k attrs' = Some r)))
          example_soup example_soup_mirrored.
Proof.
  destruct (url_and_urls_attributes_are_resolved (example_env net_200)
              "https://example.com/page/" "cache") as [Hwalk _].
  apply (Hwalk example_soup example_soup_mirrored (fresh_world "cache")
           (world_of (rewrite_soup (example_env net_200) "https://example.com/page/"
                        "cache" example_soup (fresh_world "cache")))).
  vm_compute. reflexivity.
Defined.

(* ===================================================================== *)
(** ** What every call of the fetcher keeps, the walk keeps *)
(* ===================================================================== *)

Section Lifting.
Context (Pre : World -> Prop) (T : World -> World -> Prop)
  (Ex : exn -> World -> Prop).
Hypothesis T_refl : forall w, T w w.
Hypothesis T_trans : forall w1 w2 w3, T w1 w2 -> T w2 w3 -> T w1 w3.

Lemma obeys_ret {A} (a : A) : obeys Pre T Ex (ret a).
Proof. intros w Hw. cbn. auto. Qed.

Lemma obeys_bind {A B} (c : M A) (k : A -> M B) :
  obeys Pre T Ex c -> (forall a, obeys Pre T Ex (k a)) -> obeys Pre T Ex (bind c k).
Proof.
  intros Hc Hk w Hw. unfold bind. specialize (Hc w Hw).
  destruct (c w) as [a w1|e w1]; [|exact Hc]. destruct Hc as [Hw1 H1].
  specialize (Hk a w1 Hw1). destruct (k a w1) as [b w2|e w2]; [|exact Hk].
  destruct Hk as [Hw2 H2]. eauto.
Qed.

Lemma obeys_mapM {A B} (f : A -> M B) (l : list A) :
  (forall a, obeys Pre T Ex (f a)) -> obeys Pre T Ex (mapM f l).
Proof.
  intros Hf. induction l as [|x l IH]; cbn [mapM]; [apply obeys_ret|].
  apply obeys_bind; [apply Hf|]. intros y.
  apply obeys_bind; [exact IH|]. intros ys. apply obeys_ret.
Qed.

Lemma obeys_foldM {A B} (f : B -> A -> M B) (l : list A) (b : B) :
  (forall b a, obeys Pre T Ex (f b a)) -> obeys Pre T Ex (foldM f l b).
Proof.
  intros Hf. revert b. induction l as [|x l IH]; intros b; cbn [foldM];
    [apply obeys_ret|].
  apply obeys_bind; [apply Hf|]. intros b'. apply IH.
Qed.

Lemma obeys_re_sub_from (repl : string -> M string) (skip : nat) (s : string) :
  (forall g, obeys Pre T Ex (repl g)) -> obeys Pre T Ex (re_sub_from repl skip s).
Proof.
  intros Hrepl. revert skip. induction s as [|c s IH]; intros skip.
  { apply obeys_ret. }
  cbn [re_sub_from]. destruct skip as [|n]; [|apply IH].
  destruct (match_here (String c s)) as [[g rest]|].
  - apply obeys_bind; [apply Hrepl|]. intros r.
    apply obeys_bind; [apply IH|]. intros out. apply obeys_ret.
  - apply obeys_bind; [apply IH|]. intros out. apply obeys_ret.
Qed.

Context (E : Env) (url dir : string).
Hypothesis fetcher_obeys :
  forall asset_url, obeys Pre T Ex (download_and_replace_asset E asset_url url dir).

Lemma process_style_attribute_obeys (style : string) :
  obeys Pre T Ex (process_style_attribute E style url dir).
Proof.
  apply obeys_re_sub_from. intros g. unfold replace_url.
  destruct (remote_prefix g); [|apply obeys_ret].
  apply obeys_bind; [apply fetcher_obeys|]. intros r. apply obeys_ret.
Qed.

(** [tag[k]] after [tag.has_attr(k)] finds the attribute *)
Lemma rewrite_style_obeys (attrs : dict) :
  obeys Pre T Ex (rewrite_style E url dir attrs).
Proof.
  unfold rewrite_style, dict_has, tag_getitem.
  destruct (dict_get "style" attrs) as [style|]; [|apply obeys_ret].
  apply obeys_bind; [apply obeys_ret|]. intros s.
  apply obeys_bind; [apply process_style_attribute_obeys|]. intros s'.
  apply obeys_ret.
Qed.

Lemma rewrite_url_attr_obeys (attrs : dict) (attr : string) :
  obeys Pre T Ex (rewrite_url_attr E url dir attrs attr).
Proof.
  unfold rewrite_url_attr. destruct (dict_get attr attrs) as [v|]; [|apply obeys_ret].
  destruct (Str.endswith (Str.lower attr) "url").
  { apply obeys_bind; [apply fetcher_obeys|]. intros r. apply obeys_ret. }
  destruct (Str.endswith (Str.lower attr) "urls"); [|apply obeys_ret].
  apply obeys_bind; [|intros rs; apply obeys_ret].
  apply obeys_mapM. intros a. apply fetcher_obeys.
Qed.

Lemma rewrite_src_href_obeys (name : string) (attrs : dict) :
  obeys Pre T Ex (rewrite_src_href E url dir name attrs).
Proof.
  unfold rewrite_src_href, dict_has, tag_getitem.
  destruct (Str.mem name _).
  - destruct (dict_get "src" attrs) as [v|]; cbn [andb].
    + apply obeys_bind; [apply obeys_ret|]. intros s.
      apply obeys_bind; [apply fetcher_obeys|]. intros r. apply obeys_ret.
    + destruct (String.eqb name "link"); cbn [andb]; [|apply obeys_ret].
      destruct (dict_get "href" attrs) as [v|]; [|apply obeys_ret].
      apply obeys_bind; [apply obeys_ret|]. intros s.
      apply obeys_bind; [apply fetcher_obeys|]. intros r. apply obeys_ret.
  - cbn [andb]. destruct (String.eqb name "link"); cbn [andb]; [|apply obeys_ret].
    destruct (dict_get "href" attrs) as [v|]; [|apply obeys_ret].
    apply obeys_bind; [apply obeys_ret|]. intros s.
    apply obeys_bind; [apply fetcher_obeys|]. intros r. apply obeys_ret.
Qed.

Lemma process_tag_obeys (name : string) (attrs : dict) :
  obeys Pre T Ex (process_tag E url dir name attrs).
Proof.
  unfold process_tag.
  apply obeys_bind; [apply rewrite_style_obeys|]. intros a1.
  apply obeys_bind; [|intros a2; apply rewrite_src_href_obeys].
  apply obeys_foldM. intros b a. apply rewrite_url_attr_obeys.
Qed.

Lemma rewrite_node_obeys (n : Node) : obeys Pre T Ex (rewrite_node E url dir n).
Proof.
  induction n as [s|name attrs children IH] using Node_forall_ind.
  { apply obeys_ret. }
  cbn [rewrite_node].
  apply obeys_bind; [apply process_tag_obeys|]. intros a.
  apply obeys_bind; [|intros cs; apply obeys_ret].
  induction IH as [|c cs Hc _ IHcs]; [apply obeys_ret|].
  cbn [mapM]. apply obeys_bind; [exact Hc|]. intros c'.
  apply obeys_bind; [exact IHcs|]. intros cs'. apply obeys_ret.
Qed.

Lemma rewrite_soup_obeys (soup : list Node) :
  obeys Pre T Ex (rewrite_soup E url dir soup).
Proof. apply obeys_mapM. intros n. apply rewrite_node_obeys. Qed.

End Lifting.

(** the exceptions of [open] *)
Lemma open_error_cases (d p : string) (w : World) (e : exn) :
  open_error d p w = Some e ->
  e = ValueError \/ e = FileNotFoundError \/ e = OSError \/ e = IsADirectoryError.
Proof.
  unfold open_error. repeat case_match; intros [= <-]; auto.
Qed.

Lemma open_for_writing_Raise (d p : string) (w w' : World) (e : exn) :
  open_for_writing d p w = Raise e w' -> w' = w /\ open_error d p w = Some e.
Proof.
  unfold open_for_writing. destruct (open_error d p w); [|done].
  by intros [= <- <-].
Qed.

Lemma open_for_writing_Return (d p : string) (w w' : World) (u : unit) :
  open_for_writing d p w = Return u w' ->
  w' = mkWorld (<[p := EmptyString]> (files w)) (dirs w) (requests w) (stdout w)
  /\ open_error d p w = None.
Proof.
  unfold open_for_writing. destruct (open_error d p w); [done|].
  by intros [= <-].
Qed.

(** the walk does not encode: what it raises, a call of the fetcher raised *)
Lemma fetcher_raises_no_encoding_error (E : Env) (asset_url base_url dir : string) :
  obeys (fun _ => True) (fun _ _ => True) (fun e _ => e <> UnicodeEncodeError)
    (download_and_replace_asset E asset_url base_url dir).
Proof.
  intros w _.
  destruct (passes_through asset_url) eqn:Hp.
  { by rewrite (resolve_passthrough E _ _ _ _ Hp). }
  destruct (urljoin E base_url (unquote E asset_url)) as [u|] eqn:Hu.
  2:{ by rewrite (resolve_bad_join E _ _ _ _ Hp Hu). }
  destruct (urlsplit E u) as [s|] eqn:Hs.
  2:{ by rewrite (resolve_bad_split E _ _ _ _ _ Hp Hu Hs). }
  rewrite (resolve_unfold E _ _ _ _ _ _ Hp Hu Hs). cbv zeta.
  destruct (path_exists _ w); [done|].
  destruct (transport E (requests w) u) as [r|]; [|done].
  destruct (status_code r =? 200)%Z; [|done].
  destruct (open_error dir _ w) as [e|] eqn:He; [|done].
  apply open_error_cases in He. intros ->.
  by destruct He as [?|[?|[?|?]]].
Qed.

Lemma walk_raises_no_encoding_error (E : Env) (url dir : string) (soup : list Node)
  (w w' : World) (e : exn) :
  rewrite_soup E url dir soup w = Raise e w' -> e <> UnicodeEncodeError.
Proof.
  intros H.
  pose proof (rewrite_soup_obeys (fun _ => True) (fun _ _ => True)
                (fun e _ => e <> UnicodeEncodeError) (fun _ => I)
                (fun _ _ _ _ _ => I) E url dir
                (fun a => fetcher_raises_no_encoding_error E a url dir) soup w I) as Hw.
  by rewrite H in Hw.
Qed.

(* ===================================================================== *)
(** ** The page pipeline *)
(* ===================================================================== *)

Lemma append_last_inj (a b : string) (c d : ascii) :
  a +:+ String c EmptyString = b +:+ String d EmptyString -> c = d.
Proof.
  revert b. induction a as [|x a IH]; intros [|y b];
    rewrite ?append_nil_l, ?append_cons.
  - by intros [= ->].
  - intros [= _ H]. by destruct b.
  - intros [= _ H]. by destruct a.
  - intros [= _ H]. by eapply IH.
Qed.

Lemma join_sep_after (x : string) (c : ascii) :
  c <> "/"%char -> join_sep (x +:+ String c EmptyString) = "/".
Proof.
  intros Hc. unfold join_sep.
  assert (Str.is_empty (x +:+ String c EmptyString) = false) as ->.
  { destruct x; [by rewrite append_nil_l|by rewrite append_cons]. }
  destruct (Str.endswith (x +:+ String c EmptyString) "/") eqn:Hend; [|done].
  apply endswith_spec in Hend as [p Hp]. by apply append_last_inj in Hp.
Qed.

Lemma join_sep_BASE_DIR (E : Env) : join_sep (BASE_DIR E) = "/".
Proof.
  unfold BASE_DIR. rewrite join_relative by reflexivity.
  change ".." with ("." +:+ "."). rewrite <- !append_assoc.
  apply join_sep_after. discriminate.
Qed.

Lemma join_sep_output_dir (E : Env) : join_sep (output_dir E) = "/".
Proof.
  unfold output_dir. rewrite join_relative by reflexivity.
  change "original" with ("origina" +:+ "l"). rewrite <- !append_assoc.
  apply join_sep_after. discriminate.
Qed.

(** the output file is [index.html] in the output directory *)
Lemma basename_of_output (E : Env) : posixpath.basename (output_path E) = "index.html".
Proof.
  unfold output_path. rewrite join_relative, join_sep_output_dir by reflexivity.
  by apply basename_after_slash.
Qed.

(** what opening the output file raises *)
Lemma open_error_output (E : Env) (w : World) :
  open_error (output_dir E) (output_path E) w
  = if negb (bool_decide (output_dir E ∈ dirs w)) then Some FileNotFoundError
    else if bool_decide (output_path E ∈ dirs w) then Some IsADirectoryError
    else None.
Proof. unfold open_error. by rewrite basename_of_output. Qed.

(** the output file is no file of the cache *)
Lemma output_path_not_cached (E : Env) (path : string) :
  output_path E <> posixpath.join (assets_dir E) (new_filename path).
Proof.
  unfold output_path, output_dir, assets_dir, ASSET_DIR_NAME.
  rewrite !join_relative by (apply new_filename_not_absolute || reflexivity).
  rewrite !append_assoc. intros H.
  do 2 apply append_inj_l in H. rewrite !append_cons in H. discriminate.
Qed.

Lemma cache_step_keeps_output (E : Env) (w w' : World) :
  cache_step (assets_dir E) w w' ->
  files w' !! output_path E = files w !! output_path E.
Proof.
  intros Hstep.
  destruct (decide (files w' !! output_path E = files w !! output_path E))
    as [Heq|Hne]; [done|].
  destruct (cs_new _ _ _ Hstep _ Hne) as [path Hpath].
  by apply output_path_not_cached in Hpath.
Qed.

(** C9, as amended. A run that raises anything but the error of the output
    encoding leaves the output path as it was, and a run that raises that
    error leaves the output file there and empty. When the fetch of the page
    fails, the run raises and no file is written at all. A run that returns
    has written the output once, after the walk: the file holds the encoded
    text of the tree that the walk returned, and every other file is as the
    walk left it. When the walk has returned, the output file can be opened
    and the markup has a character that the output encoding does not have,
    the run raises the error of the encoding after it has created or emptied
    the output file. *)
Theorem output_is_written_once_at_the_end (E : Env) (url : string) (w : World) :
  (forall e w',
     download_page E url w = Raise e w' ->
     (e <> UnicodeEncodeError
      /\ files w' !! output_path E = files w !! output_path E)
     \/ (e = UnicodeEncodeError /\ files w' !! output_path E = Some EmptyString))
  /\ (transport E (requests w) url = None ->
      exists e w', download_page E url w = Raise e w' /\ files w' = files w)
  /\ (forall w',
        download_page E url w = Return tt w' ->
        exists r w1 soup' w2 data,
          (_ <- os_makedirs (assets_dir E) ;; requests_get E url) w = Return r w1
          /\ rewrite_soup E url (assets_dir E)
               (decompose_first "i18nWebflowScript" (BeautifulSoup E (text r))) w1
             = Return soup' w2
          /\ latin1_encode (soup_str E soup') = Some data
          /\ files w' = <[output_path E := data]> (files w2))
  /\ (forall r w1 soup' w2,
        (_ <- os_makedirs (assets_dir E) ;; requests_get E url) w = Return r w1 ->
        rewrite_soup E url (assets_dir E)
          (decompose_first "i18nWebflowScript" (BeautifulSoup E (text r))) w1
        = Return soup' w2 ->
        output_dir E ∈ dirs w2 ->
        output_path E ∉ dirs w2 ->
        latin1_encode (soup_str E soup') = None ->
        download_page E url w
        = Raise UnicodeEncodeError
            (mkWorld (<[output_path E := EmptyString]> (files w2)) (dirs w2)
               (requests w2) (stdout w2))).
Proof.
  unfold download_page. split; [|split; [|split]].
  - intros e w' H.
    apply bind_Raise_inv in H as [H|(u & w1 & Hmk & H)].
    { unfold os_makedirs in H. destruct (bool_decide _); [|done].
      injection H as <- <-. by left. }
    assert (files w1 = files w) as Hw1.
    { unfold os_makedirs in Hmk. destruct (bool_decide _); [done|].
      by injection Hmk as _ <-. }
    apply bind_Raise_inv in H as [H|(r & w2 & Hget & H)].
    { unfold requests_get in H. destruct (transport _ _ _); [done|].
      injection H as <- <-. left. cbn [files]. by rewrite Hw1. }
    assert (files w2 = files w) as Hw2.
    { unfold requests_get in Hget. destruct (transport _ _ _); [|done].
      injection Hget as _ <-. cbn [files]. done. }
    apply bind_Raise_inv in H as [H|(soup' & w3 & Hwalk & H)].
    { left. split; [by eapply walk_raises_no_encoding_error|].
      rewrite <- Hw2. apply cache_step_keeps_output.
      eapply cache_step_of_raise; [apply rewrite_soup_cache_only|exact H]. }
    assert (files w3 !! output_path E = files w !! output_path E) as Hw3.
    { rewrite <- Hw2. apply cache_step_keeps_output.
      eapply cache_step_of_return; [apply rewrite_soup_cache_only|exact Hwalk]. }
    apply bind_Raise_inv in H as [H|(u' & w4 & Hopen & H)].
    { left. apply open_for_writing_Raise in H as [-> He].
      split; [|done]. apply open_error_cases in He. intros ->.
      by destruct He as [?|[?|[?|?]]]. }
    right. unfold write_latin1 in H.
    destruct (latin1_encode _); [done|]. injection H as <- <-. split; [done|].
    apply open_for_writing_Return in Hopen as [-> _]. cbn [files].
    apply lookup_insert_eq.
  - intros Hdown. unfold bind, os_makedirs, requests_get.
    destruct (bool_decide _); [eauto|]. cbn [requests]. rewrite Hdown. eauto.
  - intros w' H.
    apply bind_Return_inv in H as (u & w1 & Hmk & H).
    apply bind_Return_inv in H as (r & w2 & Hget & H).
    apply bind_Return_inv in H as (soup' & w3 & Hwalk & H).
    apply bind_Return_inv in H as (u' & w4 & Hopen & H).
    unfold write_latin1 in H.
    destruct (latin1_encode (soup_str E soup')) as [data|] eqn:Henc; [|done].
    exists r, w2, soup', w3, data. split.
    { unfold bind at 1. by rewrite Hmk. }
    split; [done|]. split; [done|].
    unfold write_and_close in H. injection H as <-. cbn [files].
    apply open_for_writing_Return in Hopen as [-> _]. cbn [files].
    apply insert_insert_eq.
  - intros r w1 soup' w2 Hstart Hwalk Hdir Hpath Henc.
    apply bind_Return_inv in Hstart as (u & w0 & Hmk & Hget).
    unfold bind. rewrite Hmk, Hget, Hwalk.
    unfold open_for_writing. rewrite open_error_output.
    rewrite bool_decide_eq_true_2, bool_decide_eq_false_2 by done. cbn [negb].
    unfold write_latin1. by rewrite Henc.
Qed.

(** C9 as stated fails: on the page [<p>€</p>] the run raises
    [UnicodeEncodeError] in its final write, and the output file, which was
    not there, is there and empty. *)
Lemma failed_encoding_leaves_an_empty_output :
  (exists w',
     download_page euro_env "https://example.com/page/" world_with_output_dir
     = Raise UnicodeEncodeError w')
  /\ files world_with_output_dir !! output_path euro_env = None
  /\ files (world_of (download_page euro_env "https://example.com/page/"
                        world_with_output_dir)) !! output_path euro_env
     = Some EmptyString.
Proof.
  split; [|split]; [eexists|..]; vm_compute; reflexivity.
Qed.

(** the network is down: the run raises, and nothing is on disk *)
Lemma offline_run_writes_nothing :
  result_of (download_page offline_env "https://example.com/page/"
               world_with_output_dir) = None
  /\ files (world_of (download_page offline_env "https://example.com/page/"
                        world_with_output_dir)) = ∅.
Proof. split; vm_compute; reflexivity. Qed.

(* ===================================================================== *)
(** ** Further properties: the names of the cached files *)
(* ===================================================================== *)

(** X1. The name of a cached file has no slash and at least eleven
    characters, whatever the path of the URL: the cached file is a file of
    the asset directory itself, [os.path.join] puts the name after the
    directory, and [os.path.basename] of the joined path is the name. *)
Theorem cached_file_is_a_child_of_the_asset_directory (dir path : string) :
  Str.contains "/" (new_filename path) = false
  /\ 11 <= String.length (new_filename path)
  /\ posixpath.join dir (new_filename path)
     = dir +:+ join_sep dir +:+ new_filename path
  /\ posixpath.basename (posixpath.join dir (new_filename path)) = new_filename path.
Proof.
  pose proof (new_filename_has_no_slash path) as Hno.
  split; [done|]. split.
  { destruct (new_filename_shape path) as (h & e & -> & _ & Hlen & _ & _ & He).
    rewrite append_length, Hlen. apply startswith_spec in He as [r ->].
    rewrite append_length. cbn. lia. }
  rewrite join_relative by apply new_filename_not_absolute.
  split; [done|]. unfold join_sep.
  destruct (Str.is_empty dir) eqn:Hempty.
  { cbn [orb]. destruct dir; [|done]. rewrite !append_nil_l.
    by apply basename_of_name. }
  cbn [orb]. destruct (Str.endswith dir "/") eqn:Hend.
  - apply endswith_spec in Hend as [a ->]. rewrite append_nil_l, append_assoc.
    by apply basename_after_slash.
  - by apply basename_after_slash.
Qed.

Lemma append_inj_length (a b x y : string) :
  String.length a = String.length b -> a +:+ x = b +:+ y -> a = b /\ x = y.
Proof.
  revert b. induction a as [|c a IH]; intros [|d b]; try done.
  cbn [String.length]. intros [= Hlen]. rewrite !append_cons. intros [= -> H].
  destruct (IH b Hlen H) as [-> ->]. done.
Qed.

(** X2. Two paths are given the same cached name exactly when the first ten
    digits of their hashes are the same and their extensions, [.bin] for a
    path without one, are the same. *)
Theorem cached_names_collide_on_hash_and_extension (path1 path2 : string) :
  new_filename path1 = new_filename path2
  <-> Str.take 10 (hashlib.md5_hexdigest path1)
      = Str.take 10 (hashlib.md5_hexdigest path2)
      /\ cached_extension path1 = cached_extension path2.
Proof.
  unfold new_filename, cached_extension. split.
  - apply append_inj_length.
    pose proof (url_hash_shape path1) as [H1 _].
    pose proof (url_hash_shape path2) as [H2 _]. cbv zeta in H1, H2. congruence.
  - by intros [-> ->].
Qed.

(* ===================================================================== *)
(** ** Further properties: the fetcher on a file that is not cached *)
(* ===================================================================== *)



(** the three failures, each on a locator and a world that show it *)
Example unwritable_names_raise :
  download_and_replace_asset (example_env net_200) "a.p%00ng"
    "https://example.com/page/" "cache" (fresh_world "cache")
  = Raise ValueError
      (mkWorld ∅ {["cache"]}
         ["https://example.com/page/a.p" +:+ String NUL "ng"] [])
  /\ download_and_replace_asset (example_env net_200) "img/logo.png"
       "https://example.com/page/" "cache" (mkWorld ∅ ∅ [] [])
     = Raise FileNotFoundError
         (mkWorld ∅ ∅ ["https://example.com/page/img/logo.png"] [])
  /\ download_and_replace_asset (example_env net_200) long_locator
       "https://example.com/page/" "cache" (fresh_world "cache")
     = Raise OSError
         (mkWorld ∅ {["cache"]} ["https://example.com/page/" +:+ long_locator] []).
Proof. repeat split; vm_compute; reflexivity. Qed.

(** X4. When the file is not in the cache and the network gives no answer
    to the request of the resolved URL, the fetcher raises the exception of
    the request: nothing catches it, no file is written and no line is
    printed. *)
Theorem failed_transport_aborts_the_fetcher
  (E : Env) (asset_url base_url dir u : string) (s : urllib.SplitResult) (w : World) :
  passes_through asset_url = false ->
  urljoin E base_url (unquote E asset_url) = Some u ->
  urlsplit E u = Some s ->
  path_exists (posixpath.join dir (new_filename (urllib.path s))) w = false ->
  transport E (requests w) u = None ->
  download_and_replace_asset E asset_url base_url dir w
  = Raise RequestException
      (mkWorld (files w) (dirs w) (requests w ++ [u]) (stdout w)).
Proof.
  intros Hp Hu Hs Hex Hr.
  rewrite (resolve_unfold E _ _ _ _ _ _ Hp Hu Hs). cbv zeta.
  by rewrite Hex, Hr.
Qed.

Lemma offline_fetch_raises :
  download_and_replace_asset offline_env "img/logo.png"
    "https://example.com/page/" "cache" (fresh_world "cache")
  = Raise RequestException
      (mkWorld (files (fresh_world "cache")) (dirs (fresh_world "cache"))
         (requests (fresh_world "cache") ++ ["https://example.com/page/img/logo.png"])
         (stdout (fresh_world "cache"))).
Proof.
  apply (failed_transport_aborts_the_fetcher offline_env "img/logo.png"
           "https://example.com/page/" "cache"
           "https://example.com/page/img/logo.png"
           (urllib.mkSplit "https" "example.com" "/page/img/logo.png" "" "")
           (fresh_world "cache")).
  - reflexivity.
  - reflexivity.
  - reflexivity.
  - vm_compute. reflexivity.
  - reflexivity.
Defined.

(* ===================================================================== *)
(** ** Further properties: what the fetcher returns *)
(* ===================================================================== *)

(** X17. A call of the fetcher that returns has returned one of three
    values: the locator itself, which is empty or a [data:] URL, in the
    world as it was; the decoded locator, after an answer of another status
    than 200, with the files as they were; or a local reference, and then
    the path it stands for in the directory exists in the world the call
    leaves. *)
Theorem fetcher_returns_locator_or_live_reference
  (E : Env) (asset_url base_url dir r : string) (w w' : World) :
  download_and_replace_asset E asset_url base_url dir w = Return r w' ->
  (passes_through asset_url = true /\ r = asset_url /\ w' = w)
  \/ (passes_through asset_url = false
      /\ r = unquote E asset_url
      /\ files w' = files w
      /\ exists u resp,
           urljoin E base_url (unquote E asset_url) = Some u
           /\ transport E (requests w) u = Some resp
           /\ status_code resp <> 200%Z)
  \/ (passes_through asset_url = false
      /\ exists u s,
           urljoin E base_url (unquote E asset_url) = Some u
           /\ urlsplit E u = Some s
           /\ r = local_reference E s
           /\ path_exists (posixpath.join dir (new_filename (urllib.path s))) w'
              = true).
Proof.
  intros H.
  destruct (passes_through asset_url) eqn:Hp.
  { rewrite (resolve_passthrough E _ _ _ _ Hp) in H. injection H as <- <-. by left. }
  right.
  destruct (urljoin E base_url (unquote E asset_url)) as [u|] eqn:Hu.
  2:{ by rewrite (resolve_bad_join E _ _ _ _ Hp Hu) in H. }
  destruct (urlsplit E u) as [s|] eqn:Hs.
  2:{ by rewrite (resolve_bad_split E _ _ _ _ _ Hp Hu Hs) in H. }
  rewrite (resolve_unfold E _ _ _ _ _ _ Hp Hu Hs) in H. cbv zeta in H.
  destruct (path_exists _ w) eqn:Hex.
  { injection H as <- <-. right. split; [done|]. by exists u, s. }
  destruct (transport E (requests w) u) as [resp|] eqn:Hr; [|done].
  destruct (status_code resp =? 200)%Z eqn:H200.
  - destruct (open_error dir _ w); [done|]. injection H as <- <-.
    right. split; [done|]. exists u, s. split; [done|]. split; [done|].
    split; [done|]. unfold path_exists. cbn [files]. by rewrite lookup_insert_eq.
  - injection H as <- <-. left. split; [done|]. split; [done|]. split; [done|].
    exists u, resp. split; [done|]. split; [done|]. by apply Z.eqb_neq.
Qed.

Lemma failed_fetch_returns_no_reference :
  (passes_through "img/my%20logo.png" = true
   /\ "img/my logo.png" = "img/my%20logo.png"
   /\ world_of (download_and_replace_asset (example_env net_404) "img/my%20logo.png"
                  "https://example.com/page/" "cache" (fresh_world "cache"))
      = fresh_world "cache")
  \/ (passes_through "img/my%20logo.png" = false
      /\ "img/my logo.png" = unquote (example_env net_404) "img/my%20logo.png"
      /\ files (world_of (download_and_replace_asset (example_env net_404)
                            "img/my%20logo.png" "https://example.com/page/" "cache"
                            (fresh_world "cache")))
         = files (fresh_world "cache")
      /\ exists u resp,
           urljoin (example_env net_404) "https://example.com/page/"
             (unquote (example_env net_404) "img/my%20logo.png") = Some u
           /\ transport (example_env net_404) (requests (fresh_world "cache")) u
              = Some resp
           /\ status_code resp <> 200%Z)
  \/ (passes_through "img/my%20logo.png" = false
      /\ exists u s,
           urljoin (example_env net_404) "https://example.com/page/"
             (unquote (example_env net_404) "img/my%20logo.png") = Some u
           /\ urlsplit (example_env net_404) u = Some s
           /\ "img/my logo.png" = local_reference (example_env net_404) s
           /\ path_exists (posixpath.join "cache" (new_filename (urllib.path s)))
                (world_of (download_and_replace_asset (example_env net_404)
                             "img/my%20logo.png" "https://example.com/page/" "cache"
                             (fresh_world "cache")))
              = true).
Proof.
  apply (fetcher_returns_locator_or_live_reference (example_env net_404)
           "img/my%20logo.png" "https://example.com/page/" "cache" "img/my logo.png"
           (fresh_world "cache")).
  vm_compute. reflexivity.
Defined.

(* ===================================================================== *)
(** ** Further properties: the removal of the script tag *)
(* ===================================================================== *)

Section Decompose.
Context (v : string).

Lemma decompose_in_spec (nodes : list Node) :
  Forall (fun n =>
            match decompose_node v n with
            | (None, _) => exists name attrs children,
                             n = Tag name attrs children /\ id_is v attrs = true
            | (Some n', true) => removed_from v (events_of n) (events_of n')
            | (Some n', false) =>
                n' = n /\ List.existsb (opens_id v) (events_of n) = false
            end) nodes ->
  match decompose_in (decompose_node v) nodes with
  | (nodes', true) => removed_from v (events nodes) (events nodes')
  | (nodes', false) =>
      nodes' = nodes /\ List.existsb (opens_id v) (events nodes) = false
  end.
Proof.
  induction 1 as [|n rest Hn _ IH]; [done|].
  cbn [decompose_in]. unfold events in *.
  destruct (decompose_node v n) as [[n'|] found].
  - destruct found.
    + cbn [List.flat_map].
      destruct Hn as (pre & name & attrs & children & post & Hn & Hpre & Hid & Hn').
      exists pre, name, attrs, children, (post ++ List.flat_map events_of rest).
      rewrite Hn, Hn'. by rewrite <- !app_assoc.
    + destruct Hn as [-> Hclean].
      destruct (decompose_in (decompose_node v) rest) as [rest' found'].
      destruct found'; cbn [List.flat_map].
      * destruct IH as (pre & name & attrs & children & post & Hr & Hpre & Hid & Hr').
        exists (events_of n ++ pre), name, attrs, children, post.
        rewrite Hr, Hr'. rewrite <- !app_assoc, existsb_app, Hclean, Hpre. done.
      * destruct IH as [-> Hrest]. split; [done|].
        by rewrite existsb_app, Hclean, Hrest.
  - cbn [List.flat_map]. destruct Hn as (name & attrs & children & -> & Hid).
    exists [], name, attrs, children, (List.flat_map events_of rest). done.
Qed.

Lemma decompose_node_spec (n : Node) :
  match decompose_node v n with
  | (None, _) => exists name attrs children,
                   n = Tag name attrs children /\ id_is v attrs = true
  | (Some n', true) => removed_from v (events_of n) (events_of n')
  | (Some n', false) =>
      n' = n /\ List.existsb (opens_id v) (events_of n) = false
  end.
Proof.
  induction n as [s|name attrs children IH] using Node_forall_ind; [done|].
  apply decompose_in_spec in IH.
  assert (id_is v attrs = true
          \/ (id_is v attrs = false
              /\ decompose_node v (Tag name attrs children)
                 = let '(children', found) :=
                     decompose_in (decompose_node v) children in
                   (Some (Tag name attrs children'), found))) as [Hid|[Hid ->]].
  { unfold id_is. cbn [decompose_node].
    destruct (dict_get "id" attrs) as [i|]; [|by right].
    destruct (String.eqb i v); [by left|by right]. }
  { assert (decompose_node v (Tag name attrs children) = (None, true)) as ->; [|eauto].
    unfold id_is in Hid. cbn [decompose_node].
    destruct (dict_get "id" attrs) as [i|]; [|done]. by rewrite Hid. }
  destruct (decompose_in (decompose_node v) children) as [children' found].
  fold (events children) in *. destruct found.
  - destruct IH as (pre & name' & attrs' & children'' & post & Hev & Hpre & Hid' & Hev').
    exists (Open name attrs :: pre), name', attrs', children'', (post ++ [Close]).
    cbn [events_of]. fold (events children) (events children').
    rewrite Hev, Hev'. cbn [List.existsb opens_id]. rewrite Hid, Hpre.
    by rewrite <- !app_assoc.
  - destruct IH as [-> Hclean]. split; [done|].
    cbn [events_of List.existsb opens_id]. fold (events children).
    rewrite Hid, existsb_app, Hclean. done.
Qed.

End Decompose.

(** X6. [soup.find(id=v)] followed by [decompose()]: when no tag of the
    document has the [id], the document stays as it is; otherwise the first
    tag with the [id], in the order of the document, leaves it with
    everything from its opening to its end, and the rest stays in its
    order. *)
Theorem decompose_removes_the_first_tag_with_the_id (v : string) (soup : list Node) :
  (List.existsb (opens_id v) (events soup) = false /\ decompose_first v soup = soup)
  \/ exists pre name attrs children post,
       events soup = pre ++ events_of (Tag name attrs children) ++ post
       /\ List.existsb (opens_id v) pre = false
       /\ id_is v attrs = true
       /\ events (decompose_first v soup) = pre ++ post.
Proof.
  unfold decompose_first.
  pose proof (decompose_in_spec v soup) as H.
  destruct (decompose_in (decompose_node v) soup) as [soup' found].
  cbn [fst]. destruct found.
  - right. apply H. apply Forall_forall. intros n _. apply decompose_node_spec.
  - left. destruct H as [-> Hclean]; [|done].
    apply Forall_forall. intros n _. apply decompose_node_spec.
Qed.

(* ===================================================================== *)
(** ** Further properties: the names of the attributes *)
(* ===================================================================== *)

Lemma dict_del_keys (k : string) (d : dict) :
  List.map fst (dict_del k d)
  = List.filter (fun k' => negb (String.eqb k' k)) (List.map fst d).
Proof.
  unfold dict_del. induction d as [|[k' v] d IH]; [done|].
  cbn [List.map List.filter fst]. destruct (negb (String.eqb k' k)); cbn [List.map fst];
    by rewrite IH.
Qed.

Lemma dict_has_false_keys (k : string) (d : dict) :
  dict_has k d = false ->
  List.filter (fun k' => negb (String.eqb k' k)) (List.map fst d) = List.map fst d.
Proof.
  unfold dict_has. induction d as [|[k' v] d IH]; [done|].
  cbn [dict_get List.map List.filter fst].
  destruct (String.eqb k' k); [done|]. cbn [negb]. intros H. by rewrite IH.
Qed.

Lemma filter_twice {A} (f g : A -> bool) (l : list A) :
  List.filter g (List.filter f l) = List.filter (fun x => f x && g x) l.
Proof.
  induction l as [|x l IH]; [done|]. cbn [List.filter].
  destruct (f x); cbn [andb List.filter]; [destruct (g x)|]; by rewrite IH.
Qed.

Lemma drop_integrity_keys (attrs : dict) :
  List.map fst (drop_integrity attrs) = List.filter kept_name (List.map fst attrs).
Proof.
  unfold drop_integrity, kept_name. rewrite <- filter_twice.
  set (a1 := if dict_has "integrity" attrs then dict_del "integrity" attrs else attrs).
  assert (List.map fst a1
          = List.filter (fun k' => negb (String.eqb k' "integrity"))
                        (List.map fst attrs)) as <-.
  { subst a1. destruct (dict_has "integrity" attrs) eqn:H.
    - apply dict_del_keys.
    - symmetry. by apply dict_has_false_keys. }
  destruct (dict_has "crossorigin" a1) eqn:H.
  - apply dict_del_keys.
  - symmetry. by apply dict_has_false_keys.
Qed.

Section Names.
Context (E : Env) (url dir : string).

Lemma rewrite_url_attr_keys (d d' : dict) (k : string) (w w' : World) :
  rewrite_url_attr E url dir d k w = Return d' w' ->
  List.map fst d' = List.map fst d.
Proof.
  unfold rewrite_url_attr. destruct (dict_get k d) as [v|] eqn:Hget;
    [|by intros [= <- _]].
  assert (dict_has k d = true) as Hhas by (apply dict_has_get; eauto).
  destruct (Str.endswith (Str.lower k) "url").
  { intros H. apply bind_Return_inv in H as (r & w1 & _ & [= <- _]).
    by apply dict_set_keys. }
  destruct (Str.endswith (Str.lower k) "urls"); [|by intros [= <- _]].
  intros H. apply bind_Return_inv in H as (r & w1 & _ & [= <- _]).
  by apply dict_set_keys.
Qed.

Lemma url_loop_keys (ks : list string) (d d' : dict) (w w' : World) :
  foldM (rewrite_url_attr E url dir) ks d w = Return d' w' ->
  List.map fst d' = List.map fst d.
Proof.
  revert d w. induction ks as [|k ks IH]; intros d w; cbn [foldM].
  - by intros [= <- _].
  - intros H. apply bind_Return_inv in H as (d1 & w1 & Hturn & H).
    rewrite (IH _ _ H). by eapply rewrite_url_attr_keys.
Qed.

Lemma rewrite_src_href_keys (name : string) (attrs attrs' : dict) (w w' : World) :
  rewrite_src_href E url dir name attrs w = Return attrs' w' ->
  List.map fst attrs' = List.map fst attrs.
Proof.
  unfold rewrite_src_href. intros H.
  destruct (Str.mem name _ && dict_has "src" attrs) eqn:Hm.
  { apply andb_true_iff in Hm as [_ Hm].
    apply bind_Return_inv in H as (v & w1 & _ & H).
    apply bind_Return_inv in H as (r & w2 & _ & [= <- _]). by apply dict_set_keys. }
  destruct (String.eqb name "link" && dict_has "href" attrs) eqn:Hl;
    [|by injection H as <- _].
  apply andb_true_iff in Hl as [_ Hl].
  apply bind_Return_inv in H as (v & w1 & _ & H).
  apply bind_Return_inv in H as (r & w2 & _ & [= <- _]). by apply dict_set_keys.
Qed.

Lemma process_tag_keys (name : string) (attrs attrs' : dict) (w w' : World) :
  process_tag E url dir name attrs w = Return attrs' w' ->
  List.map fst attrs' = List.filter kept_name (List.map fst attrs).
Proof.
  unfold process_tag. intros H.
  apply bind_Return_inv in H as (a1 & w1 & Hstyle & H).
  apply bind_Return_inv in H as (a2 & w2 & Hloop & H).
  rewrite (rewrite_src_href_keys _ _ _ _ _ H).
  unfold rewrite_url_attrs in Hloop. rewrite (url_loop_keys _ _ _ _ _ Hloop).
  rewrite (rewrite_style_keys E url dir _ _ _ _ Hstyle).
  apply drop_integrity_keys.
Qed.

End Names.

Lemma dict_get_not_key (k : string) (d : dict) :
  ~ In k (List.map fst d) -> dict_get k d = None.
Proof.
  induction d as [|[k' v] d IH]; [done|]. cbn [List.map fst In dict_get].
  intros H. destruct (String.eqb_spec k' k) as [->|]; [tauto|]. apply IH. tauto.
Qed.

(** X7. The walk neither adds, renames nor reorders an attribute: every tag
    comes back with the names it had, in their order, without [integrity]
    and [crossorigin], which no tag has afterwards. *)
Theorem walk_keeps_attribute_names
  (E : Env) (url dir : string) (soup soup' : list Node) (w w' : World) :
  rewrite_soup E url dir soup w = Return soup' w' ->
  Forall2 (same_shape (fun name attrs attrs' =>
             List.map fst attrs' = List.filter kept_name (List.map fst attrs)
             /\ dict_get "integrity" attrs' = None
             /\ dict_get "crossorigin" attrs' = None))
          soup soup'.
Proof.
  apply rewrite_soup_shape.
  intros name attrs w1 attrs' w2 Htag.
  apply process_tag_keys in Htag. split; [done|].
  split; apply dict_get_not_key; rewrite Htag; intros Hin;
    apply List.filter_In in Hin as [_ Hin]; by vm_compute in Hin.
Qed.

Lemma example_soup_keeps_attribute_names :
  Forall2 (same_shape (fun name attrs attrs' =>
             List.map fst attrs' = List.filter kept_name (List.map fst attrs)
             /\ dict_get "integrity" attrs' = None
             /\ dict_get "crossorigin" attrs' = None))
          example_soup example_soup_mirrored.
Proof.
  apply (walk_keeps_attribute_names (example_env net_200)
           "https://example.com/page/" "cache" example_soup example_soup_mirrored
           (fresh_world "cache")
           (world_of (rewrite_soup (example_env net_200) "https://example.com/page/"
                        "cache" example_soup (fresh_world "cache")))).
  vm_compute. reflexivity.
Defined.

(* ===================================================================== *)
(** ** Further properties: the style attribute in the walk *)
(* ===================================================================== *)

(** the style of a tag goes through the style rewriter before any other
    call of the loop body *)
Lemma process_tag_style (E : Env) (url dir : string)
  (name : string) (attrs attrs' : dict) (v : string) (w w' : World) :
  process_tag E url dir name attrs w = Return attrs' w' ->
  dict_get "style" attrs = Some v ->
  exists w1 s',
    process_style_attribute E v url dir w = Return s' w1
    /\ cache_step dir w1 w'
    /\ dict_get "style" attrs' = Some s'.
Proof.
  unfold process_tag. intros H Hget.
  apply bind_Return_inv in H as (a1 & w1 & Hstyle & H).
  apply bind_Return_inv in H as (a2 & w2 & Hloop & Hlast).
  assert (dict_get "style" (drop_integrity attrs) = Some v) as Hget1
    by (by rewrite drop_integrity_get).
  unfold rewrite_style, dict_has, tag_getitem in Hstyle. rewrite Hget1 in Hstyle.
  apply bind_Return_inv in Hstyle as (v' & w0 & [= <- <-] & Hstyle).
  apply bind_Return_inv in Hstyle as (s' & w1' & Hs & [= <- <-]).
  exists w1', s'. split; [done|]. split.
  { eapply cache_step_trans.
    - eapply cache_step_of_return; [apply rewrite_url_attrs_cache_only|exact Hloop].
    - eapply cache_step_of_return; [apply rewrite_src_href_cache_only|exact Hlast]. }
  rewrite (rewrite_src_href_get E url dir _ _ _ _ _ "style" Hlast) by done.
  unfold rewrite_url_attrs in Hloop.
  rewrite (url_loop_get E url dir _ _ _ "style" _ _ Hloop).
  2:{ intros k0 _. destruct (String.eqb_spec k0 "style") as [->|]; [right|left]; done. }
  apply dict_get_set_eq.
Qed.

(** X8. When the walk returns, every tag that had a [style] holds under
    [style] what the style rewriter returned for the value it had in the
    page, in a call made during the walk. *)
Theorem style_attributes_are_rewritten
  (E : Env) (url dir : string) (soup soup' : list Node) (w w' : World) :
  rewrite_soup E url dir soup w = Return soup' w' ->
  Forall2 (same_shape (fun name attrs attrs' =>
             forall v,
               dict_get "style" attrs = Some v ->
               exists w1 w2 s',
                 cache_step dir w w1
                 /\ process_style_attribute E v url dir w1 = Return s' w2
                 /\ cache_step dir w2 w'
                 /\ dict_get "style" attrs' = Some s'))
          soup soup'.
Proof.
  apply (rewrite_soup_shape_steps E url dir
           (fun w w' name attrs attrs' =>
              forall v,
                dict_get "style" attrs = Some v ->
                exists w1 w2 s',
                  cache_step dir w w1
                  /\ process_style_attribute E v url dir w1 = Return s' w2
                  /\ cache_step dir w2 w'
                  /\ dict_get "style" attrs' = Some s')).
  intros name attrs wa attrs' wb w0 w0' Htag Hin Hout v Hget.
  destruct (process_tag_style E url dir name attrs attrs' v wa wb Htag Hget)
    as (w1 & s' & Hs & Hstep & Hk).
  exists wa, w1, s'. split; [done|]. split; [done|].
  split; [by eapply cache_step_trans|done].
Qed.

Lemma styled_soup_is_rewritten :
  Forall2 (same_shape (fun name attrs attrs' =>
             forall v,
               dict_get "style" attrs = Some v ->
               exists w1 w2 s',
                 cache_step "cache" (fresh_world "cache") w1
                 /\ process_style_attribute (example_env net_200) v
                      "https://example.com/page/" "cache" w1 = Return s' w2
                 /\ cache_step "cache" w2
                      (world_of (rewrite_soup (example_env net_200)
                                   "https://example.com/page/" "cache" styled_soup
                                   (fresh_world "cache")))
                 /\ dict_get "style" attrs' = Some s'))
          styled_soup styled_soup_mirrored.
Proof.
  apply (style_attributes_are_rewritten (example_env net_200)
           "https://example.com/page/" "cache" styled_soup styled_soup_mirrored
           (fresh_world "cache")
           (world_of (rewrite_soup (example_env net_200) "https://example.com/page/"
                        "cache" styled_soup (fresh_world "cache")))).
  vm_compute. reflexivity.
Defined.

(* ===================================================================== *)
(** ** Further properties: where the cached files come from *)
(* ===================================================================== *)

Lemma provenance_refl (E : Env) (dir : string) (w : World) : provenance E dir w w.
Proof. split; [done|]. split; [done|]. by intros p Hp. Qed.

Lemma provenance_trans (E : Env) (dir : string) (w1 w2 w3 : World) :
  provenance E dir w1 w2 -> provenance E dir w2 w3 -> provenance E dir w1 w3.
Proof.
  intros (Hr1 & Hk1 & Hn1) (Hr2 & Hk2 & Hn2). split; [by etrans|].
  split; [by auto|]. intros p Hp.
  destruct (decide (files w3 !! p = files w2 !! p)) as [Heq|Hne].
  - rewrite Heq in Hp.
    destruct (Hn1 p Hp) as (l & u & s & r & Hfrom & Hpre & Ht & H200 & Hs & -> & Hc).
    exists l, u, s, r. split; [done|]. split; [by etrans|]. rewrite Heq. done.
  - destruct (Hn2 p Hne) as (l & u & s & r & Hfrom & Hrest).
    exists l, u, s, r. split; [by etrans|]. done.
Qed.

Lemma fetcher_provenance (E : Env) (asset_url base_url dir : string) :
  obeys (fun _ => True) (provenance E dir) (fun _ _ => True)
    (download_and_replace_asset E asset_url base_url dir).
Proof.
  intros w _.
  destruct (passes_through asset_url) eqn:Hp.
  { rewrite (resolve_passthrough E _ _ _ _ Hp). split; [done|apply provenance_refl]. }
  destruct (urljoin E base_url (unquote E asset_url)) as [u|] eqn:Hu.
  2:{ by rewrite (resolve_bad_join E _ _ _ _ Hp Hu). }
  destruct (urlsplit E u) as [s|] eqn:Hs.
  2:{ by rewrite (resolve_bad_split E _ _ _ _ _ Hp Hu Hs). }
  rewrite (resolve_unfold E _ _ _ _ _ _ Hp Hu Hs). cbv zeta.
  destruct (path_exists _ w) eqn:Hex; [split; [done|apply provenance_refl]|].
  destruct (transport E (requests w) u) as [r|] eqn:Hr; [|done].
  destruct (status_code r =? 200)%Z eqn:H200.
  - destruct (open_error dir _ w); [done|]. split; [done|].
    assert (files w !! posixpath.join dir (new_filename (urllib.path s)) = None) as Hnone.
    { unfold path_exists in Hex. apply orb_false_iff in Hex as [Hex _].
      apply bool_decide_eq_false in Hex.
      destruct (files w !! _) eqn:Hf; [|done]. destruct Hex. eauto. }
    split; [by apply prefix_app_r|]. cbn [files requests]. split.
    + intros p c Hc. rewrite lookup_insert_ne; [done|]. congruence.
    + intros p Hne.
      destruct (decide (posixpath.join dir (new_filename (urllib.path s)) = p))
        as [<-|Hp']; [|by rewrite lookup_insert_ne in Hne].
      exists (requests w), u, s, r. split; [done|]. split; [done|]. split; [done|].
      split; [by apply Z.eqb_eq|]. split; [done|]. split; [done|].
      apply lookup_insert_eq.
  - split; [done|]. split; [by apply prefix_app_r|]. cbn [files]. split; [done|].
    by intros p Hne.
Qed.

(** X9. When the walk returns, every file that is new or changed holds the
    body of an answer of status 200 to a request that the walk itself made,
    after the requests that were made before the walk, and its name in the
    directory is the cached name of the path of the requested URL. *)
Theorem cached_files_hold_fetched_bodies
  (E : Env) (url dir : string) (soup soup' : list Node) (w w' : World) (p : string) :
  rewrite_soup E url dir soup w = Return soup' w' ->
  files w' !! p <> files w !! p ->
  exists l u s r,
    requests w `prefix_of` l
    /\ (l ++ [u]) `prefix_of` requests w'
    /\ transport E l u = Some r
    /\ status_code r = 200%Z
    /\ urlsplit E u = Some s
    /\ p = posixpath.join dir (new_filename (urllib.path s))
    /\ files w' !! p = Some (content r).
Proof.
  intros H Hne.
  pose proof (rewrite_soup_obeys (fun _ => True) (provenance E dir) (fun _ _ => True)
                (provenance_refl E dir) (provenance_trans E dir) E url dir
                (fun a => fetcher_provenance E a url dir) soup w I) as Hw.
  rewrite H in Hw. destruct Hw as (_ & _ & _ & Hnew). by apply Hnew.
Qed.

Lemma example_logo_holds_fetched_body :
  exists l u s r,
    requests (fresh_world "cache") `prefix_of` l
    /\ (l ++ [u]) `prefix_of`
      requests (world_of (rewrite_soup (example_env net_200)
                            "https://example.com/page/" "cache" example_soup
                            (fresh_world "cache")))
    /\ transport (example_env net_200) l u = Some r
    /\ status_code r = 200%Z
    /\ urlsplit (example_env net_200) u = Some s
    /\ "cache/0085aa6192.png" = posixpath.join "cache" (new_filename (urllib.path s))
    /\ files (world_of (rewrite_soup (example_env net_200)
                          "https://example.com/page/" "cache" example_soup
                          (fresh_world "cache"))) !! "cache/0085aa6192.png"
       = Some (content r).
Proof.
  apply (cached_files_hold_fetched_bodies (example_env net_200)
           "https://example.com/page/" "cache" example_soup example_soup_mirrored
           (fresh_world "cache")).
  - vm_compute. reflexivity.
  - vm_compute. discriminate.
Defined.

(* ===================================================================== *)
(** ** Further properties: a second walk *)
(* ===================================================================== *)

Lemma path_exists_kept (dir p : string) (w w' : World) :
  cache_step dir w w' -> path_exists p w = true -> path_exists p w' = true.
Proof.
  intros Hstep. unfold path_exists. rewrite (cs_dirs _ _ _ Hstep).
  intros H. apply orb_true_iff in H as [H|H]; apply orb_true_iff; [left|by right].
  apply bool_decide_eq_true in H as [c Hc]. apply bool_decide_eq_true.
  exists c. by apply (cs_kept _ _ _ Hstep).
Qed.

Section Warm.
Context (dir : string).

Lemma warm_ret {A} (a : A) : warm dir (ret a).
Proof. split; [apply cache_only_ret|]. by intros w a' w' [= <- <-] w'' _. Qed.

Lemma warm_bind {A B} (c : M A) (k : A -> M B) :
  warm dir c -> (forall a, warm dir (k a)) -> warm dir (bind c k).
Proof.
  intros [Hc1 Hc2] Hk. split.
  { apply cache_only_bind; [done|]. intros a. apply Hk. }
  intros w b w2 H w'' Hstep.
  apply bind_Return_inv in H as (a & w1 & Ha & Hb).
  destruct (Hk a) as [Hk1 Hk2].
  unfold bind. rewrite (Hc2 _ _ _ Ha w'').
  - by apply (Hk2 _ _ _ Hb).
  - eapply cache_step_trans; [|exact Hstep]. by eapply cache_step_of_return.
Qed.

Lemma warm_mapM {A B} (f : A -> M B) (l : list A) :
  (forall a, warm dir (f a)) -> warm dir (mapM f l).
Proof.
  intros Hf. induction l as [|x l IH]; cbn [mapM]; [apply warm_ret|].
  apply warm_bind; [apply Hf|]. intros y.
  apply warm_bind; [exact IH|]. intros ys. apply warm_ret.
Qed.

Lemma warm_foldM {A B} (f : B -> A -> M B) (l : list A) (b : B) :
  (forall b a, warm dir (f b a)) -> warm dir (foldM f l b).
Proof.
  intros Hf. revert b. induction l as [|x l IH]; intros b; cbn [foldM];
    [apply warm_ret|].
  apply warm_bind; [apply Hf|]. intros b'. apply IH.
Qed.

Lemma warm_re_sub_from (repl : string -> M string) (skip : nat) (s : string) :
  (forall g, warm dir (repl g)) -> warm dir (re_sub_from repl skip s).
Proof.
  intros Hrepl. revert skip. induction s as [|c s IH]; intros skip.
  { apply warm_ret. }
  cbn [re_sub_from]. destruct skip as [|n]; [|apply IH].
  destruct (match_here (String c s)) as [[g rest]|].
  - apply warm_bind; [apply Hrepl|]. intros r.
    apply warm_bind; [apply IH|]. intros out. apply warm_ret.
  - apply warm_bind; [apply IH|]. intros out. apply warm_ret.
Qed.

Context (E : Env) (url : string).
Hypothesis only_200 :
  forall l u r, transport E l u = Some r -> status_code r = 200%Z.

Lemma fetcher_warm (asset_url : string) :
  warm dir (download_and_replace_asset E asset_url url dir).
Proof.
  split; [apply resolve_cache_only|].
  intros w a w' H w'' Hstep.
  destruct (passes_through asset_url) eqn:Hp.
  { rewrite (resolve_passthrough E _ _ _ w Hp) in H.
    rewrite (resolve_passthrough E _ _ _ w'' Hp). by injection H as <- _. }
  destruct (urljoin E url (unquote E asset_url)) as [u|] eqn:Hu.
  2:{ by rewrite (resolve_bad_join E _ _ _ _ Hp Hu) in H. }
  destruct (urlsplit E u) as [s|] eqn:Hs.
  2:{ by rewrite (resolve_bad_split E _ _ _ _ _ Hp Hu Hs) in H. }
  assert (a = local_reference E s
          /\ path_exists (posixpath.join dir (new_filename (urllib.path s))) w' = true)
    as [-> Hex].
  { rewrite (resolve_unfold E _ _ _ _ _ _ Hp Hu Hs) in H. cbv zeta in H.
    destruct (path_exists _ w) eqn:Hex; [by injection H as <- <-|].
    destruct (transport E (requests w) u) as [r|] eqn:Hr; [|done].
    rewrite (only_200 _ _ _ Hr) in H. cbn [Z.eqb Pos.eqb] in H.
    destruct (open_error dir _ w); [done|]. injection H as <- <-.
    split; [done|]. unfold path_exists. cbn [files].
    rewrite lookup_insert_eq. done. }
  apply (resolve_cached E _ _ _ _ _ _ Hp Hu Hs).
  by eapply path_exists_kept.
Qed.

Lemma process_style_attribute_warm (style : string) :
  warm dir (process_style_attribute E style url dir).
Proof.
  apply warm_re_sub_from. intros g. unfold replace_url.
  destruct (remote_prefix g); [|apply warm_ret].
  apply warm_bind; [apply fetcher_warm|]. intros r. apply warm_ret.
Qed.

Lemma warm_raise {A} (e : exn) : warm dir (@raise A e).
Proof. split; [apply cache_only_raise|]. by intros w a w'. Qed.

Lemma tag_getitem_warm (k : string) (d : dict) : warm dir (tag_getitem k d).
Proof. unfold tag_getitem. destruct (dict_get k d); [apply warm_ret|apply warm_raise]. Qed.

Lemma rewrite_style_warm (attrs : dict) : warm dir (rewrite_style E url dir attrs).
Proof.
  unfold rewrite_style. destruct (dict_has "style" attrs); [|apply warm_ret].
  apply warm_bind; [apply tag_getitem_warm|]. intros s.
  apply warm_bind; [apply process_style_attribute_warm|]. intros s'.
  apply warm_ret.
Qed.

Lemma rewrite_url_attr_warm (attrs : dict) (attr : string) :
  warm dir (rewrite_url_attr E url dir attrs attr).
Proof.
  unfold rewrite_url_attr. destruct (dict_get attr attrs) as [v|]; [|apply warm_ret].
  destruct (Str.endswith (Str.lower attr) "url").
  { apply warm_bind; [apply fetcher_warm|]. intros r. apply warm_ret. }
  destruct (Str.endswith (Str.lower attr) "urls"); [|apply warm_ret].
  apply warm_bind; [|intros rs; apply warm_ret].
  apply warm_mapM. intros a. apply fetcher_warm.
Qed.

Lemma rewrite_src_href_warm (name : string) (attrs : dict) :
  warm dir (rewrite_src_href E url dir name attrs).
Proof.
  unfold rewrite_src_href.
  destruct (Str.mem name _ && dict_has "src" attrs).
  { apply warm_bind; [apply tag_getitem_warm|]. intros s.
    apply warm_bind; [apply fetcher_warm|]. intros r. apply warm_ret. }
  destruct (String.eqb name "link" && dict_has "href" attrs); [|apply warm_ret].
  apply warm_bind; [apply tag_getitem_warm|]. intros s.
  apply warm_bind; [apply fetcher_warm|]. intros r. apply warm_ret.
Qed.

Lemma process_tag_warm (name : string) (attrs : dict) :
  warm dir (process_tag E url dir name attrs).
Proof.
  unfold process_tag.
  apply warm_bind; [apply rewrite_style_warm|]. intros a1.
  apply warm_bind; [|intros a2; apply rewrite_src_href_warm].
  apply warm_foldM. intros b a. apply rewrite_url_attr_warm.
Qed.

Lemma rewrite_node_warm (n : Node) : warm dir (rewrite_node E url dir n).
Proof.
  induction n as [s|name attrs children IH] using Node_forall_ind.
  { apply warm_ret. }
  cbn [rewrite_node].
  apply warm_bind; [apply process_tag_warm|]. intros a.
  apply warm_bind; [|intros cs; apply warm_ret].
  induction IH as [|c cs Hc _ IHcs]; [apply warm_ret|].
  cbn [mapM]. apply warm_bind; [exact Hc|]. intros c'.
  apply warm_bind; [exact IHcs|]. intros cs'. apply warm_ret.
Qed.

End Warm.

(** X10. On a network that answers with status 200 whenever it answers, a
    walk that returned is repeated without the network: in every world that
    the cache reaches from the one the walk left, the walk over the same
    document returns the same tree and leaves the world as it is. *)
Theorem second_walk_needs_no_network
  (E : Env) (url dir : string) (soup soup' : list Node) (w w' w'' : World) :
  (forall l u r, transport E l u = Some r -> status_code r = 200%Z) ->
  rewrite_soup E url dir soup w = Return soup' w' ->
  cache_step dir w' w'' ->
  rewrite_soup E url dir soup w'' = Return soup' w''.
Proof.
  intros H200 Hwalk Hstep.
  assert (warm dir (rewrite_soup E url dir soup)) as [_ Hwarm].
  { apply warm_mapM. intros n. by apply rewrite_node_warm. }
  by apply (Hwarm _ _ _ Hwalk).
Qed.

Lemma second_walk_example :
  rewrite_soup (example_env net_200) "https://example.com/page/" "cache" example_soup
    (world_of (rewrite_soup (example_env net_200) "https://example.com/page/"
                 "cache" example_soup (fresh_world "cache")))
  = Return example_soup_mirrored
      (world_of (rewrite_soup (example_env net_200) "https://example.com/page/"
                   "cache" example_soup (fresh_world "cache"))).
Proof.
  apply (second_walk_needs_no_network (example_env net_200)
           "https://example.com/page/" "cache" example_soup example_soup_mirrored
           (fresh_world "cache")
           (world_of (rewrite_soup (example_env net_200) "https://example.com/page/"
                        "cache" example_soup (fresh_world "cache")))).
  - intros l u r [= <-]. reflexivity.
  - vm_compute. reflexivity.
  - apply cache_step_refl.
Defined.

(* ===================================================================== *)
(** ** Further properties: the log of the run *)
(* ===================================================================== *)

Lemma passes_through_cases (a : string) :
  passes_through a = true \/ passes_through a = false.
Proof. destruct (passes_through a); auto. Qed.

Lemma reports_refl (E : Env) (w : World) : reports E w w.
Proof. exists [], []. rewrite !app_nil_r. auto. Qed.

Lemma reports_trans (E : Env) (w1 w2 w3 : World) :
  reports E w1 w2 -> reports E w2 w3 -> reports E w1 w3.
Proof.
  intros (r1 & l1 & Hr1 & Hl1 & H1) (r2 & l2 & Hr2 & Hl2 & H2).
  exists (r1 ++ r2), (l1 ++ l2). rewrite Hr2, Hr1, Hl2, Hl1, !app_assoc.
  split; [done|]. split; [done|]. by apply Forall2_app.
Qed.

Lemma fetcher_reports (E : Env) (asset_url base_url dir : string) :
  obeys (fun _ => True) (reports E) (fun _ _ => True)
    (download_and_replace_asset E asset_url base_url dir).
Proof.
  intros w _.
  destruct (passes_through_cases asset_url) as [Hp|Hp].
  { rewrite (resolve_passthrough E _ _ _ _ Hp). split; [done|apply reports_refl]. }
  destruct (urljoin E base_url (unquote E asset_url)) as [u|] eqn:Hu.
  2:{ by rewrite (resolve_bad_join E _ _ _ _ Hp Hu). }
  destruct (urlsplit E u) as [s|] eqn:Hs.
  2:{ by rewrite (resolve_bad_split E _ _ _ _ _ Hp Hu Hs). }
  rewrite (resolve_unfold E _ _ _ _ _ _ Hp Hu Hs). cbv zeta.
  destruct (path_exists _ w); [split; [done|apply reports_refl]|].
  destruct (transport E (requests w) u) as [r|]; [|done].
  destruct (status_code r =? 200)%Z.
  - destruct (open_error dir _ w); [done|]. split; [done|].
    eexists [u], [_]. cbn [requests stdout]. split; [done|]. split; [done|].
    constructor; [|constructor]. right. eauto.
  - split; [done|]. eexists [u], [_]. cbn [requests stdout].
    split; [done|]. split; [done|]. constructor; [|constructor]. by left.
Qed.

Lemma rewrite_soup_reports (E : Env) (url dir : string) (soup soup' : list Node)
  (w w' : World) :
  rewrite_soup E url dir soup w = Return soup' w' -> reports E w w'.
Proof.
  intros H.
  pose proof (rewrite_soup_obeys (fun _ => True) (reports E) (fun _ _ => True)
                (reports_refl E) (reports_trans E) E url dir
                (fun a => fetcher_reports E a url dir) soup w I) as Hw.
  rewrite H in Hw. tauto.
Qed.

(** X11. A run that returns has first requested the page and then the
    assets, and has printed one line for each request of an asset, in the
    order of the requests: the line of the failure with the requested URL,
    or the line of the download with the cached name and the base name of
    the path of that URL. The request of the page has no line. *)
Theorem every_asset_request_is_reported (E : Env) (url : string) (w w' : World) :
  download_page E url w = Return tt w' ->
  exists reqs lines,
    requests w' = requests w ++ url :: reqs
    /\ stdout w' = stdout w ++ lines
    /\ Forall2 (report_of E) reqs lines.
Proof.
  unfold download_page. intros H.
  apply bind_Return_inv in H as (u & w1 & Hmk & H).
  apply bind_Return_inv in H as (r & w2 & Hget & H).
  apply bind_Return_inv in H as (soup' & w3 & Hwalk & H).
  apply bind_Return_inv in H as (u' & w4 & Hopen & H).
  apply rewrite_soup_reports in Hwalk as (reqs & lines & Hr & Hl & Hrep).
  exists reqs, lines.
  unfold os_makedirs in Hmk. destruct (bool_decide _); [done|].
  injection Hmk as _ <-.
  unfold requests_get in Hget. destruct (transport _ _ _); [|done].
  injection Hget as _ <-. cbn [requests stdout] in *.
  apply open_for_writing_Return in Hopen as [-> _].
  unfold write_latin1 in H. destruct (latin1_encode _); [|done].
  injection H as <-. cbn [requests stdout].
  rewrite Hr, Hl, <- app_assoc. done.
Qed.

Lemma example_page_requests_are_reported :
  exists reqs lines,
    requests (world_of (download_page page_env "https://example.com/page/"
                          world_with_output_dir))
    = requests world_with_output_dir ++ "https://example.com/page/" :: reqs
    /\ stdout (world_of (download_page page_env "https://example.com/page/"
                           world_with_output_dir))
       = stdout world_with_output_dir ++ lines
    /\ Forall2 (report_of page_env) reqs lines.
Proof.
  apply (every_asset_request_is_reported page_env "https://example.com/page/"
           world_with_output_dir).
  vm_compute. reflexivity.
Defined.

(* ===================================================================== *)
(** ** Further properties: the failures of the run *)
(* ===================================================================== *)






(* ===================================================================== *)
(** ** Further properties: the paths of the run *)
(* ===================================================================== *)

(** X15. The asset directory and the output file are given from the
    directory of the script, not from the working directory: [../assets]
    and [../original/index.html] after the directory of the script, with a
    slash between unless that directory is empty or ends in one. *)
Theorem paths_are_beside_the_script_directory (E : Env) :
  assets_dir E = script_dir E +:+ join_sep (script_dir E) +:+ "../assets"
  /\ output_dir E = script_dir E +:+ join_sep (script_dir E) +:+ "../original"
  /\ output_path E
     = script_dir E +:+ join_sep (script_dir E) +:+ "../original/index.html".
Proof.
  assert (output_dir E = script_dir E +:+ join_sep (script_dir E) +:+ "../original")
    as Hout.
  { unfold output_dir. rewrite join_relative, join_sep_BASE_DIR by reflexivity.
    unfold BASE_DIR. rewrite join_relative by reflexivity.
    by rewrite !append_assoc. }
  split; [|split; [exact Hout|]].
  - unfold assets_dir, ASSET_DIR_NAME.
    rewrite join_relative, join_sep_BASE_DIR by reflexivity.
    unfold BASE_DIR. rewrite join_relative by reflexivity.
    by rewrite !append_assoc.
  - unfold output_path. rewrite join_relative, join_sep_output_dir by reflexivity.
    rewrite Hout. by rewrite !append_assoc.
Qed.

(* ===================================================================== *)
(** ** Further properties: what the run writes *)
(* ===================================================================== *)

Lemma run_frame_after_walk (E : Env) (w w2 w3 : World) (p : string) (fs : gmap string string) :
  files w2 = files w ->
  cache_step (assets_dir E) w2 w3 ->
  fs = files w3 \/ (exists d, fs = <[output_path E := d]> (files w3)) ->
  (fs !! p = files w !! p
   \/ p = output_path E
   \/ exists path, p = posixpath.join (assets_dir E) (new_filename path))
  /\ (p <> output_path E -> forall c, files w !! p = Some c -> fs !! p = Some c).
Proof.
  intros Hw2 Hstep Hfs.
  assert (fs !! p = files w3 !! p \/ p = output_path E) as [Hp|Hp].
  { destruct Hfs as [->|[d ->]]; [by left|].
    destruct (decide (p = output_path E)) as [->|Hne]; [by right|left].
    by rewrite lookup_insert_ne. }
  2:{ split; [auto|done]. }
  rewrite Hp, <- Hw2. split.
  - destruct (decide (files w3 !! p = files w2 !! p)) as [Heq|Hne]; [by left|].
    right. right. by apply (cs_new _ _ _ Hstep).
  - intros _ c. apply (cs_kept _ _ _ Hstep).
Qed.

(** X13. Whether the run returns or raises, a path whose file is not as it
    was is the output path or a cached name in the asset directory; every
    file that was there, the output file aside, is there with its bytes; and
    the only directory that may be new is the asset directory. *)
Theorem run_writes_only_cache_and_output (E : Env) (url : string) (w : World)
  (p : string) :
  (files (world_of (download_page E url w)) !! p = files w !! p
   \/ p = output_path E
   \/ exists path, p = posixpath.join (assets_dir E) (new_filename path))
  /\ (p <> output_path E -> forall c,
        files w !! p = Some c ->
        files (world_of (download_page E url w)) !! p = Some c)
  /\ (dirs (world_of (download_page E url w)) = dirs w
      \/ dirs (world_of (download_page E url w)) = {[assets_dir E]} ∪ dirs w).
Proof.
  assert (forall w1, os_makedirs (assets_dir E) w = Return tt w1 ->
            files w1 = files w /\ dirs w1 = {[assets_dir E]} ∪ dirs w) as Hmake.
  { intros w1. unfold os_makedirs. destruct (bool_decide _); [done|].
    by intros [= <-]. }
  assert (forall w1 o, requests_get E url w1 = o ->
            files (world_of o) = files w1 /\ dirs (world_of o) = dirs w1) as Hget.
  { intros w1 o <-. unfold requests_get. by destruct (transport _ _ _). }
  cut (forall A B C : Prop, (A /\ B) /\ C -> A /\ B /\ C); [|tauto].
  intros Hgroup. apply Hgroup. clear Hgroup.
  destruct (download_page E url w) as [[] w'|e w'] eqn:Hrun; cbn [world_of];
    unfold download_page in Hrun.
  - apply bind_Return_inv in Hrun as ([] & w1 & Hmk & H).
    apply bind_Return_inv in H as (r & w2 & Hreq & H).
    apply bind_Return_inv in H as (soup' & w3 & Hwalk & H).
    apply bind_Return_inv in H as ([] & w4 & Hopen & H).
    destruct (Hmake _ Hmk) as [Hf1 Hd1].
    destruct (Hget _ _ Hreq) as [Hf2 Hd2]. cbn [world_of] in Hf2, Hd2.
    pose proof (cache_step_of_return _ _ _ _ _
                  (rewrite_soup_cache_only E url (assets_dir E) _) Hwalk) as Hstep.
    apply open_for_writing_Return in Hopen as [-> _].
    unfold write_latin1 in H. destruct (latin1_encode _) as [data|]; [|done].
    injection H as <-. cbn [files dirs]. split.
    + apply (run_frame_after_walk E w w2 w3); [congruence|done|].
      right. exists data. by rewrite insert_insert_eq.
    + right. rewrite (cs_dirs _ _ _ Hstep). congruence.
  - apply bind_Raise_inv in Hrun as [H|([] & w1 & Hmk & H)].
    { unfold os_makedirs in H. destruct (bool_decide _); [|done].
      injection H as _ <-. auto. }
    destruct (Hmake _ Hmk) as [Hf1 Hd1].
    apply bind_Raise_inv in H as [H|(r & w2 & Hreq & H)].
    { destruct (Hget _ _ H) as [Hf2 Hd2]. cbn [world_of] in Hf2, Hd2.
      rewrite Hf2, Hf1, Hd2, Hd1. auto. }
    destruct (Hget _ _ Hreq) as [Hf2 Hd2]. cbn [world_of] in Hf2, Hd2.
    apply bind_Raise_inv in H as [H|(soup' & w3 & Hwalk & H)].
    { pose proof (cache_step_of_raise _ _ _ _ _
                    (rewrite_soup_cache_only E url (assets_dir E) _) H) as Hstep.
      split.
      - apply (run_frame_after_walk E w w2 w'); [congruence|done|by left].
      - right. rewrite (cs_dirs _ _ _ Hstep). congruence. }
    pose proof (cache_step_of_return _ _ _ _ _
                  (rewrite_soup_cache_only E url (assets_dir E) _) Hwalk) as Hstep.
    apply bind_Raise_inv in H as [H|([] & w4 & Hopen & H)].
    { assert (w' = w3) as ->.
      { by apply open_for_writing_Raise in H as [-> _]. }
      split.
      - apply (run_frame_after_walk E w w2 w3); [congruence|done|by left].
      - right. rewrite (cs_dirs _ _ _ Hstep). congruence. }
    apply open_for_writing_Return in Hopen as [-> _].
    unfold write_latin1 in H. destruct (latin1_encode _) as [data|]; [done|].
    injection H as _ <-. cbn [files dirs]. split.
    + apply (run_frame_after_walk E w w2 w3); [congruence|done|].
      right. by exists EmptyString.
    + right. rewrite (cs_dirs _ _ _ Hstep). congruence.
Qed.

Lemma latin1_encode_ascii (s : string) :
  Str.forallb is_ascii_char s = true -> latin1_encode s = Some s.
Proof.
  induction s as [|c s IH]; [done|]. cbn [Str.forallb latin1_encode].
  unfold is_ascii_char at 1. intros H. apply andb_true_iff in H as [Hc Hs].
  rewrite Hc, (IH Hs). done.
Qed.

Lemma output_path_is_not_the_asset_directory (E : Env) :
  output_path E <> assets_dir E.
Proof.
  unfold output_path, assets_dir, ASSET_DIR_NAME.
  rewrite !join_relative by reflexivity. intros H.
  change "index.html" with ("index.htm" +:+ "l") in H.
  change "assets" with ("asset" +:+ "s") in H.
  rewrite <- !append_assoc in H. by apply append_last_inj in H.
Qed.

(** X14. When the path of the asset directory is no file, the network
    answers the request of the page, the walk returns, the output directory
    is there, the output path is no directory and the markup is ASCII, the
    run returns, and the output file holds the markup byte for byte; the
    rest of the world is as the walk left it. *)
Theorem run_writes_ascii_markup_as_it_is
  (E : Env) (url : string) (w w2 : World) (r : Response) (soup' : list Node) :
  files w !! assets_dir E = None ->
  transport E (requests w) url = Some r ->
  rewrite_soup E url (assets_dir E)
    (decompose_first "i18nWebflowScript" (BeautifulSoup E (text r)))
    (mkWorld (files w) ({[assets_dir E]} ∪ dirs w) (requests w ++ [url]) (stdout w))
  = Return soup' w2 ->
  output_dir E ∈ dirs w ->
  output_path E ∉ dirs w ->
  Str.forallb is_ascii_char (soup_str E soup') = true ->
  download_page E url w
  = Return tt (mkWorld (<[output_path E := soup_str E soup']> (files w2))
                 (dirs w2) (requests w2) (stdout w2)).
Proof.
  intros Hfile Hr Hwalk Hdir Hpath Hascii.
  pose proof (cache_step_of_return _ _ _ _ _
                (rewrite_soup_cache_only E url (assets_dir E) _) Hwalk) as Hstep.
  pose proof (cs_dirs _ _ _ Hstep) as Hdirs. cbn [dirs] in Hdirs.
  assert (os_makedirs (assets_dir E) w
          = Return tt (mkWorld (files w) ({[assets_dir E]} ∪ dirs w) (requests w)
                               (stdout w))) as Hmk.
  { unfold os_makedirs. rewrite bool_decide_eq_false_2; [done|].
    rewrite Hfile. by intros [c Hc]. }
  assert (open_for_writing (output_dir E) (output_path E) w2
          = Return tt (mkWorld (<[output_path E := EmptyString]> (files w2)) (dirs w2)
                               (requests w2) (stdout w2))) as Hopen.
  { unfold open_for_writing. rewrite open_error_output, Hdirs.
    rewrite bool_decide_eq_true_2 by (apply elem_of_union; by right). cbn [negb].
    rewrite bool_decide_eq_false_2; [done|].
    intros Hin. apply elem_of_union in Hin as [Hin|Hin]; [|done].
    apply elem_of_singleton in Hin.
    by apply output_path_is_not_the_asset_directory in Hin. }
  unfold download_page, bind. rewrite Hmk.
  unfold requests_get. cbn [requests files dirs stdout]. rewrite Hr, Hwalk, Hopen.
  unfold write_latin1. rewrite (latin1_encode_ascii _ Hascii).
  unfold write_and_close. cbn [files dirs requests stdout].
  by rewrite insert_insert_eq.
Qed.

Lemma example_page_is_written_as_it_is :
  download_page page_env "https://example.com/page/" world_with_output_dir
  = Return tt
      (mkWorld (<[output_path page_env
                  := soup_str page_env example_soup_mirrored]>
                  (files (world_of (rewrite_soup page_env "https://example.com/page/"
                                      (assets_dir page_env) example_soup
                                      (mkWorld ∅ ({[assets_dir page_env]}
                                                    ∪ {["./../original"]})
                                         ["https://example.com/page/"] [])))))
         (dirs (world_of (rewrite_soup page_env "https://example.com/page/"
                            (assets_dir page_env) example_soup
                            (mkWorld ∅ ({[assets_dir page_env]} ∪ {["./../original"]})
                               ["https://example.com/page/"] []))))
         (requests (world_of (rewrite_soup page_env "https://example.com/page/"
                                (assets_dir page_env) example_soup
                                (mkWorld ∅ ({[assets_dir page_env]}
                                              ∪ {["./../original"]})
                                   ["https://example.com/page/"] []))))
         (stdout (world_of (rewrite_soup page_env "https://example.com/page/"
                              (assets_dir page_env) example_soup
                              (mkWorld ∅ ({[assets_dir page_env]}
                                            ∪ {["./../original"]})
                                 ["https://example.com/page/"] []))))).
Proof.
  apply (run_writes_ascii_markup_as_it_is page_env "https://example.com/page/"
           world_with_output_dir _
           (mkResponse 200 "bytes of https://example.com/page/" "")
           example_soup_mirrored).
  - reflexivity.
  - reflexivity.
  - vm_compute. reflexivity.
  - change (output_dir page_env) with "./../original".
    unfold world_with_output_dir. cbn [dirs]. by apply elem_of_singleton.
  - change (output_path page_env) with "./../original/index.html".
    unfold world_with_output_dir. cbn [dirs]. intros H.
    apply elem_of_singleton in H. discriminate.
  - vm_compute. reflexivity.
Defined.

(* ===================================================================== *)
(** ** Further properties: the status of the page *)
(* ===================================================================== *)

Lemma prefix_of_length {A} (l1 l2 : list A) :
  l1 `prefix_of` l2 -> List.length l1 <= List.length l2.
Proof. intros [k ->]. rewrite length_app. lia. Qed.

Lemma agree_intro (n : nat) (dir : string) {A} (c1 c2 : M A) :
  cache_only dir c1 ->
  (forall w, n < List.length (requests w) -> c1 w = c2 w) -> agree n c1 c2.
Proof.
  intros Hc Heq w Hw. split; [by apply Heq|].
  pose proof (prefix_of_length _ _ (cs_requests _ _ _ (Hc w))). lia.
Qed.

Section Agree.
Context (n : nat).

Lemma agree_ret {A} (a : A) : agree n (ret a) (ret a).
Proof. by intros w Hw. Qed.

Lemma agree_bind {A B} (c1 c2 : M A) (k1 k2 : A -> M B) :
  agree n c1 c2 -> (forall a, agree n (k1 a) (k2 a)) -> agree n (bind c1 k1) (bind c2 k2).
Proof.
  intros Hc Hk w Hw. unfold bind. destruct (Hc w Hw) as [<- Hn].
  destruct (c1 w) as [a w1|e w1]; [|done]. by apply Hk.
Qed.

Lemma agree_mapM {A B} (f1 f2 : A -> M B) (l : list A) :
  (forall a, agree n (f1 a) (f2 a)) -> agree n (mapM f1 l) (mapM f2 l).
Proof.
  intros Hf. induction l as [|x l IH]; cbn [mapM]; [apply agree_ret|].
  apply agree_bind; [apply Hf|]. intros y.
  apply agree_bind; [exact IH|]. intros ys. apply agree_ret.
Qed.

Lemma agree_foldM {A B} (f1 f2 : B -> A -> M B) (l : list A) (b : B) :
  (forall b a, agree n (f1 b a) (f2 b a)) -> agree n (foldM f1 l b) (foldM f2 l b).
Proof.
  intros Hf. revert b. induction l as [|x l IH]; intros b; cbn [foldM];
    [apply agree_ret|].
  apply agree_bind; [apply Hf|]. intros b'. apply IH.
Qed.

Lemma agree_re_sub_from (repl1 repl2 : string -> M string) (skip : nat) (s : string) :
  (forall g, agree n (repl1 g) (repl2 g)) ->
  agree n (re_sub_from repl1 skip s) (re_sub_from repl2 skip s).
Proof.
  intros Hrepl. revert skip. induction s as [|c s IH]; intros skip.
  { apply agree_ret. }
  cbn [re_sub_from]. destruct skip as [|m]; [|apply IH].
  destruct (match_here (String c s)) as [[g rest]|].
  - apply agree_bind; [apply Hrepl|]. intros r.
    apply agree_bind; [apply IH|]. intros out. apply agree_ret.
  - apply agree_bind; [apply IH|]. intros out. apply agree_ret.
Qed.

Context (E1 E2 : Env) (url dir : string).
Hypothesis same_unquote : unquote E1 = unquote E2.
Hypothesis same_urljoin : urljoin E1 = urljoin E2.
Hypothesis same_urlsplit : urlsplit E1 = urlsplit E2.
Hypothesis same_BASE_URL : BASE_URL E1 = BASE_URL E2.
Hypothesis same_answers :
  forall l u, n < List.length l -> transport E1 l u = transport E2 l u.

Lemma fetcher_agree (asset_url : string) :
  agree n (download_and_replace_asset E1 asset_url url dir)
          (download_and_replace_asset E2 asset_url url dir).
Proof.
  apply (agree_intro n dir); [apply resolve_cache_only|]. intros w Hw.
  destruct (passes_through asset_url) eqn:Hp.
  { by rewrite !resolve_passthrough. }
  destruct (urljoin E1 url (unquote E1 asset_url)) as [u|] eqn:Hu.
  2:{ rewrite (resolve_bad_join E1 _ _ _ _ Hp Hu).
      rewrite same_unquote, same_urljoin in Hu.
      by rewrite (resolve_bad_join E2 _ _ _ _ Hp Hu). }
  destruct (urlsplit E1 u) as [s|] eqn:Hs.
  2:{ rewrite (resolve_bad_split E1 _ _ _ _ _ Hp Hu Hs).
      rewrite same_unquote, same_urljoin in Hu. rewrite same_urlsplit in Hs.
      by rewrite (resolve_bad_split E2 _ _ _ _ _ Hp Hu Hs). }
  rewrite (resolve_unfold E1 _ _ _ _ _ _ Hp Hu Hs).
  rewrite same_unquote, same_urljoin in Hu. rewrite same_urlsplit in Hs.
  rewrite (resolve_unfold E2 _ _ _ _ _ _ Hp Hu Hs).
  rewrite (same_answers _ u Hw), same_unquote.
  unfold local_reference. by rewrite same_BASE_URL.
Qed.

Lemma process_style_attribute_agree (style : string) :
  agree n (process_style_attribute E1 style url dir)
          (process_style_attribute E2 style url dir).
Proof.
  apply agree_re_sub_from. intros g. unfold replace_url.
  destruct (remote_prefix g); [|apply agree_ret].
  apply agree_bind; [apply fetcher_agree|]. intros r. apply agree_ret.
Qed.

Lemma tag_getitem_agree (k : string) (d : dict) :
  agree n (tag_getitem k d) (tag_getitem k d).
Proof. by intros w Hw; unfold tag_getitem; destruct (dict_get k d). Qed.

Lemma rewrite_style_agree (attrs : dict) :
  agree n (rewrite_style E1 url dir attrs) (rewrite_style E2 url dir attrs).
Proof.
  unfold rewrite_style. destruct (dict_has "style" attrs); [|apply agree_ret].
  apply agree_bind; [apply tag_getitem_agree|]. intros s.
  apply agree_bind; [apply process_style_attribute_agree|]. intros s'.
  apply agree_ret.
Qed.

Lemma rewrite_url_attr_agree (attrs : dict) (attr : string) :
  agree n (rewrite_url_attr E1 url dir attrs attr)
          (rewrite_url_attr E2 url dir attrs attr).
Proof.
  unfold rewrite_url_attr. destruct (dict_get attr attrs) as [v|]; [|apply agree_ret].
  destruct (Str.endswith (Str.lower attr) "url").
  { apply agree_bind; [apply fetcher_agree|]. intros r. apply agree_ret. }
  destruct (Str.endswith (Str.lower attr) "urls"); [|apply agree_ret].
  apply agree_bind; [|intros rs; apply agree_ret].
  apply agree_mapM. intros a. apply fetcher_agree.
Qed.

Lemma rewrite_src_href_agree (name : string) (attrs : dict) :
  agree n (rewrite_src_href E1 url dir name attrs)
          (rewrite_src_href E2 url dir name attrs).
Proof.
  unfold rewrite_src_href.
  destruct (Str.mem name _ && dict_has "src" attrs).
  { apply agree_bind; [apply tag_getitem_agree|]. intros s.
    apply agree_bind; [apply fetcher_agree|]. intros r. apply agree_ret. }
  destruct (String.eqb name "link" && dict_has "href" attrs); [|apply agree_ret].
  apply agree_bind; [apply tag_getitem_agree|]. intros s.
  apply agree_bind; [apply fetcher_agree|]. intros r. apply agree_ret.
Qed.

Lemma process_tag_agree (name : string) (attrs : dict) :
  agree n (process_tag E1 url dir name attrs) (process_tag E2 url dir name attrs).
Proof.
  unfold process_tag.
  apply agree_bind; [apply rewrite_style_agree|]. intros a1.
  apply agree_bind; [|intros a2; apply rewrite_src_href_agree].
  apply agree_foldM. intros b a. apply rewrite_url_attr_agree.
Qed.

Lemma rewrite_node_agree (node : Node) :
  agree n (rewrite_node E1 url dir node) (rewrite_node E2 url dir node).
Proof.
  induction node as [s|name attrs children IH] using Node_forall_ind.
  { apply agree_ret. }
  cbn [rewrite_node].
  apply agree_bind; [apply process_tag_agree|]. intros a.
  apply agree_bind; [|intros cs; apply agree_ret].
  induction IH as [|c cs Hc _ IHcs]; [apply agree_ret|].
  cbn [mapM]. apply agree_bind; [exact Hc|]. intros c'.
  apply agree_bind; [exact IHcs|]. intros cs'. apply agree_ret.
Qed.

Lemma rewrite_soup_agree (soup : list Node) :
  agree n (rewrite_soup E1 url dir soup) (rewrite_soup E2 url dir soup).
Proof. apply agree_mapM. intros node. apply rewrite_node_agree. Qed.

End Agree.

(** X16. The run does not look at the status of the answer to the request
    of the page: on a network whose answer to that request carries any other
    status, with the same body, the run is the same, in its result and in
    the world it leaves. *)
Theorem page_status_is_not_checked (E : Env) (url : string) (w : World) (status : Z) :
  download_page (with_transport E (with_status E (requests w) url status)) url w
  = download_page E url w.
Proof.
  set (E' := with_transport E (with_status E (requests w) url status)).
  unfold download_page, bind.
  change (assets_dir E') with (assets_dir E).
  change (output_dir E') with (output_dir E).
  change (output_path E') with (output_path E).
  destruct (os_makedirs (assets_dir E) w) as [[] w1|e w1] eqn:Hmk; [|done].
  assert (requests w1 = requests w) as Hreq.
  { unfold os_makedirs in Hmk. destruct (bool_decide _); [done|].
    by injection Hmk as <-. }
  unfold requests_get. rewrite Hreq.
  change (transport E' (requests w) url)
    with (with_status E (requests w) url status (requests w) url).
  unfold with_status at 1.
  rewrite bool_decide_eq_true_2, String.eqb_refl by done. cbn [andb].
  destruct (transport E (requests w) url) as [r|]; [|done]. cbn [text].
  change (BeautifulSoup E') with (BeautifulSoup E).
  change (soup_str E') with (soup_str E).
  set (soup := decompose_first "i18nWebflowScript" (BeautifulSoup E (text r))).
  set (w2 := mkWorld (files w1) (dirs w1) (requests w ++ [url]) (stdout w1)).
  destruct (rewrite_soup_agree (List.length (requests w)) E' E url (assets_dir E)
              eq_refl eq_refl eq_refl eq_refl) with (soup := soup) (w := w2)
    as [-> _]; [| |done].
  - intros l u Hl. change (transport E' l u)
      with (with_status E (requests w) url status l u).
    unfold with_status. rewrite bool_decide_eq_false_2; [done|].
    intros ->. lia.
  - subst w2. cbn [requests]. rewrite length_app. cbn. lia.
Qed.

(* ===================================================================== *)
(** ** Further properties: a configuration that is not there *)
(* ===================================================================== *)

(** X18. Without [BASE_URL] in the environment the f-string renders the
    text [None]: every local reference begins with [None/assets/], and what
    a call of the fetcher returns is its locator, its locator unquoted, or a
    text that begins with [None/assets/]. *)
Theorem missing_base_url_renders_None (E : Env) :
  BASE_URL E = None ->
  (forall s, Str.startswith (local_reference E s) "None/assets/" = true)
  /\ (forall a base_url dir w r w',
        download_and_replace_asset E a base_url dir w = Return r w' ->
        r = a \/ r = unquote E a \/ Str.startswith r "None/assets/" = true).
Proof.
  intros Hbase.
  assert (forall s, Str.startswith (local_reference E s) "None/assets/" = true)
    as Href.
  { intros s. rewrite local_reference_eq, Hbase. cbn [fstring_of_env].
    unfold ASSET_DIR_NAME. rewrite <- !append_assoc.
    change (("None" +:+ "/") +:+ "assets") with "None/assets".
    change ("None/assets" +:+ "/") with "None/assets/" at 1.
    rewrite !append_assoc. apply startswith_app. }
  split; [exact Href|].
  intros a base_url dir w r w' H.
  destruct (passes_through a) eqn:Hp.
  { rewrite (resolve_passthrough E _ _ _ _ Hp) in H. injection H as <- _. by left. }
  right.
  destruct (urljoin E base_url (unquote E a)) as [u|] eqn:Hu.
  2:{ by rewrite (resolve_bad_join E _ _ _ _ Hp Hu) in H. }
  destruct (urlsplit E u) as [s|] eqn:Hs.
  2:{ by rewrite (resolve_bad_split E _ _ _ _ _ Hp Hu Hs) in H. }
  rewrite (resolve_unfold E _ _ _ _ _ _ Hp Hu Hs) in H. cbv zeta in H.
  destruct (path_exists _ w).
  { injection H as <- _. right. apply Href. }
  destruct (transport E (requests w) u) as [resp|]; [|done].
  destruct (status_code resp =? 200)%Z.
  - destruct (open_error dir _ w); [done|]. injection H as <- _.
    right. apply Href.
  - injection H as <- _. by left.
Qed.

Lemma unconfigured_mirror_example :
  (forall s, Str.startswith (local_reference unconfigured_env s) "None/assets/"
             = true)
  /\ (forall a base_url dir w r w',
        download_and_replace_asset unconfigured_env a base_url dir w = Return r w' ->
        r = a \/ r = unquote unconfigured_env a
        \/ Str.startswith r "None/assets/" = true).
Proof.
  apply (missing_base_url_renders_None unconfigured_env). reflexivity.
Defined.
